(** * StockGerenciator: the stock ledger and its dashboard aggregates

    A shallow embedding of the parts of the application that decide how
    stock movements change product quantities:

    - the PostgreSQL schema of the migration (tables [products],
      [stock_movements], [user_roles], [categories], [suppliers], the
      row-level-security policies, the trigger function
      [update_product_stock] and its trigger [on_stock_movement_created]);
    - the client forms that write to those tables ([movementSchema] and
      [saveMutation] of the movements page, the two product dialogs, the
      delete mutations);
    - the aggregates computed by the dashboard and the reports page.

    Quantities stored in [DECIMAL(10,2)] columns are integers counting
    hundredths; numbers typed into a form are rationals.  A text is held as
    the bytes of its UTF-8 encoding. *)

From Stdlib Require Import Floats.PrimFloat.
From Stdlib Require Numbers.Cyclic.Int63.Uint63.
From Stdlib Require Import ZArith QArith Lia Ascii.
From stdpp Require Import gmap strings list sorting.

Local Open Scope Z_scope.

(** ** Column types *)

(** A [UUID] value, written the way the database prints it: thirty-two
    lower-case hexadecimal digits in groups of 8, 4, 4, 4 and 12.  The text
    a client sends for one is read by [uuid_in]. *)
Abbreviation uuid := string (only parsing).

(** [TIMESTAMPTZ]: an instant, in milliseconds. *)
Abbreviation timestamptz := Z (only parsing).

(** [CREATE TYPE public.app_role AS ENUM ('admin', 'operator', 'viewer')] *)
Inductive app_role := admin | operator | viewer.

(** [CREATE TYPE public.movement_type AS ENUM ('entry', 'exit', 'adjustment')] *)
Inductive movement_type := entry | exit | adjustment.

(** [CREATE TYPE public.product_unit AS ENUM (...)] *)
Inductive product_unit :=
  unit_un | unit_kg | unit_l | unit_m | unit_m2 | unit_m3 | unit_cx | unit_pc.

#[global] Instance app_role_eq_dec : EqDecision app_role.
Proof. solve_decision. Defined.

#[global] Instance movement_type_eq_dec : EqDecision movement_type.
Proof. solve_decision. Defined.

#[global] Instance product_unit_eq_dec : EqDecision product_unit.
Proof. solve_decision. Defined.

(** ** Errors *)

(** The SQLSTATE classes the modelled statements can raise. *)
Inductive pg_error :=
  | insufficient_privilege        (* 42501, a row-level-security check *)
  | foreign_key_violation         (* 23503 *)
  | unique_violation              (* 23505 *)
  | numeric_value_out_of_range    (* 22003 *)
  | invalid_text_representation   (* 22P02, a text that is no uuid *)
  | invalid_datetime_format       (* 22007, a text that is no date *)
  | datetime_field_overflow.      (* 22008, a date that is on no calendar *)

(** What a mutation of the client can end with. *)
Inductive app_error :=
  | ZodError                      (* the form resolver rejected the values *)
  | NotAuthenticated              (* "Usuário não autenticado" *)
  | PostgrestError (e : pg_error).

Inductive result (A : Type) :=
  | Ok (a : A)
  | Err (e : pg_error).
Arguments Ok {A} a.
Arguments Err {A} e.

#[global] Instance result_ret : MRet result := fun A a => Ok a.
#[global] Instance result_bind : MBind result := fun A B f r =>
  match r with
  | Ok a => f a
  | Err e => Err e
  end.

(** ** DECIMAL(10,2) *)

(** A [DECIMAL(10,2)] holds ten digits, two of them after the point: its
    absolute value is below [10^8], that is below [10^10] hundredths. *)
Definition numeric_limit : Z := 10 ^ 10.

Definition numeric_fits (h : Z) : bool := Z.abs h <? numeric_limit.

(** Storing into the column: a value that does not fit raises. *)
Definition to_numeric_10_2 (h : Z) : result Z :=
  if numeric_fits h then Ok h else Err numeric_value_out_of_range.

(** Rounding a number to scale 2, ties away from zero, in hundredths. *)
Definition round_scale_2 (q : Q) : Z :=
  Z.sgn (Qnum q) *
  ((2 * (100 * Z.abs (Qnum q)) + Z.pos (Qden q)) / (2 * Z.pos (Qden q))).

(** A number sent by the client, coerced to the column type. *)
Definition numeric_in (q : Q) : result Z := to_numeric_10_2 (round_scale_2 q).

(** The number a count of hundredths denotes. *)
Definition hundredths (h : Z) : Q := (h # 100)%Q.

(** ** UUID *)

(** [isxdigit] *)
Definition isxdigit (c : ascii) : bool :=
  let n := nat_of_ascii c in
  ((48 <=? n) && (n <=? 57) || (65 <=? n) && (n <=? 70)
   || (97 <=? n) && (n <=? 102))%nat.

(** A hexadecimal digit as the database prints it. *)
Definition lower_case (c : ascii) : ascii :=
  let n := nat_of_ascii c in
  if ((65 <=? n) && (n <=? 70))%nat then ascii_of_nat (n + 32) else c.

(** The loop of the [uuid] input function over the [n] bytes still to
    read, the byte read now being number [16 - n]: two hexadecimal digits,
    and after them a hyphen is passed over when the byte read has an odd
    number and is not the last.  The result is the digits, with the hyphens
    of the printed form, and the text left. *)
Fixpoint string_to_uuid (n : nat) (src : string) : option (string * string) :=
  match n with
  | O => Some ("", src)
  | S n' =>
      match src with
      | String a (String b rest) =>
          if isxdigit a && isxdigit b then
            let i := (16 - n)%nat in
            let rest :=
              match rest with
              | String "-" rest' => if Nat.odd i && (i <? 15)%nat then rest' else rest
              | _ => rest
              end in
            '(digits, rest) ← string_to_uuid n' rest;
            Some (String (lower_case a) (String (lower_case b)
                    (if bool_decide (i ∈ [3; 5; 7; 9]%nat) then String "-" digits
                     else digits)),
                  rest)
          else None
      | _ => None
      end
  end.

(** [uuid_in]: the value a text stands for.  The text may be in braces, in
    either case, and with hyphens after any group of four digits. *)
Definition uuid_in (text : string) : result uuid :=
  let braces := match text with String "{" _ => true | _ => false end in
  let src := match text with String "{" src => src | _ => text end in
  match string_to_uuid 16 src with
  | Some (value, rest) =>
      if bool_decide (rest = if braces then "}" else "") then Ok value
      else Err invalid_text_representation
  | None => Err invalid_text_representation
  end.

(** ** DATE *)

(** A [DATE] value, written [yyyy-MM-dd] as the database prints it and as
    an [<input type="date">] writes it, the year in four digits or more. *)
Abbreviation date_value := string (only parsing).

Definition isdigit (c : ascii) : bool :=
  let n := nat_of_ascii c in ((48 <=? n) && (n <=? 57))%nat.

(** The number a text of digits writes, after the digits that wrote [n]. *)
Fixpoint digits_value (n : N) (s : string) : N :=
  match s with
  | "" => n
  | String c rest => digits_value (10 * n + (N_of_ascii c - 48))%N rest
  end.

Definition isleap (y : N) : bool :=
  ((y mod 4 =? 0) && (negb (y mod 100 =? 0) || (y mod 400 =? 0)))%N.

Definition days_in_month (y m : N) : N :=
  match m with
  | 2 => if isleap y then 29 else 28
  | 4 | 6 | 9 | 11 => 30
  | _ => 31
  end%N.

(** The leading digits of a text, and what follows them. *)
Fixpoint leading_digits (s : string) : string * string :=
  match s with
  | String c rest =>
      if isdigit c then
        let '(ds, rest') := leading_digits rest in (String c ds, rest')
      else ("", s)
  | "" => ("", "")
  end.

(** [date_in] of the texts of that shape: one that names no day of the
    calendar, or a year past the last one of the type, is out of range; a
    text of another shape is taken for no date.  (The database reads other
    spellings of a date as well; a date input writes none of them.) *)
Definition date_in (text : string) : result date_value :=
  let '(year, rest) := leading_digits text in
  match rest with
  | String "-" (String m1 (String m2 (String "-" (String d1 (String d2 ""))))) =>
      if (4 <=? String.length year)%nat
         && isdigit m1 && isdigit m2 && isdigit d1 && isdigit d2 then
        let y := digits_value 0 year in
        let m := digits_value 0 (String m1 (String m2 "")) in
        let d := digits_value 0 (String d1 (String d2 "")) in
        if ((1 <=? y) && (y <=? 5874897) && (1 <=? m) && (m <=? 12)
            && (1 <=? d) && (d <=? days_in_month y m))%N
        then Ok text
        else Err datetime_field_overflow
      else Err invalid_datetime_format
  | _ => Err invalid_datetime_format
  end.

(** A nullable [DATE]. *)
Definition date_in_opt (text : option string) : result (option date_value) :=
  match text with
  | None => Ok None
  | Some text => d ← date_in text; Ok (Some d)
  end.

(** A nullable text that the column reads as the date it writes: none, or
    a day of the calendar as an [<input type="date">] writes it. *)
Definition date_readable (text : option string) : Prop :=
  date_in_opt text = Ok text.

(** ** Texts in the browser *)

(** The UTF-16 code units a character gives, counted at the byte that
    starts it: none for a continuation byte, two for the start of a
    four-byte character, one for any other. *)
Definition code_units (c : ascii) : nat :=
  let n := nat_of_ascii c in
  (if n <? 128 then 1 else if n <? 192 then 0 else if n <? 240 then 1 else 2)%nat.

(** [s.length] in JavaScript, which counts UTF-16 code units. *)
Fixpoint js_length (s : string) : nat :=
  match s with
  | "" => 0
  | String c rest => code_units c + js_length rest
  end.

(** ** Rows *)

Record product := {
  code : string;
  barcode : option string;
  name : string;
  description : option string;
  category_id : option uuid;
  supplier_id : option uuid;
  p_unit : product_unit;
  current_stock : Z;
  minimum_stock : Z;
  price : option Z;
  image_url : option string;
  batch_control : option bool;
  expiration_control : option bool;
  p_created_at : timestamptz;
  p_updated_at : timestamptz
}.

Record stock_movement := {
  m_id : uuid;
  product_id : uuid;
  type : movement_type;
  quantity : Z;
  batch_number : option string;
  expiration_date : option date_value;
  notes : option string;
  user_id : uuid;
  created_at : timestamptz
}.

Record category := {
  cat_name : string;
  cat_description : option string
}.

Record supplier := {
  sup_name : string;
  contact_name : option string;
  email : option string;
  phone : option string;
  address : option string
}.

(** The tables.  Rows with a primary key are keyed by it; the movement
    table keeps its rows in the order they were inserted, oldest first. *)
Record database := {
  products : gmap uuid product;
  stock_movements : list stock_movement;
  categories : gmap uuid category;
  suppliers : gmap uuid supplier;
  user_roles : list (uuid * app_role)
}.

Definition set_products (ps : gmap uuid product) (db : database) : database :=
  {| products := ps;
     stock_movements := stock_movements db;
     categories := categories db;
     suppliers := suppliers db;
     user_roles := user_roles db |}.

Definition set_stock_movements (ms : list stock_movement) (db : database) : database :=
  {| products := products db;
     stock_movements := ms;
     categories := categories db;
     suppliers := suppliers db;
     user_roles := user_roles db |}.

Definition set_categories (cs : gmap uuid category) (db : database) : database :=
  {| products := products db;
     stock_movements := stock_movements db;
     categories := cs;
     suppliers := suppliers db;
     user_roles := user_roles db |}.

Definition set_suppliers (ss : gmap uuid supplier) (db : database) : database :=
  {| products := products db;
     stock_movements := stock_movements db;
     categories := categories db;
     suppliers := ss;
     user_roles := user_roles db |}.

(** [SET current_stock = v] on one product row, after the
    [update_products_updated_at] trigger stamped it. *)
Definition set_current_stock (v : Z) (now : timestamptz) (p : product) : product :=
  {| code := code p;
     barcode := barcode p;
     name := name p;
     description := description p;
     category_id := category_id p;
     supplier_id := supplier_id p;
     p_unit := p_unit p;
     current_stock := v;
     minimum_stock := minimum_stock p;
     price := price p;
     image_url := image_url p;
     batch_control := batch_control p;
     expiration_control := expiration_control p;
     p_created_at := p_created_at p;
     p_updated_at := now |}.

(** ** The stock trigger *)

(** [UPDATE public.products SET current_stock = f(current_stock)
     WHERE id = pid]: no row matches an unknown id; the new value must fit
    the column. *)
Definition update_current_stock (now : timestamptz) (pid : uuid) (f : Z -> Z)
    (db : database) : result database :=
  match products db !! pid with
  | None => Ok db
  | Some p =>
      v ← to_numeric_10_2 (f (current_stock p));
      Ok (set_products (<[pid := set_current_stock v now p]> (products db)) db)
  end.

(** [public.update_product_stock()], run for the row [NEW]. *)
Definition update_product_stock (now : timestamptz) (NEW : stock_movement)
    (db : database) : result database :=
  match type NEW with
  | entry =>
      update_current_stock now (product_id NEW)
        (fun current_stock => current_stock + quantity NEW) db
  | exit =>
      update_current_stock now (product_id NEW)
        (fun current_stock => current_stock - quantity NEW) db
  | adjustment =>
      update_current_stock now (product_id NEW)
        (fun _ => quantity NEW) db
  end.

(** ** Roles and row-level security *)

(** [public.has_role(_user_id, _role)] *)
Definition has_role (db : database) (_user_id : uuid) (_role : app_role) : bool :=
  existsb (fun r => bool_decide (r.1 = _user_id) && bool_decide (r.2 = _role))
    (user_roles db).

(** What a request carries into the database: the user of its token
    ([auth.uid()], none for an anonymous request), and what
    [gen_random_uuid()] and [NOW()] give while it runs. *)
Record context := {
  auth_uid : option uuid;
  gen_random_uuid : uuid;
  NOW : timestamptz
}.

(** The condition shared by the write policies for admins and operators. *)
Definition admin_or_operator (db : database) (ctx : context) : bool :=
  match auth_uid ctx with
  | None => false
  | Some uid => has_role db uid admin || has_role db uid operator
  end.

Definition only_admin (db : database) (ctx : context) : bool :=
  match auth_uid ctx with
  | None => false
  | Some uid => has_role db uid admin
  end.

(** Policy "Admins and operators can insert stock movements". *)
Definition stock_movements_insert_check (db : database) (ctx : context)
    (NEW : stock_movement) : bool :=
  admin_or_operator db ctx && bool_decide (Some (user_id NEW) = auth_uid ctx).

(** ** Inserting a movement *)

(** A statement either commits the state it reached or raises and leaves
    the state it started from. *)
Definition execute (stmt : database -> result database) (db : database)
    : database * option pg_error :=
  match stmt db with
  | Ok db' => (db', None)
  | Err e => (db, Some e)
  end.

(** The object the client sends ([dataToSave]); the product and the
    expiration date are the texts of the form, the user is the one of the
    session. *)
Record movement_payload := {
  d_product_id : string;
  d_type : movement_type;
  d_quantity : Q;
  d_batch_number : option string;
  d_expiration_date : option string;
  d_notes : option string;
  d_user_id : uuid
}.

(** The foreign key of [stock_movements.product_id], checked for [NEW]. *)
Definition product_id_fkey (NEW : stock_movement) (db : database) : result database :=
  match products db !! product_id NEW with
  | Some _ => Ok db
  | None => Err foreign_key_violation
  end.

(** The row an [INSERT] stores for a payload whose product, quantity and
    expiration date were coerced to [pid], [q] and [expiration]: [id] and
    [created_at] take their defaults. *)
Definition new_stock_movement (ctx : context) (d : movement_payload)
    (pid : uuid) (q : Z) (expiration : option date_value) : stock_movement :=
  {| m_id := gen_random_uuid ctx;
     product_id := pid;
     type := d_type d;
     quantity := q;
     batch_number := d_batch_number d;
     expiration_date := expiration;
     notes := d_notes d;
     user_id := d_user_id d;
     created_at := NOW ctx |}.

(** Is [id] the primary key of a stored movement? *)
Definition movement_exists (id : uuid) (db : database) : bool :=
  existsb (fun r => bool_decide (m_id r = id)) (stock_movements db).

(** [INSERT INTO public.stock_movements] of one row: the values are coerced
    to their columns, in the order of the columns, the policy and the
    primary key are checked, the row is stored, and the row triggers run:
    the foreign-key check and [on_stock_movement_created]. *)
Definition insert_stock_movement (ctx : context) (d : movement_payload)
    (db : database) : result database :=
  pid ← uuid_in (d_product_id d);
  q ← numeric_in (d_quantity d);
  expiration ← date_in_opt (d_expiration_date d);
  let NEW := new_stock_movement ctx d pid q expiration in
  if negb (stock_movements_insert_check db ctx NEW) then Err insufficient_privilege
  else if movement_exists (m_id NEW) db then Err unique_violation
  else
    db ← product_id_fkey NEW (set_stock_movements (stock_movements db ++ [NEW]) db);
    update_product_stock (NOW ctx) NEW db.

(** ** The movements page *)

(** The outcome the page reports: the success toast or the error one. *)
Inductive outcome :=
  | Success
  | Failure (e : app_error).

Definition report (r : database * option pg_error) : database * outcome :=
  match r.2 with
  | None => (r.1, Success)
  | Some e => (r.1, Failure (PostgrestError e))
  end.

(** [z.string().max(n).optional()]: the length is the one of JavaScript. *)
Definition max_length (n : nat) (s : option string) : bool :=
  match s with
  | None => true
  | Some s => bool_decide (js_length s ≤ n)%nat
  end.

(** [s || null] *)
Definition or_null (s : option string) : option string :=
  match s with
  | Some "" => None
  | _ => s
  end.

(** The values of the movement form; [v_quantity] is the number the
    resolver coerced the input to. *)
Record MovementFormValues := {
  v_product_id : string;
  v_type : movement_type;
  v_quantity : Q;
  v_batch_number : option string;
  v_expiration_date : option string;
  v_notes : option string
}.

(** [movementSchema]: does the resolver accept the values?  [min(1)] asks
    for a text that is not empty, which is one with a byte. *)
Definition movementSchema (values : MovementFormValues) : bool :=
  bool_decide (1 ≤ String.length (v_product_id values))%nat
  && Qle_bool (1 # 100) (v_quantity values)
  && max_length 100 (v_batch_number values)
  && max_length 500 (v_notes values).

(** The object [saveMutation] builds from the form values. *)
Definition dataToSave (user : uuid) (values : MovementFormValues) : movement_payload :=
  {| d_product_id := v_product_id values;
     d_type := v_type values;
     d_quantity := v_quantity values;
     d_batch_number := or_null (v_batch_number values);
     d_expiration_date := or_null (v_expiration_date values);
     d_notes := or_null (v_notes values);
     d_user_id := user |}.

(** [saveMutation.mutationFn] of the movements page. *)
Definition saveMutation (ctx : context) (values : MovementFormValues)
    (db : database) : database * outcome :=
  match auth_uid ctx with
  | None => (db, Failure NotAuthenticated)
  | Some user => report (execute (insert_stock_movement ctx (dataToSave user values)) db)
  end.

(** Submitting the form: [form.handleSubmit(onSubmit)] runs the resolver
    and, when it accepts, the mutation.  This is the operation the design
    calls [recordMovement]. *)
Definition recordMovement (ctx : context) (values : MovementFormValues)
    (db : database) : database * outcome :=
  if movementSchema values then saveMutation ctx values db
  else (db, Failure ZodError).

(** ** The ledger rule as the design states it *)

(** The three-case rule: an entry adds, an exit subtracts, an adjustment
    replaces. *)
Definition apply_movement (current_quantity : Z) (mv : stock_movement) : Z :=
  match type mv with
  | entry => current_quantity + quantity mv
  | exit => current_quantity - quantity mv
  | adjustment => quantity mv
  end.

(** The fold of a sequence of movements, in creation order. *)
Definition fold_movements (q0 : Z) (movements : list stock_movement) : Z :=
  fold_left apply_movement movements q0.

(** The movements of one product, in creation order. *)
Definition movements_of (pid : uuid) (ms : list stock_movement) : list stock_movement :=
  filter (fun mv => product_id mv = pid) ms.

(** A product's quantity recomputed from its whole history, from the
    quantity [q0] it was created with. *)
Definition recompute (q0 : Z) (pid : uuid) (db : database) : Z :=
  fold_movements q0 (movements_of pid (stock_movements db)).

(** A session: one [recordMovement] call after the other. *)
Fixpoint record_all (calls : list (context * MovementFormValues)) (db : database)
    : database :=
  match calls with
  | [] => db
  | (ctx, values) :: rest => record_all rest (recordMovement ctx values db).1
  end.

(** The other fields of a movement form pass the resolver. *)
Definition other_fields_valid (values : MovementFormValues) : Prop :=
  (1 ≤ String.length (v_product_id values))%nat ∧
  max_length 100 (v_batch_number values) = true ∧
  max_length 500 (v_notes values) = true.

(** ** The entry and exit dialogs of packcontrol-pro-main *)

(** The [type] property of [StockMovementDialog]: ["entry" | "exit"]. *)
Inductive entry_or_exit := of_entry | of_exit.

Definition dialog_type (t : entry_or_exit) : movement_type :=
  match t with
  | of_entry => entry
  | of_exit => exit
  end.

(** [s || null] for a text that is always there. *)
Definition text_or_null (s : string) : option string :=
  match s with
  | "" => None
  | _ => Some s
  end.

Record StockMovementFormData := {
  g_product_id : string;
  g_quantity : Q;
  g_batch_number : string;
  g_expiration_date : string;
  g_notes : string
}.

(** [movementSchema] of the dialog. *)
Definition dialog_movementSchema (formData : StockMovementFormData) : bool :=
  bool_decide (1 ≤ String.length (g_product_id formData))%nat
  && Qle_bool (1 # 100) (g_quantity formData).

(** [handleSubmit] of [StockMovementDialog]. *)
Definition StockMovementDialog_handleSubmit (ctx : context) (t : entry_or_exit)
    (formData : StockMovementFormData) (db : database) : database * outcome :=
  if dialog_movementSchema formData then
    match auth_uid ctx with
    | None => (db, Failure NotAuthenticated)
    | Some user =>
        report (execute
          (insert_stock_movement ctx
             {| d_product_id := g_product_id formData;
                d_type := dialog_type t;
                d_quantity := g_quantity formData;
                d_batch_number := text_or_null (g_batch_number formData);
                d_expiration_date := text_or_null (g_expiration_date formData);
                d_notes := text_or_null (g_notes formData);
                d_user_id := user |}) db)
    end
  else (db, Failure ZodError).

(** ** Products *)

(** The columns a client sends for a product.  The dialog of
    packcontrol-pro-main sends neither [current_stock] nor the two control
    flags. *)
Record product_payload := {
  c_code : string;
  c_barcode : option string;
  c_name : string;
  c_description : option string;
  c_category_id : option uuid;
  c_supplier_id : option uuid;
  c_unit : product_unit;
  c_minimum_stock : Q;
  c_current_stock : option Q;
  c_price : option Q;
  c_batch_control : option bool;
  c_expiration_control : option bool
}.

(** An optional number coerced to a nullable [DECIMAL(10,2)]. *)
Definition numeric_in_opt (q : option Q) : result (option Z) :=
  match q with
  | None => Ok None
  | Some q => h ← numeric_in q; Ok (Some h)
  end.

(** The foreign keys of a product row. *)
Definition products_fkeys (p : product) (db : database) : bool :=
  match category_id p with
  | None => true
  | Some c => bool_decide (is_Some (categories db !! c))
  end
  && match supplier_id p with
     | None => true
     | Some s => bool_decide (is_Some (suppliers db !! s))
     end.

(** [code TEXT UNIQUE]: does a product other than [self] have the code? *)
Definition code_in_use (c : string) (self : uuid) (db : database) : bool :=
  existsb (λ kv : string * product,
             bool_decide (code kv.2 = c) && negb (bool_decide (kv.1 = self)))
    (map_to_list (products db)).

(** [INSERT INTO public.products]: the columns left out take their
    defaults. *)
Definition insert_product (ctx : context) (c : product_payload) (db : database)
    : result database :=
  minimum ← numeric_in (c_minimum_stock c);
  current ← numeric_in_opt (c_current_stock c);
  price ← numeric_in_opt (c_price c);
  let NEW := {| code := c_code c;
                barcode := c_barcode c;
                name := c_name c;
                description := c_description c;
                category_id := c_category_id c;
                supplier_id := c_supplier_id c;
                p_unit := c_unit c;
                current_stock := default 0 current;
                minimum_stock := minimum;
                price := price;
                image_url := None;
                batch_control := Some (default false (c_batch_control c));
                expiration_control := Some (default false (c_expiration_control c));
                p_created_at := NOW ctx;
                p_updated_at := NOW ctx |} in
  if negb (admin_or_operator db ctx) then Err insufficient_privilege
  else if bool_decide (is_Some (products db !! gen_random_uuid ctx))
  then Err unique_violation
  else if code_in_use (code NEW) (gen_random_uuid ctx) db then Err unique_violation
  else if negb (products_fkeys NEW db) then Err foreign_key_violation
  else Ok (set_products (<[gen_random_uuid ctx := NEW]> (products db)) db).

(** [UPDATE public.products SET ... WHERE id = id]: a row the policy hides
    is not updated, and that is no error. *)
Definition update_product (ctx : context) (id : uuid) (c : product_payload)
    (db : database) : result database :=
  minimum ← numeric_in (c_minimum_stock c);
  current ← numeric_in_opt (c_current_stock c);
  price ← numeric_in_opt (c_price c);
  match products db !! id with
  | None => Ok db
  | Some OLD =>
      if negb (admin_or_operator db ctx) then Ok db
      else
        let NEW := {| code := c_code c;
                      barcode := c_barcode c;
                      name := c_name c;
                      description := c_description c;
                      category_id := c_category_id c;
                      supplier_id := c_supplier_id c;
                      p_unit := c_unit c;
                      current_stock := default (current_stock OLD) current;
                      minimum_stock := minimum;
                      price := price;
                      image_url := image_url OLD;
                      batch_control :=
                        match c_batch_control c with
                        | Some b => Some b
                        | None => batch_control OLD
                        end;
                      expiration_control :=
                        match c_expiration_control c with
                        | Some b => Some b
                        | None => expiration_control OLD
                        end;
                      p_created_at := p_created_at OLD;
                      p_updated_at := NOW ctx |} in
        if code_in_use (code NEW) id db then Err unique_violation
        else if negb (products_fkeys NEW db) then Err foreign_key_violation
        else Ok (set_products (<[id := NEW]> (products db)) db)
  end.

(** [DELETE FROM public.products WHERE id = id]: only an admin sees the row;
    [ON DELETE CASCADE] removes the movements of the product with it. *)
Definition delete_product (ctx : context) (id : uuid) (db : database)
    : result database :=
  match products db !! id with
  | None => Ok db
  | Some _ =>
      if negb (only_admin db ctx) then Ok db
      else
        Ok (set_stock_movements
              (filter (λ mv, product_id mv ≠ id) (stock_movements db))
              (set_products (delete id (products db)) db))
  end.

(** *** The product dialog *)

(** The values of the product form.  The category and the supplier are
    picked from the lists of the stored ones: each is the id of a row the
    page loaded, or empty. *)
Record ProductFormValues := {
  f_code : string;
  f_name : string;
  f_description : option string;
  f_category_id : option string;
  f_supplier_id : option string;
  f_unit : product_unit;
  f_minimum_stock : Q;
  f_current_stock : Q;
  f_price : option Q;
  f_barcode : option string;
  f_batch_control : bool;
  f_expiration_control : bool
}.

(** [z.string().min(lo).max(hi)] *)
Definition length_between (lo hi : nat) (s : string) : bool :=
  bool_decide (lo ≤ js_length s ≤ hi)%nat.

(** [productSchema]: does the resolver accept the values? *)
Definition productSchema (values : ProductFormValues) : bool :=
  length_between 1 50 (f_code values)
  && length_between 1 200 (f_name values)
  && max_length 1000 (f_description values)
  && Qle_bool 0 (f_minimum_stock values)
  && Qle_bool 0 (f_current_stock values)
  && match f_price values with
     | None => true
     | Some q => Qle_bool 0 q
     end
  && max_length 100 (f_barcode values).

(** [n || null] for an optional number: zero is falsy. *)
Definition number_or_null (q : option Q) : option Q :=
  match q with
  | Some q => if Qeq_bool q 0 then None else Some q
  | None => None
  end.

(** The object [saveMutation] of the product dialog builds. *)
Definition product_dataToSave (values : ProductFormValues) : product_payload :=
  {| c_code := f_code values;
     c_name := f_name values;
     c_unit := f_unit values;
     c_minimum_stock := f_minimum_stock values;
     c_current_stock := Some (f_current_stock values);
     c_batch_control := Some (f_batch_control values);
     c_expiration_control := Some (f_expiration_control values);
     c_category_id := or_null (f_category_id values);
     c_supplier_id := or_null (f_supplier_id values);
     c_description := or_null (f_description values);
     c_price := number_or_null (f_price values);
     c_barcode := or_null (f_barcode values) |}.

(** [saveMutation.mutationFn] of the product dialog; [productId] is there
    when the dialog edits. *)
Definition ProductDialog_saveMutation (ctx : context) (productId : option uuid)
    (values : ProductFormValues) (db : database) : database * outcome :=
  match productId with
  | Some id => report (execute (update_product ctx id (product_dataToSave values)) db)
  | None => report (execute (insert_product ctx (product_dataToSave values)) db)
  end.

Definition ProductDialog_onSubmit (ctx : context) (productId : option uuid)
    (values : ProductFormValues) (db : database) : database * outcome :=
  if productSchema values then ProductDialog_saveMutation ctx productId values db
  else (db, Failure ZodError).

(** *** The product dialog of packcontrol-pro-main *)

Record ProductFormData := {
  o_code : string;
  o_barcode : string;
  o_name : string;
  o_description : string;
  o_category_id : string;
  o_supplier_id : string;
  o_unit : product_unit;
  o_minimum_stock : Q;
  o_price : Q
}.

(** Its [productSchema], parsed in [handleSubmit]. *)
Definition packcontrol_productSchema (formData : ProductFormData) : bool :=
  bool_decide (1 ≤ String.length (o_code formData))%nat
  && bool_decide (3 ≤ js_length (o_name formData))%nat
  && Qle_bool 0 (o_minimum_stock formData)
  && Qle_bool 0 (o_price formData).

Definition submitData (formData : ProductFormData) : product_payload :=
  {| c_code := o_code formData;
     c_barcode := Some (o_barcode formData);
     c_name := o_name formData;
     c_description := Some (o_description formData);
     c_category_id := text_or_null (o_category_id formData);
     c_supplier_id := text_or_null (o_supplier_id formData);
     c_unit := o_unit formData;
     c_minimum_stock := o_minimum_stock formData;
     c_current_stock := None;
     c_price := number_or_null (Some (o_price formData));
     c_batch_control := None;
     c_expiration_control := None |}.

(** [handleSubmit] of that dialog; [product] is the edited one. *)
Definition packcontrol_ProductDialog_handleSubmit (ctx : context) (product : option uuid)
    (formData : ProductFormData) (db : database) : database * outcome :=
  if packcontrol_productSchema formData then
    match product with
    | Some id => report (execute (update_product ctx id (submitData formData)) db)
    | None => report (execute (insert_product ctx (submitData formData)) db)
    end
  else (db, Failure ZodError).

(** [deleteMutation] of the products page and [handleDelete] of the
    packcontrol-pro-main dialog. *)
Definition Products_deleteMutation (ctx : context) (id : uuid) (db : database)
    : database * outcome :=
  report (execute (delete_product ctx id) db).

(** ** Categories and suppliers *)

(** Is a category, or a supplier, still referenced by a product? *)
Definition category_referenced (id : uuid) (db : database) : bool :=
  existsb (λ kv : string * product, bool_decide (category_id kv.2 = Some id))
    (map_to_list (products db)).

Definition supplier_referenced (id : uuid) (db : database) : bool :=
  existsb (λ kv : string * product, bool_decide (supplier_id kv.2 = Some id))
    (map_to_list (products db)).

(** [saveMutation.mutationFn] of the categories page, on the object it
    built. *)
Definition Categories_saveMutation (ctx : context) (selectedCategoryId : option uuid)
    (dataToSave : category) (db : database) : database * outcome :=
  report (execute (λ db,
    match selectedCategoryId with
    | Some id =>
        match categories db !! id with
        | None => Ok db
        | Some _ =>
            if negb (only_admin db ctx) then Ok db
            else Ok (set_categories (<[id := dataToSave]> (categories db)) db)
        end
    | None =>
        if negb (only_admin db ctx) then Err insufficient_privilege
        else if bool_decide (is_Some (categories db !! gen_random_uuid ctx))
        then Err unique_violation
        else Ok (set_categories (<[gen_random_uuid ctx := dataToSave]> (categories db)) db)
    end) db).

Definition Categories_deleteMutation (ctx : context) (id : uuid) (db : database)
    : database * outcome :=
  report (execute (λ db,
    match categories db !! id with
    | None => Ok db
    | Some _ =>
        if negb (only_admin db ctx) then Ok db
        else if category_referenced id db then Err foreign_key_violation
        else Ok (set_categories (delete id (categories db)) db)
    end) db).

Definition Suppliers_saveMutation (ctx : context) (selectedSupplierId : option uuid)
    (dataToSave : supplier) (db : database) : database * outcome :=
  report (execute (λ db,
    match selectedSupplierId with
    | Some id =>
        match suppliers db !! id with
        | None => Ok db
        | Some _ =>
            if negb (only_admin db ctx) then Ok db
            else Ok (set_suppliers (<[id := dataToSave]> (suppliers db)) db)
        end
    | None =>
        if negb (only_admin db ctx) then Err insufficient_privilege
        else if bool_decide (is_Some (suppliers db !! gen_random_uuid ctx))
        then Err unique_violation
        else Ok (set_suppliers (<[gen_random_uuid ctx := dataToSave]> (suppliers db)) db)
    end) db).

Definition Suppliers_deleteMutation (ctx : context) (id : uuid) (db : database)
    : database * outcome :=
  report (execute (λ db,
    match suppliers db !! id with
    | None => Ok db
    | Some _ =>
        if negb (only_admin db ctx) then Ok db
        else if supplier_referenced id db then Err foreign_key_violation
        else Ok (set_suppliers (delete id (suppliers db)) db)
    end) db).

(** ** Every write the application makes *)

Inductive operation :=
  | Movements_onSubmit (values : MovementFormValues)
  | StockMovementDialog_submit (t : entry_or_exit) (formData : StockMovementFormData)
  | ProductDialog_submit (productId : option uuid) (values : ProductFormValues)
  | packcontrol_ProductDialog_submit (product : option uuid) (formData : ProductFormData)
  | packcontrol_ProductDialog_handleDelete (product : uuid)
  | Products_delete (id : uuid)
  | Categories_save (selectedCategoryId : option uuid) (dataToSave : category)
  | Categories_delete (id : uuid)
  | Suppliers_save (selectedSupplierId : option uuid) (dataToSave : supplier)
  | Suppliers_delete (id : uuid).

Definition perform (ctx : context) (op : operation) (db : database)
    : database * outcome :=
  match op with
  | Movements_onSubmit values => recordMovement ctx values db
  | StockMovementDialog_submit t formData =>
      StockMovementDialog_handleSubmit ctx t formData db
  | ProductDialog_submit productId values =>
      ProductDialog_onSubmit ctx productId values db
  | packcontrol_ProductDialog_submit product formData =>
      packcontrol_ProductDialog_handleSubmit ctx product formData db
  | packcontrol_ProductDialog_handleDelete product => Products_deleteMutation ctx product db
  | Products_delete id => Products_deleteMutation ctx id db
  | Categories_save selected dataToSave =>
      Categories_saveMutation ctx selected dataToSave db
  | Categories_delete id => Categories_deleteMutation ctx id db
  | Suppliers_save selected dataToSave =>
      Suppliers_saveMutation ctx selected dataToSave db
  | Suppliers_delete id => Suppliers_deleteMutation ctx id db
  end.

(** *** What an operation asks for *)

(** Does the operation submit a movement form? *)
Definition submits_movement (op : operation) : bool :=
  match op with
  | Movements_onSubmit _ | StockMovementDialog_submit _ _ => true
  | _ => false
  end.

(** The product an accepted product form is about (none for a new one) and
    the object sent for it. *)
Definition product_write (op : operation) : option (option uuid * product_payload) :=
  match op with
  | ProductDialog_submit productId values =>
      if productSchema values then Some (productId, product_dataToSave values) else None
  | packcontrol_ProductDialog_submit product formData =>
      if packcontrol_productSchema formData then Some (product, submitData formData) else None
  | _ => None
  end.

(** The product a delete button is pressed for. *)
Definition product_removal (op : operation) : option uuid :=
  match op with
  | Products_delete id | packcontrol_ProductDialog_handleDelete id => Some id
  | _ => None
  end.

(** What an operation can have written to the product and movement tables. *)
Inductive written (ctx : context) (op : operation) (db db' : database) : Prop :=
  | nothing_written :
      products db' = products db →
      stock_movements db' = stock_movements db →
      written ctx op db db'
  | movement_recorded NEW p :
      submits_movement op = true →
      products db !! product_id NEW = Some p →
      stock_movements db' = stock_movements db ++ [NEW] →
      products db' =
        <[product_id NEW :=
            set_current_stock (apply_movement (current_stock p) NEW) (NOW ctx) p]>
          (products db) →
      written ctx op db db'
  | product_created c NEW :
      product_write op = Some (None, c) →
      products db !! gen_random_uuid ctx = None →
      products db' = <[gen_random_uuid ctx := NEW]> (products db) →
      stock_movements db' = stock_movements db →
      current_stock NEW = default 0 (round_scale_2 <$> c_current_stock c) →
      written ctx op db db'
  | product_updated id c OLD NEW :
      product_write op = Some (Some id, c) →
      products db !! id = Some OLD →
      products db' = <[id := NEW]> (products db) →
      stock_movements db' = stock_movements db →
      current_stock NEW =
        default (current_stock OLD) (round_scale_2 <$> c_current_stock c) →
      written ctx op db db'
  | product_deleted id :
      product_removal op = Some id →
      products db' = delete id (products db) →
      stock_movements db' =
        filter (λ mv, product_id mv ≠ id) (stock_movements db) →
      written ctx op db db'.

(** *** Requests past the application *)

(** The policies of [stock_movements] are one [FOR SELECT] and one
    [FOR INSERT]: an [UPDATE] or a [DELETE] sent to the table directly finds
    no policy, and row-level security then shows it no row. *)
Inductive command := SELECT | INSERT | UPDATE | DELETE.

Definition stock_movements_policy (cmd : command) (db : database) (ctx : context)
    (row : stock_movement) : bool :=
  match cmd with
  | SELECT => bool_decide (is_Some (auth_uid ctx))
  | INSERT => stock_movements_insert_check db ctx row
  | UPDATE => false
  | DELETE => false
  end.

(** [UPDATE public.stock_movements SET ... WHERE ...] *)
Definition update_stock_movements (ctx : context) (where_ : stock_movement → bool)
    (set : stock_movement → stock_movement) (db : database) : database :=
  set_stock_movements
    ((λ row, if stock_movements_policy UPDATE db ctx row && where_ row
             then set row else row) <$> stock_movements db)
    db.

(** [DELETE FROM public.stock_movements WHERE ...] *)
Definition delete_stock_movements (ctx : context) (where_ : stock_movement → bool)
    (db : database) : database :=
  set_stock_movements
    (filter (λ row, ¬ (stock_movements_policy DELETE db ctx row && where_ row))
       (stock_movements db))
    db.

(** ** The dashboard and the reports *)

(** [.from("products").select("*")] *)
Definition select_products (db : database) : list product :=
  (map_to_list (products db)).*2.

(** [n || 0], for a count that is undefined while its query loads. *)
Definition or_zero (n : option nat) : nat := default 0%nat n.

(** [products?.length || 0] *)
Definition totalProducts (products : option (list product)) : nat :=
  or_zero (length <$> products).

(** [products?.filter(p => p.current_stock <= p.minimum_stock).length || 0],
    on the dashboard and on the reports page. *)
Definition lowStockProducts (products : option (list product)) : nat :=
  or_zero (length <$> (filter (λ p, current_stock p ≤ minimum_stock p) <$> products)).

(** The number the client holds for a [DECIMAL(10,2)] of [h] hundredths,
    in absolute value below [numeric_limit]: the double nearest to it. *)
Definition js_number (h : Z) : PrimFloat.float :=
  let n := PrimFloat.div (PrimFloat.of_uint63 (Uint63.of_Z (Z.abs h)))
             (PrimFloat.of_uint63 (Uint63.of_Z 100)) in
  if h <? 0 then PrimFloat.opp n else n.

(** The three labels of the products page. *)
Inductive stock_status := Baixo | Atencao | Normal.

(** [getStockStatus] of the products page, called with the current and the
    minimum stock of a row.  Two columns compare as their decimals do; the
    product with [1.5] is the one of doubles. *)
Definition getStockStatus (current minimum : Z) : stock_status :=
  if current <=? minimum then Baixo
  else if PrimFloat.leb (js_number current)
            (PrimFloat.mul (js_number minimum) 1.5%float)
  then Atencao
  else Normal.

(** [ORDER BY created_at DESC]: a movement goes in front of the first one
    that is not more recent. *)
Fixpoint insert_by_created_at (mv : stock_movement) (sorted : list stock_movement)
    : list stock_movement :=
  match sorted with
  | [] => [mv]
  | x :: rest =>
      if created_at x <=? created_at mv then mv :: x :: rest
      else x :: insert_by_created_at mv rest
  end.

Definition order_by_created_at_desc (ms : list stock_movement) : list stock_movement :=
  foldr insert_by_created_at [] ms.

(** The order of the result: [a] comes before [b] when [b] is not more
    recent. *)
Definition not_older (a b : stock_movement) : Prop := created_at b ≤ created_at a.

(** The query ["recent-movements"]:
    [.order("created_at", { ascending: false }).limit(5)]. *)
Definition recent_movements (db : database) : list stock_movement :=
  take 5 (order_by_created_at_desc (stock_movements db)).

(** The browser: its clock ([new Date()]) and the offset of its time zone,
    both in milliseconds. *)
Record browser := {
  clock : Z;
  utc_offset : Z
}.

(** [new Date(t).toDateString()], as the number of the local calendar day. *)
Definition toDateString (b : browser) (t : Z) : Z := (t + utc_offset b) / 86400000.

(** The filter of [todayEntries] and [todayExits]. *)
Definition of_kind_today (b : browser) (k : movement_type) (m : stock_movement) : Prop :=
  type m = k ∧ toDateString b (clock b) = toDateString b (created_at m).

#[global] Instance of_kind_today_dec b k m : Decision (of_kind_today b k m).
Proof. unfold of_kind_today. apply _. Defined.

Definition todayEntries (b : browser) (movements : option (list stock_movement)) : nat :=
  or_zero (length <$> (filter (of_kind_today b entry) <$> movements)).

Definition todayExits (b : browser) (movements : option (list stock_movement)) : nat :=
  or_zero (length <$> (filter (of_kind_today b exit) <$> movements)).

(** The four figures of the dashboard cards that the stock decides. *)
Record dashboard_cards := {
  card_totalProducts : nat;
  card_lowStockProducts : nat;
  card_todayEntries : nat;
  card_todayExits : nat
}.

Definition Dashboard (b : browser) (db : database) : dashboard_cards :=
  let products := Some (select_products db) in
  let movements := Some (recent_movements db) in
  {| card_totalProducts := totalProducts products;
     card_lowStockProducts := lowStockProducts products;
     card_todayEntries := todayEntries b movements;
     card_todayExits := todayExits b movements |}.

(** [SET minimum_stock = v] on one product row. *)
Definition set_minimum_stock (v : Z) (p : product) : product :=
  {| code := code p;
     barcode := barcode p;
     name := name p;
     description := description p;
     category_id := category_id p;
     supplier_id := supplier_id p;
     p_unit := p_unit p;
     current_stock := current_stock p;
     minimum_stock := v;
     price := price p;
     image_url := image_url p;
     batch_control := batch_control p;
     expiration_control := expiration_control p;
     p_created_at := p_created_at p;
     p_updated_at := p_updated_at p |}.

(** The database with another threshold for the product [pid]. *)
Definition with_minimum_stock (pid : uuid) (v : Z) (db : database) : database :=
  set_products (alter (set_minimum_stock v) pid (products db)) db.

(** A statement's result, with [f] applied to the state it reached. *)
Definition on_state (f : database → database) (r : result database) : result database :=
  match r with
  | Ok db => Ok (f db)
  | Err e => Err e
  end.

(** ** A small shop to run the definitions on *)

(** The ids of the rows of the examples: products, movements, users,
    categories, a supplier, and an id for a request that stores no row or
    that no example looks at. *)
Definition id_p1 : uuid := "10000000-0000-4000-8000-000000000001".
Definition id_p2 : uuid := "10000000-0000-4000-8000-000000000002".
Definition id_m0 : uuid := "20000000-0000-4000-8000-000000000000".
Definition id_m1 : uuid := "20000000-0000-4000-8000-000000000001".
Definition id_m2 : uuid := "20000000-0000-4000-8000-000000000002".
Definition id_m3 : uuid := "20000000-0000-4000-8000-000000000003".
Definition id_m4 : uuid := "20000000-0000-4000-8000-000000000004".
Definition id_m5 : uuid := "20000000-0000-4000-8000-000000000005".
Definition id_m6 : uuid := "20000000-0000-4000-8000-000000000006".
Definition id_m7 : uuid := "20000000-0000-4000-8000-000000000007".
Definition id_m8 : uuid := "20000000-0000-4000-8000-000000000008".
Definition id_m9 : uuid := "20000000-0000-4000-8000-000000000009".
Definition id_ana : uuid := "30000000-0000-4000-8000-000000000001".
Definition id_bob : uuid := "30000000-0000-4000-8000-000000000002".
Definition id_eve : uuid := "30000000-0000-4000-8000-000000000003".
Definition id_zoe : uuid := "30000000-0000-4000-8000-000000000004".
Definition id_c1 : uuid := "40000000-0000-4000-8000-000000000001".
Definition id_c2 : uuid := "40000000-0000-4000-8000-000000000002".
Definition id_s1 : uuid := "50000000-0000-4000-8000-000000000001".
Definition id_x : uuid := "60000000-0000-4000-8000-000000000000".

Definition widget (stock minimum : Z) : product :=
  {| code := "W-1"; barcode := None; name := "Widget"; description := None;
     category_id := None; supplier_id := None; p_unit := unit_un;
     current_stock := stock; minimum_stock := minimum; price := Some 250;
     image_url := None; batch_control := Some false;
     expiration_control := Some false;
     p_created_at := 0; p_updated_at := 0 |}.

(** One product [id_p1], an operator, a viewer and an admin; quantities in
    hundredths. *)
Definition shop (stock : Z) : database :=
  {| products := {[ id_p1 := widget stock 500 ]};
     stock_movements := [];
     categories := ∅;
     suppliers := ∅;
     user_roles := [(id_ana, operator); (id_bob, viewer); (id_eve, admin)] |}.

Definition as_user (user fresh : uuid) (t : timestamptz) : context :=
  {| auth_uid := Some user; gen_random_uuid := fresh; NOW := t |}.

Definition movement_form (pid : string) (k : movement_type) (q : Q)
    : MovementFormValues :=
  {| v_product_id := pid; v_type := k; v_quantity := q;
     v_batch_number := Some ""; v_expiration_date := Some ""; v_notes := Some "" |}.

(** A movement of the ledger, stamped [t]. *)
Definition movement_at (id : uuid) (k : movement_type) (t : timestamptz)
    : stock_movement :=
  {| m_id := id; product_id := id_p1; type := k; quantity := 100;
     batch_number := None; expiration_date := None; notes := None;
     user_id := id_ana; created_at := t |}.

(** Six entries and an exit, all made on calendar day 0. *)
Definition busy_day : database :=
  set_stock_movements
    [movement_at id_m1 entry 1000; movement_at id_m2 entry 2000;
     movement_at id_m3 exit 3000; movement_at id_m4 entry 4000;
     movement_at id_m5 entry 5000; movement_at id_m6 entry 6000;
     movement_at id_m7 entry 7000]
    (shop 1000).

Definition at_noon : browser := {| clock := 43200000; utc_offset := 0 |}.

(** The product form as it opens for [id_p1], with another current stock. *)
Definition widget_form (stock : Q) : ProductFormValues :=
  {| f_code := "W-1"; f_name := "Widget"; f_description := Some "";
     f_category_id := None; f_supplier_id := None; f_unit := unit_un;
     f_minimum_stock := hundredths 500; f_current_stock := stock;
     f_price := Some (hundredths 250); f_barcode := Some "";
     f_batch_control := false; f_expiration_control := false |}.

Definition gadget_form (stock : Q) : ProductFormValues :=
  {| f_code := "G-1"; f_name := "Gadget"; f_description := Some "";
     f_category_id := None; f_supplier_id := None; f_unit := unit_un;
     f_minimum_stock := hundredths 0; f_current_stock := stock;
     f_price := None; f_barcode := Some "";
     f_batch_control := false; f_expiration_control := false |}.

(** The shop after an entry of 5 and an exit of 2 on [id_p1]. *)
Definition shop_with_history : database :=
  record_all
    [(as_user id_ana id_m1 1, movement_form id_p1 entry (hundredths 500));
     (as_user id_ana id_m2 2, movement_form id_p1 exit (hundredths 200))]
    (shop 1000).

(** * The rest of the application *)

(** ** What an operation did, in full *)

(** The possible effects of [perform], with the checks that let each one
    through. *)
Inductive performed (ctx : context) (op : operation) (db db' : database) : Prop :=
  | performed_nothing :
      db' = db →
      performed ctx op db db'
  | performed_movement NEW p :
      submits_movement op = true →
      auth_uid ctx = Some (user_id NEW) →
      admin_or_operator db ctx = true →
      m_id NEW = gen_random_uuid ctx →
      created_at NEW = NOW ctx →
      movement_exists (m_id NEW) db = false →
      numeric_fits (quantity NEW) = true →
      1 ≤ quantity NEW →
      batch_number NEW ≠ Some "" →
      expiration_date NEW ≠ Some "" →
      notes NEW ≠ Some "" →
      (∀ t formData, op = StockMovementDialog_submit t formData →
                     type NEW = dialog_type t) →
      products db !! product_id NEW = Some p →
      numeric_fits (apply_movement (current_stock p) NEW) = true →
      db' = set_products
              (<[product_id NEW :=
                   set_current_stock (apply_movement (current_stock p) NEW)
                     (NOW ctx) p]> (products db))
              (set_stock_movements (stock_movements db ++ [NEW]) db) →
      performed ctx op db db'
  | performed_product_insert c NEW :
      product_write op = Some (None, c) →
      admin_or_operator db ctx = true →
      products db !! gen_random_uuid ctx = None →
      code NEW = c_code c →
      code_in_use (c_code c) (gen_random_uuid ctx) db = false →
      products_fkeys NEW db = true →
      current_stock NEW = default 0 (round_scale_2 <$> c_current_stock c) →
      minimum_stock NEW = round_scale_2 (c_minimum_stock c) →
      price NEW = round_scale_2 <$> c_price c →
      numeric_fits (current_stock NEW) = true →
      numeric_fits (minimum_stock NEW) = true →
      (∀ x, price NEW = Some x → numeric_fits x = true) →
      db' = set_products (<[gen_random_uuid ctx := NEW]> (products db)) db →
      performed ctx op db db'
  | performed_product_update id c OLD NEW :
      product_write op = Some (Some id, c) →
      admin_or_operator db ctx = true →
      products db !! id = Some OLD →
      code NEW = c_code c →
      code_in_use (c_code c) id db = false →
      products_fkeys NEW db = true →
      current_stock NEW =
        default (current_stock OLD) (round_scale_2 <$> c_current_stock c) →
      minimum_stock NEW = round_scale_2 (c_minimum_stock c) →
      price NEW = round_scale_2 <$> c_price c →
      (numeric_fits (current_stock OLD) = true →
       numeric_fits (current_stock NEW) = true) →
      numeric_fits (minimum_stock NEW) = true →
      (∀ x, price NEW = Some x → numeric_fits x = true) →
      db' = set_products (<[id := NEW]> (products db)) db →
      performed ctx op db db'
  | performed_product_delete id :
      product_removal op = Some id →
      only_admin db ctx = true →
      is_Some (products db !! id) →
      db' = set_stock_movements
              (filter (λ mv, product_id mv ≠ id) (stock_movements db))
              (set_products (delete id (products db)) db) →
      performed ctx op db db'
  | performed_category_save id d :
      only_admin db ctx = true →
      db' = set_categories (<[id := d]> (categories db)) db →
      performed ctx op db db'
  | performed_category_delete id :
      only_admin db ctx = true →
      category_referenced id db = false →
      db' = set_categories (delete id (categories db)) db →
      performed ctx op db db'
  | performed_supplier_save id d :
      only_admin db ctx = true →
      db' = set_suppliers (<[id := d]> (suppliers db)) db →
      performed ctx op db db'
  | performed_supplier_delete id :
      only_admin db ctx = true →
      supplier_referenced id db = false →
      db' = set_suppliers (delete id (suppliers db)) db →
      performed ctx op db db'.

(** ** What the schema keeps *)

(** Every foreign key points at a row. *)
Definition referential_integrity (db : database) : Prop :=
  (∀ mv, mv ∈ stock_movements db → is_Some (products db !! product_id mv)) ∧
  (∀ id p c, products db !! id = Some p → category_id p = Some c →
             is_Some (categories db !! c)) ∧
  (∀ id p s, products db !! id = Some p → supplier_id p = Some s →
             is_Some (suppliers db !! s)).

(** [code TEXT UNIQUE]: no two products share a code. *)
Definition codes_unique (db : database) : Prop :=
  ∀ i j p q, products db !! i = Some p → products db !! j = Some q →
             code p = code q → i = j.

(** The primary key of [stock_movements]. *)
Definition movement_ids_unique (db : database) : Prop :=
  NoDup (m_id <$> stock_movements db).

(** Every stored number is a [DECIMAL(10,2)]. *)
Definition columns_in_range (db : database) : Prop :=
  (∀ id p, products db !! id = Some p →
     numeric_fits (current_stock p) = true ∧
     numeric_fits (minimum_stock p) = true ∧
     ∀ x, price p = Some x → numeric_fits x = true) ∧
  (∀ mv, mv ∈ stock_movements db → numeric_fits (quantity mv) = true).

(** What the two product forms demand of a minimum and of a price. *)
Definition thresholds_nonnegative (db : database) : Prop :=
  ∀ id p, products db !! id = Some p →
    0 ≤ minimum_stock p ∧ ∀ x, price p = Some x → 0 ≤ x.

(** ** Signing up *)

Record profile := {
  full_name : option string;
  avatar_url : option string;
  pr_created_at : timestamptz;
  pr_updated_at : timestamptz
}.

(** The public tables together with [profiles]. *)
Record backend := {
  public : database;
  profiles : gmap uuid profile
}.

(** The row of [auth.users] a sign-up inserts: its id and the
    ['full_name'] of its [raw_user_meta_data]. *)
Record auth_user := {
  au_id : uuid;
  au_full_name : option string
}.

Definition set_user_roles (rs : list (uuid * app_role)) (db : database) : database :=
  {| products := products db;
     stock_movements := stock_movements db;
     categories := categories db;
     suppliers := suppliers db;
     user_roles := rs |}.

(** [public.handle_new_user()], run by [on_auth_user_created] for the row
    [NEW]: a profile, then the default role. *)
Definition handle_new_user (now : timestamptz) (NEW : auth_user) (b : backend)
    : result backend :=
  if bool_decide (is_Some (profiles b !! au_id NEW)) then Err unique_violation
  else
    let profiles' :=
      <[au_id NEW := {| full_name := au_full_name NEW; avatar_url := None;
                        pr_created_at := now; pr_updated_at := now |}]>
        (profiles b) in
    if existsb (λ r : string * app_role, bool_decide (r = (au_id NEW, viewer)))
         (user_roles (public b))
    then Err unique_violation
    else
      Ok {| public := set_user_roles (user_roles (public b) ++ [(au_id NEW, viewer)])
                        (public b);
            profiles := profiles' |}.

(** ** The lists of movements *)

(** The query of the movements page: every movement, the most recent
    first. *)
Definition select_movements (db : database) : list stock_movement :=
  order_by_created_at_desc (stock_movements db).

(** The queries of the entries and exits pages:
    [.eq("type", t).order("created_at", { ascending: false })]. *)
Definition select_movements_of_type (t : movement_type) (db : database)
    : list stock_movement :=
  order_by_created_at_desc (filter (λ mv, type mv = t) (stock_movements db)).

(** The filter of the movements page: ["all"] or one of the kinds. *)
Inductive filterType := filter_all | filter_kind (t : movement_type).

#[global] Instance filterType_eq_dec : EqDecision filterType.
Proof. solve_decision. Defined.

(** [movements?.filter(m => filterType === "all" || m.type === filterType)] *)
Definition filteredMovements (ft : filterType)
    (movements : option (list stock_movement)) : option (list stock_movement) :=
  filter (λ mv, ft = filter_all ∨ filter_kind (type mv) = ft) <$> movements.

(** [getMovementLabel] of the movements page. *)
Definition getMovementLabel (t : movement_type) : string :=
  match t with
  | entry => "Entrada"
  | exit => "Saída"
  | adjustment => "Ajuste"
  end.

(** The label of a row in the dashboard's recent movements:
    [movement.type === 'entry' ? 'Entrada' : 'Saída']. *)
Definition dashboard_label (t : movement_type) : string :=
  match t with
  | entry => "Entrada"
  | _ => "Saída"
  end.

(** ** The reports page *)

Definition day_ms : Z := 86400000.

(** [subDays(date, n)], for a time zone whose offset does not change. *)
Definition subDays (date : Z) (n : Z) : Z := date - n * day_ms.

(** The movements query of the reports:
    [.gte("created_at", subDays(new Date(), 30).toISOString())], asked at
    the clock the page is drawn at; the rows are those the query asks for,
    a cap on rows by the API server being no part of the code. *)
Definition reports_movements (b : browser) (db : database) : list stock_movement :=
  filter (λ mv, subDays (clock b) 30 ≤ created_at mv) (stock_movements db).

(** [movements?.filter((m) => m.type === t).length || 0] *)
Definition count_of_type (t : movement_type)
    (movements : option (list stock_movement)) : nat :=
  or_zero (length <$> (filter (λ mv, type mv = t) <$> movements)).

(** [movementsByType]: the three bars. *)
Record bars := {
  Entradas : nat;
  Saidas : nat;
  Ajustes : nat
}.

Definition movementsByType (movements : option (list stock_movement)) : bars :=
  {| Entradas := count_of_type entry movements;
     Saidas := count_of_type exit movements;
     Ajustes := count_of_type adjustment movements |}.

(** A point of the seven-day chart: the local calendar day whose [dd/MM]
    label it shows, and its two counts. *)
Record day_point := {
  date : Z;
  entradas : nat;
  saidas : nat
}.

(** [last7Days]: [format(d, "yyyy-MM-dd")] names the local calendar day. *)
Definition last7Days (b : browser) (movements : option (list stock_movement))
    : list day_point :=
  (λ i : nat,
     let date := subDays (clock b) (6 - Z.of_nat i) in
     let dayMovements :=
       filter (λ mv, toDateString b (created_at mv) = toDateString b date)
         <$> movements in
     {| date := toDateString b date;
        entradas := count_of_type entry dayMovements;
        saidas := count_of_type exit dayMovements |}) <$> seq 0 7.

(** [products.sort((a, b) => b.current_stock - a.current_stock)]: the sort
    is stable and works on the array itself. *)
Fixpoint insert_by_current_stock (p : product) (sorted : list product) : list product :=
  match sorted with
  | [] => [p]
  | x :: rest =>
      if current_stock x <=? current_stock p then p :: x :: rest
      else x :: insert_by_current_stock p rest
  end.

Definition sort_by_current_stock_desc (ps : list product) : list product :=
  foldr insert_by_current_stock [] ps.

(** The order of the sorted array. *)
Definition not_less_stocked (a b : product) : Prop := current_stock b ≤ current_stock a.

(** [stockByCategory]: for each category, its name and the number of
    products that point at it. *)
Definition stockByCategory (categories : option (list (string * category)))
    (products : option (list product)) : option (list (string * nat)) :=
  (λ cats : list (string * category),
     (λ cat : string * category,
        (cat_name cat.2,
         or_zero (length <$>
           (filter (λ p : product, category_id p = Some cat.1) <$> products))))
     <$> cats) <$> categories.

(** What the reports page computes from its three queries.  The products
    array is sorted in place for [topProducts], and the figures after it
    read the sorted array. *)
Record reports := {
  r_stockByCategory : option (list (string * nat));
  r_movementsByType : bars;
  r_last7Days : list day_point;
  r_topProducts : list (string * Z);
  r_lowStockProducts : nat;
  r_totalProducts : nat;
  r_movements : nat
}.

Definition Reports (b : browser) (db : database) : reports :=
  let products := select_products db in
  let movements := Some (reports_movements b db) in
  let categories := Some (map_to_list (categories db)) in
  let stockByCategory := stockByCategory categories (Some products) in
  let products := sort_by_current_stock_desc products in
  {| r_stockByCategory := stockByCategory;
     r_movementsByType := movementsByType movements;
     r_last7Days := last7Days b movements;
     r_topProducts := (λ p, (name p, current_stock p)) <$> take 5 products;
     r_lowStockProducts := lowStockProducts (Some products);
     r_totalProducts := or_zero (length <$> Some products);
     r_movements := or_zero (length <$> movements) |}.

(** A session: one operation after the other. *)
Fixpoint perform_all (calls : list (context * operation)) (db : database)
    : database :=
  match calls with
  | [] => db
  | (ctx, op) :: rest => perform_all rest (perform ctx op db).1
  end.

(** ** A shop with a catalogue *)

Definition in_category (c s : option uuid) (p : product) : product :=
  {| code := code p; barcode := barcode p; name := name p;
     description := description p; category_id := c; supplier_id := s;
     p_unit := p_unit p; current_stock := current_stock p;
     minimum_stock := minimum_stock p; price := price p;
     image_url := image_url p; batch_control := batch_control p;
     expiration_control := expiration_control p;
     p_created_at := p_created_at p; p_updated_at := p_updated_at p |}.

(** The shop with two categories and a supplier; the product [id_p1] is in
    the category [id_c1] and comes from the supplier [id_s1]. *)
Definition catalogue : database :=
  {| products := {[ id_p1 := in_category (Some id_c1) (Some id_s1) (widget 1000 500) ]};
     stock_movements := [];
     categories :=
       {[ id_c1 := {| cat_name := "Tools"; cat_description := None |};
          id_c2 := {| cat_name := "Paint"; cat_description := None |} ]};
     suppliers :=
       {[ id_s1 := {| sup_name := "Acme"; contact_name := None; email := None;
                     phone := None; address := None |} ]};
     user_roles := [(id_ana, operator); (id_bob, viewer); (id_eve, admin)] |}.

(** Somebody who signs up. *)
Definition newcomer : auth_user := {| au_id := id_zoe; au_full_name := Some "Zoe" |}.

(** * Properties *)

(** ** DECIMAL(10,2) *)

Lemma round_scale_2_hundredths (h : Z) : round_scale_2 (hundredths h) = h.
Proof.
  unfold round_scale_2, hundredths. cbn [Qnum Qden].
  replace (2 * (100 * Z.abs h) + 100) with (100 + Z.abs h * (2 * 100)) by lia.
  rewrite Z.div_add by lia.
  change (100 / (2 * 100)) with 0. lia.
Qed.

Lemma numeric_in_hundredths (h : Z) :
  numeric_fits h = true → numeric_in (hundredths h) = Ok h.
Proof.
  intros Hfit. unfold numeric_in, to_numeric_10_2.
  rewrite round_scale_2_hundredths. by rewrite Hfit.
Qed.

Lemma to_numeric_10_2_Ok (h v : Z) :
  to_numeric_10_2 h = Ok v → v = h ∧ numeric_fits h = true.
Proof.
  unfold to_numeric_10_2. destruct (numeric_fits h); [|done].
  intros [= <-]. done.
Qed.

Lemma numeric_fits_spec (h : Z) :
  numeric_fits h = true ↔ - numeric_limit < h < numeric_limit.
Proof. unfold numeric_fits. rewrite Z.ltb_lt. lia. Qed.

(** ** The trigger follows the three-case rule *)

Lemma update_product_stock_apply now NEW db :
  update_product_stock now NEW db =
  update_current_stock now (product_id NEW) (fun c => apply_movement c NEW) db.
Proof. unfold update_product_stock, apply_movement. by destruct (type NEW). Qed.

Lemma update_current_stock_Ok now pid f db db' p :
  products db !! pid = Some p →
  update_current_stock now pid f db = Ok db' →
  numeric_fits (f (current_stock p)) = true ∧
  db' = set_products
          (<[pid := set_current_stock (f (current_stock p)) now p]> (products db)) db.
Proof.
  intros Hp. unfold update_current_stock. rewrite Hp. cbn.
  destruct (to_numeric_10_2 _) as [v|e] eqn:Hv; cbn; [|done].
  apply to_numeric_10_2_Ok in Hv as [-> Hfit]. by intros [= <-].
Qed.

Lemma update_current_stock_fits now pid f db p :
  products db !! pid = Some p →
  numeric_fits (f (current_stock p)) = true →
  update_current_stock now pid f db =
  Ok (set_products
        (<[pid := set_current_stock (f (current_stock p)) now p]> (products db)) db).
Proof.
  intros Hp Hfit. unfold update_current_stock, to_numeric_10_2.
  rewrite Hp. cbn. by rewrite Hfit.
Qed.

Lemma update_current_stock_unknown now pid f db :
  products db !! pid = None → update_current_stock now pid f db = Ok db.
Proof. intros Hp. unfold update_current_stock. by rewrite Hp. Qed.

(** ** Reading the texts of a payload *)

Lemma date_in_Ok text d : date_in text = Ok d → d = text.
Proof.
  unfold date_in. destruct (leading_digits text) as [year rest].
  repeat (lazymatch goal with
          | |- match ?x with _ => _ end = _ → _ => destruct x
          | |- (if ?x then _ else _) = _ → _ => destruct x
          end; try discriminate).
  by intros [= <-].
Qed.

Lemma date_in_opt_Ok text d : date_in_opt text = Ok d → d = text.
Proof.
  destruct text as [text|]; cbn; [|by intros [= <-]].
  destruct (date_in text) as [d'|e] eqn:Hd; cbn; [|done].
  apply date_in_Ok in Hd as ->. by intros [= <-].
Qed.

Lemma uuid_in_Err text e : uuid_in text = Err e → e = invalid_text_representation.
Proof.
  unfold uuid_in. destruct (string_to_uuid _ _) as [[value rest]|]; [|congruence].
  case_bool_decide; congruence.
Qed.

(** ** What a successful insert did *)

Lemma insert_stock_movement_Ok ctx d db db' :
  insert_stock_movement ctx d db = Ok db' →
  ∃ pid p,
    let NEW := new_stock_movement ctx d pid (round_scale_2 (d_quantity d))
                 (d_expiration_date d) in
    uuid_in (d_product_id d) = Ok pid ∧
    date_in_opt (d_expiration_date d) = Ok (d_expiration_date d) ∧
    products db !! pid = Some p ∧
    numeric_fits (quantity NEW) = true ∧
    stock_movements_insert_check db ctx NEW = true ∧
    numeric_fits (apply_movement (current_stock p) NEW) = true ∧
    db' = set_products
            (<[pid :=
                 set_current_stock (apply_movement (current_stock p) NEW) (NOW ctx) p]>
               (products db))
            (set_stock_movements (stock_movements db ++ [NEW]) db).
Proof.
  unfold insert_stock_movement, numeric_in.
  destruct (uuid_in _) as [pid|e] eqn:Hpid; cbn; [|done].
  destruct (to_numeric_10_2 _) as [q|e] eqn:Hq; cbn; [|done].
  apply to_numeric_10_2_Ok in Hq as [-> Hfit].
  destruct (date_in_opt _) as [expiration|e] eqn:Hdate; cbn; [|done].
  pose proof (date_in_opt_Ok _ _ Hdate) as ->.
  set (NEW := new_stock_movement _ _ _ _ _) in *.
  destruct (stock_movements_insert_check db ctx NEW) eqn:Hrls; cbn; [|done].
  destruct (movement_exists _ _); [done|].
  unfold product_id_fkey. cbn.
  destruct (products db !! pid) as [p|] eqn:Hp; cbn; [|done].
  rewrite update_product_stock_apply. intros Hupd.
  eapply update_current_stock_Ok in Hupd as [Hfit' ->]; [|exact Hp].
  exists pid, p. done.
Qed.

Lemma insert_stock_movement_fits ctx d db pid p NEW :
  uuid_in (d_product_id d) = Ok pid →
  date_in_opt (d_expiration_date d) = Ok (d_expiration_date d) →
  NEW = new_stock_movement ctx d pid (round_scale_2 (d_quantity d))
          (d_expiration_date d) →
  numeric_fits (quantity NEW) = true →
  stock_movements_insert_check db ctx NEW = true →
  movement_exists (gen_random_uuid ctx) db = false →
  products db !! pid = Some p →
  numeric_fits (apply_movement (current_stock p) NEW) = true →
  insert_stock_movement ctx d db =
  Ok (set_products
        (<[pid :=
             set_current_stock (apply_movement (current_stock p) NEW) (NOW ctx) p]>
           (products db))
        (set_stock_movements (stock_movements db ++ [NEW]) db)).
Proof.
  intros Hpid Hdate -> Hq Hrls Hfresh Hp Hfit.
  unfold insert_stock_movement, numeric_in, to_numeric_10_2.
  rewrite Hpid. cbn. cbn in Hq. rewrite Hq. cbn. rewrite Hdate. cbn.
  rewrite Hrls. cbn. rewrite Hfresh.
  unfold product_id_fkey. cbn. rewrite Hp. cbn.
  rewrite update_product_stock_apply.
  by rewrite (update_current_stock_fits _ _ _ _ p).
Qed.

(** An insert for a text that is no uuid raises before anything else. *)
Lemma insert_stock_movement_no_uuid ctx d db e :
  uuid_in (d_product_id d) = Err e →
  insert_stock_movement ctx d db = Err invalid_text_representation.
Proof.
  intros Hpid. unfold insert_stock_movement.
  pose proof (uuid_in_Err _ _ Hpid) as ->. by rewrite Hpid.
Qed.

(** An insert for a product that does not exist raises the foreign-key
    violation, whichever order the two row triggers run in: the trigger's
    [UPDATE] matches no row. *)
Lemma insert_stock_movement_unknown ctx d db pid :
  uuid_in (d_product_id d) = Ok pid →
  date_in_opt (d_expiration_date d) = Ok (d_expiration_date d) →
  numeric_fits (round_scale_2 (d_quantity d)) = true →
  stock_movements_insert_check db ctx
    (new_stock_movement ctx d pid (round_scale_2 (d_quantity d))
       (d_expiration_date d)) = true →
  movement_exists (gen_random_uuid ctx) db = false →
  products db !! pid = None →
  insert_stock_movement ctx d db = Err foreign_key_violation.
Proof.
  intros Hpid Hdate Hq Hrls Hfresh Hp.
  unfold insert_stock_movement, numeric_in, to_numeric_10_2.
  rewrite Hpid. cbn. rewrite Hq. cbn. rewrite Hdate. cbn.
  rewrite Hrls. cbn. rewrite Hfresh.
  unfold product_id_fkey. cbn. by rewrite Hp.
Qed.

(** The two row triggers of an insert give the same result in either
    order: for an unknown product the trigger's [UPDATE] matches no row and
    the foreign key raises; for a known one the foreign key holds before and
    after the [UPDATE]. *)
Lemma row_triggers_commute now NEW db :
  (db1 ← product_id_fkey NEW db; update_product_stock now NEW db1) =
  (db1 ← update_product_stock now NEW db; product_id_fkey NEW db1).
Proof.
  rewrite update_product_stock_apply. unfold product_id_fkey.
  destruct (products db !! product_id NEW) as [p|] eqn:Hp; cbn.
  - rewrite update_product_stock_apply. unfold update_current_stock. rewrite Hp. cbn.
    destruct (to_numeric_10_2 _) as [v|e]; cbn; [|done].
    by rewrite lookup_insert_eq.
  - rewrite update_current_stock_unknown by done. cbn. by rewrite Hp.
Qed.

Lemma report_execute stmt db db' o :
  report (execute stmt db) = (db', o) →
  (stmt db = Ok db' ∧ o = Success) ∨
  (∃ e, stmt db = Err e ∧ db' = db ∧ o = Failure (PostgrestError e)).
Proof.
  unfold report, execute. destruct (stmt db) as [db1|e]; cbn; intros [= <- <-]; eauto.
Qed.

(** ** What a call of [recordMovement] did *)

Lemma recordMovement_Success ctx values db db' :
  recordMovement ctx values db = (db', Success) →
  movementSchema values = true ∧
  ∃ user, auth_uid ctx = Some user ∧
    insert_stock_movement ctx (dataToSave user values) db = Ok db'.
Proof.
  unfold recordMovement, saveMutation, report, execute.
  destruct (movementSchema values); [|done].
  destruct (auth_uid ctx) as [user|]; [|done].
  destruct (insert_stock_movement _ _ _) as [db1|e] eqn:Hins; cbn; [|done].
  intros [= <-]. eauto.
Qed.

Lemma recordMovement_Failure ctx values db db' e :
  recordMovement ctx values db = (db', Failure e) → db' = db.
Proof.
  unfold recordMovement, saveMutation, report, execute.
  destruct (movementSchema values); [|by intros [= <- _]].
  destruct (auth_uid ctx) as [user|]; [|by intros [= <- _]].
  destruct (insert_stock_movement _ _ _) as [db1|e1]; cbn; [done|].
  by intros [= <- _].
Qed.

(** A call that the resolver accepts, made by a signed-in user, ends as its
    insert statement does. *)
Lemma recordMovement_insert ctx values db user :
  movementSchema values = true →
  auth_uid ctx = Some user →
  recordMovement ctx values db =
  report (execute (insert_stock_movement ctx (dataToSave user values)) db).
Proof.
  intros Hv Hu. unfold recordMovement, saveMutation. by rewrite Hv, Hu.
Qed.

(** The effect of a successful call on the two tables. *)
Lemma recordMovement_effect ctx values db db' :
  recordMovement ctx values db = (db', Success) →
  ∃ user pid p,
    let NEW := new_stock_movement ctx (dataToSave user values) pid
                 (round_scale_2 (v_quantity values))
                 (or_null (v_expiration_date values)) in
    auth_uid ctx = Some user ∧
    uuid_in (v_product_id values) = Ok pid ∧
    products db !! pid = Some p ∧
    numeric_fits (apply_movement (current_stock p) NEW) = true ∧
    stock_movements db' = stock_movements db ++ [NEW] ∧
    products db' =
      <[pid :=
          set_current_stock (apply_movement (current_stock p) NEW) (NOW ctx) p]>
        (products db).
Proof.
  intros Hrec. apply recordMovement_Success in Hrec as (_ & user & Hu & Hins).
  apply insert_stock_movement_Ok in Hins
    as (pid & p & Hpid & _ & Hp & _ & _ & Hfit & ->).
  exists user, pid, p. done.
Qed.

(** ** Entries and exits are relative, adjustments absolute *)

(** C2: every recorded movement changes the current quantity of its product
    by the rule of its kind: an entry adds the movement's quantity, an exit
    subtracts it, an adjustment replaces the quantity by it.  At 10.00 an
    entry of 5 gives 15.00 and a following exit of 3 gives 12.00; an
    adjustment of 50 at 120.00 gives 50.00. *)
Theorem movement_kind_rule :
  (∀ ctx values db db' pid p,
     uuid_in (v_product_id values) = Ok pid →
     products db !! pid = Some p →
     recordMovement ctx values db = (db', Success) →
     ∃ NEW p',
       stock_movements db' = stock_movements db ++ [NEW] ∧
       product_id NEW = pid ∧
       type NEW = v_type values ∧
       quantity NEW = round_scale_2 (v_quantity values) ∧
       products db' !! product_id NEW = Some p' ∧
       current_stock p' =
         match type NEW with
         | entry => current_stock p + quantity NEW
         | exit => current_stock p - quantity NEW
         | adjustment => quantity NEW
         end)
  ∧ (let db1 := (recordMovement (as_user id_ana id_m1 1)
                   (movement_form id_p1 entry (hundredths 500)) (shop 1000)).1 in
     let db2 := (recordMovement (as_user id_ana id_m2 2)
                   (movement_form id_p1 exit (hundredths 300)) db1).1 in
     current_stock <$> products db1 !! id_p1 = Some 1500 ∧
     current_stock <$> products db2 !! id_p1 = Some 1200)
  ∧ current_stock <$>
      products (recordMovement (as_user id_ana id_m1 1)
                  (movement_form id_p1 adjustment (hundredths 5000)) (shop 12000)).1
        !! id_p1 = Some 5000.
Proof.
  split; [|split; [split|]; by vm_compute].
  intros ctx values db db' pid p Hpid Hp Hrec.
  apply recordMovement_effect in Hrec
    as (user & pid0 & p0 & Hu & Hpid0 & Hp0 & Hfit & Hms & Hps).
  rewrite Hpid in Hpid0. injection Hpid0 as <-.
  rewrite Hp in Hp0. injection Hp0 as <-.
  eexists _, _. split; [exact Hms|]. cbn.
  repeat split; try done.
  - rewrite Hps. apply lookup_insert_eq.
  - cbn. unfold apply_movement. cbn. by destruct (v_type values).
Qed.

Lemma movement_kind_rule_witness :
  ∃ NEW p',
    stock_movements
      (recordMovement (as_user id_ana id_m1 1)
         (movement_form id_p1 exit (hundredths 300)) (shop 1500)).1 = [NEW] ∧
    type NEW = exit ∧
    quantity NEW = 300 ∧
    products
      (recordMovement (as_user id_ana id_m1 1)
         (movement_form id_p1 exit (hundredths 300)) (shop 1500)).1 !! id_p1 = Some p' ∧
    current_stock p' = 1200.
Proof.
  destruct (proj1 movement_kind_rule (as_user id_ana id_m1 1)
              (movement_form id_p1 exit (hundredths 300)) (shop 1500)
              (recordMovement (as_user id_ana id_m1 1)
                 (movement_form id_p1 exit (hundredths 300)) (shop 1500)).1
              id_p1 (widget 1500 500))
    as (NEW & p' & Hms & Hpid & Hty & Hq & Hp' & Hstock).
  - reflexivity.
  - reflexivity.
  - reflexivity.
  - exists NEW, p'. rewrite Hpid in Hp'. rewrite Hty in Hstock. cbn in Hstock.
    rewrite Hq in Hstock. repeat split; try assumption.
Defined.

(** ** The fold over the ledger *)

Lemma movements_of_app pid (ms1 ms2 : list stock_movement) :
  movements_of pid (ms1 ++ ms2) = movements_of pid ms1 ++ movements_of pid ms2.
Proof. unfold movements_of. apply filter_app. Qed.

Lemma fold_movements_app q0 (ms1 ms2 : list stock_movement) :
  fold_movements q0 (ms1 ++ ms2) = fold_movements (fold_movements q0 ms1) ms2.
Proof. unfold fold_movements. apply fold_left_app. Qed.

Lemma movements_of_own pid (mv : stock_movement) :
  product_id mv = pid → movements_of pid [mv] = [mv].
Proof.
  intros Hpid. unfold movements_of. rewrite filter_cons, filter_nil.
  by rewrite decide_True.
Qed.

Lemma movements_of_other pid (mv : stock_movement) :
  product_id mv ≠ pid → movements_of pid [mv] = [].
Proof.
  intros Hpid. unfold movements_of. rewrite filter_cons, filter_nil.
  by rewrite decide_False.
Qed.




(** ** Validation at the form *)

Lemma movementSchema_spec values :
  movementSchema values = true ↔
  (1 ≤ String.length (v_product_id values))%nat ∧
  (1 # 100 <= v_quantity values)%Q ∧
  max_length 100 (v_batch_number values) = true ∧
  max_length 500 (v_notes values) = true.
Proof.
  unfold movementSchema. rewrite !andb_true_iff, bool_decide_eq_true.
  rewrite Qle_bool_iff. tauto.
Qed.

(** A quantity the resolver accepts is stored as at least one hundredth. *)
Lemma round_scale_2_accepted (q : Q) :
  (1 # 100 <= q)%Q → 1 ≤ round_scale_2 q.
Proof.
  destruct q as [n d]. unfold Qle, round_scale_2. cbn [Qnum Qden].
  intros Hle.
  assert (Hn : 0 < n) by lia.
  rewrite Z.sgn_pos, Z.abs_eq by lia.
  rewrite Z.mul_1_l.
  apply Z.div_le_lower_bound; lia.
Qed.

(** ** All or nothing *)

(** The same for the entry and exit dialogs. *)
Lemma StockMovementDialog_all_or_nothing ctx t formData db :
  match (StockMovementDialog_handleSubmit ctx t formData db).2 with
  | Failure _ => (StockMovementDialog_handleSubmit ctx t formData db).1 = db
  | Success =>
      ∃ NEW p,
        products db !! product_id NEW = Some p ∧
        stock_movements (StockMovementDialog_handleSubmit ctx t formData db).1 =
          stock_movements db ++ [NEW] ∧
        products (StockMovementDialog_handleSubmit ctx t formData db).1 =
          <[product_id NEW :=
              set_current_stock (apply_movement (current_stock p) NEW) (NOW ctx) p]>
            (products db)
  end.
Proof.
  unfold StockMovementDialog_handleSubmit.
  destruct (dialog_movementSchema formData); [|done].
  destruct (auth_uid ctx) as [user|]; [|done].
  match goal with
  | |- context [insert_stock_movement ctx ?d] => set (payload := d)
  end.
  destruct (report _) as [db' o] eqn:Hrep.
  apply report_execute in Hrep as [[Hins ->]|(e & _ & -> & ->)]; [|done].
  apply insert_stock_movement_Ok in Hins
    as (pid & p & _ & _ & Hp & _ & _ & _ & ->).
  by exists (new_stock_movement ctx payload pid (round_scale_2 (d_quantity payload))
               (d_expiration_date payload)), p.
Qed.

(** C3: a call of [recordMovement] that fails, for whatever reason, leaves
    the database as it was, movement table and quantities included; a call
    that succeeds has stored exactly one movement and applied it to the
    quantity of its product.  A movement is never stored without its
    quantity update, nor a quantity updated without its movement: a call
    whose trigger fails after the row was stored keeps neither.  The entry
    and exit dialogs behave the same. *)
Theorem recordMovement_all_or_nothing :
  (∀ ctx values db,
     match (recordMovement ctx values db).2 with
     | Failure _ => (recordMovement ctx values db).1 = db
     | Success =>
         ∃ NEW p,
           products db !! product_id NEW = Some p ∧
           stock_movements (recordMovement ctx values db).1 =
             stock_movements db ++ [NEW] ∧
           products (recordMovement ctx values db).1 =
             <[product_id NEW :=
                 set_current_stock (apply_movement (current_stock p) NEW) (NOW ctx) p]>
               (products db)
     end)
  ∧ (∀ ctx t formData db,
       match (StockMovementDialog_handleSubmit ctx t formData db).2 with
       | Failure _ => (StockMovementDialog_handleSubmit ctx t formData db).1 = db
       | Success =>
           ∃ NEW p,
             products db !! product_id NEW = Some p ∧
             stock_movements (StockMovementDialog_handleSubmit ctx t formData db).1 =
               stock_movements db ++ [NEW] ∧
             products (StockMovementDialog_handleSubmit ctx t formData db).1 =
               <[product_id NEW :=
                   set_current_stock (apply_movement (current_stock p) NEW)
                     (NOW ctx) p]>
                 (products db)
       end)
  ∧ recordMovement (as_user id_ana id_m1 1)
      (movement_form id_p1 entry (hundredths 1)) (shop 9999999999)
    = (shop 9999999999, Failure (PostgrestError numeric_value_out_of_range)).
Proof.
  split; [|split; [apply StockMovementDialog_all_or_nothing|by vm_compute]].
  intros ctx values db.
  destruct (recordMovement ctx values db) as [db' [|e]] eqn:Hrec; cbn.
  - apply recordMovement_effect in Hrec
      as (user & pid & p & Hu & _ & Hp & _ & Hms & Hps).
    exists (new_stock_movement ctx (dataToSave user values) pid
              (round_scale_2 (v_quantity values))
              (or_null (v_expiration_date values))), p.
    done.
  - by apply recordMovement_Failure in Hrec.
Qed.

(** ** No floor on exits *)

(** C5: an exit is checked against nothing but the range of the column: for
    a signed-in admin or operator and an existing product, an accepted form
    of kind exit, its expiration date empty or a day of the calendar,
    succeeds whatever the current quantity is, and leaves the quantity minus
    the exit, negative or not, as long as that is a [DECIMAL(10,2)].  At
    2.00 an exit of 5 is accepted and leaves -3.00. *)
Theorem exit_has_no_floor :
  (∀ ctx values db user pid p,
     v_type values = exit →
     movementSchema values = true →
     date_readable (or_null (v_expiration_date values)) →
     auth_uid ctx = Some user →
     has_role db user admin || has_role db user operator = true →
     movement_exists (gen_random_uuid ctx) db = false →
     uuid_in (v_product_id values) = Ok pid →
     products db !! pid = Some p →
     numeric_fits (current_stock p) = true →
     numeric_fits (round_scale_2 (v_quantity values)) = true →
     - numeric_limit < current_stock p - round_scale_2 (v_quantity values) →
     ∃ db' p',
       recordMovement ctx values db = (db', Success) ∧
       products db' !! pid = Some p' ∧
       current_stock p' = current_stock p - round_scale_2 (v_quantity values))
  ∧ (let r := recordMovement (as_user id_ana id_m1 1)
                (movement_form id_p1 exit (hundredths 500)) (shop 200) in
     r.2 = Success ∧ current_stock <$> products r.1 !! id_p1 = Some (-300)).
Proof.
  split; [|by vm_compute].
  intros ctx values db user pid p Hexit Hvalid Hdate Hu Hrole Hfresh Hpid Hp Hcur Hq
    Hfloor.
  pose proof Hvalid as Hpos. apply movementSchema_spec in Hpos as (_ & Hpos & _).
  apply round_scale_2_accepted in Hpos.
  apply numeric_fits_spec in Hcur.
  rewrite (recordMovement_insert _ _ _ user) by done. unfold execute.
  erewrite (insert_stock_movement_fits _ _ _ pid p); cbn; try done.
  - eexists _, _. split; [done|]. cbn. rewrite lookup_insert_eq. split; [done|].
    cbn. unfold apply_movement. cbn. by rewrite Hexit.
  - unfold stock_movements_insert_check, admin_or_operator. cbn.
    rewrite Hu, Hrole. cbn. by apply bool_decide_eq_true.
  - unfold apply_movement. cbn. rewrite Hexit. apply numeric_fits_spec. lia.
Qed.

Lemma exit_has_no_floor_witness :
  ∃ db' p',
    recordMovement (as_user id_ana id_m1 1)
      (movement_form id_p1 exit (hundredths 500)) (shop 200) = (db', Success) ∧
    products db' !! id_p1 = Some p' ∧
    current_stock p' = -300.
Proof.
  destruct (proj1 exit_has_no_floor (as_user id_ana id_m1 1)
              (movement_form id_p1 exit (hundredths 500)) (shop 200)
              id_ana id_p1 (widget 200 500))
    as (db' & p' & Hrec & Hp' & Hq); try reflexivity.
  exists db', p'. repeat split; assumption.
Defined.

(** ** Unknown products *)

(** C7, corrected: a call with a product id that stands for no stored
    product fails and leaves the database, so the movement table, as it
    was.  The failure is the database's own.  For an accepted form whose
    other values fit their columns it is the invalid text representation
    when the id is no uuid, whoever is signed in: no product is looked for;
    and it is the foreign-key violation of [stock_movements.product_id]
    when the id is the uuid of no product and the caller may insert. *)
Theorem unknown_product_not_recorded ctx values db :
  (∀ pid, uuid_in (v_product_id values) = Ok pid → products db !! pid = None) →
  (∃ e, recordMovement ctx values db = (db, Failure e)) ∧
  (∀ user,
     movementSchema values = true →
     auth_uid ctx = Some user →
     (∀ pid, uuid_in (v_product_id values) ≠ Ok pid) →
     date_readable (or_null (v_expiration_date values)) →
     numeric_fits (round_scale_2 (v_quantity values)) = true →
     recordMovement ctx values db =
       (db, Failure (PostgrestError invalid_text_representation))) ∧
  (∀ user pid,
     movementSchema values = true →
     auth_uid ctx = Some user →
     uuid_in (v_product_id values) = Ok pid →
     date_readable (or_null (v_expiration_date values)) →
     has_role db user admin || has_role db user operator = true →
     movement_exists (gen_random_uuid ctx) db = false →
     numeric_fits (round_scale_2 (v_quantity values)) = true →
     recordMovement ctx values db =
       (db, Failure (PostgrestError foreign_key_violation))).
Proof.
  intros Hunknown. split; [|split].
  - destruct (recordMovement ctx values db) as [db' [|e]] eqn:Hrec.
    + apply recordMovement_effect in Hrec as (user & pid & p & _ & Hpid & Hp' & _).
      rewrite (Hunknown pid Hpid) in Hp'. discriminate Hp'.
    + pose proof Hrec as Hdb. apply recordMovement_Failure in Hdb as ->. eauto.
  - intros user Hvalid Hu Hno _ _.
    rewrite (recordMovement_insert _ _ _ user) by done. unfold execute.
    destruct (uuid_in (v_product_id values)) as [pid|e] eqn:Hpid;
      [by destruct (Hno pid)|].
    by rewrite (insert_stock_movement_no_uuid _ _ _ e).
  - intros user pid Hvalid Hu Hpid Hdate Hrole Hfresh Hq.
    rewrite (recordMovement_insert _ _ _ user) by done. unfold execute.
    rewrite (insert_stock_movement_unknown _ _ _ pid); try done.
    + unfold stock_movements_insert_check, admin_or_operator. cbn.
      rewrite Hu, Hrole. cbn. by apply bool_decide_eq_true.
    + by apply Hunknown.
Qed.

Lemma unknown_product_not_recorded_witness :
  recordMovement (as_user id_ana id_m1 1)
    (movement_form id_p2 entry (hundredths 100)) (shop 1000)
  = (shop 1000, Failure (PostgrestError foreign_key_violation)).
Proof.
  refine (proj2 (proj2 (unknown_product_not_recorded (as_user id_ana id_m1 1)
                          (movement_form id_p2 entry (hundredths 100))
                          (shop 1000) _)) id_ana id_p2 _ _ _ _ _ _ _);
    try reflexivity.
  intros pid [= <-]. reflexivity.
Defined.

(** C7, counterexample: the id ["nonexistent-id"] is no uuid, and the call
    for it, by an operator with a form the resolver accepts, fails with the
    invalid text representation, not with the foreign-key violation: the
    database never looks for the product. *)
Lemma nonexistent_id_is_no_uuid :
  movementSchema (movement_form "nonexistent-id" entry (hundredths 100)) = true ∧
  uuid_in "nonexistent-id" = Err invalid_text_representation ∧
  recordMovement (as_user id_ana id_m1 1)
    (movement_form "nonexistent-id" entry (hundredths 100)) (shop 1000)
  = (shop 1000, Failure (PostgrestError invalid_text_representation)).
Proof. repeat split; by vm_compute. Qed.

(** ** The validation boundary *)

Lemma recordMovement_ZodError ctx values db :
  (recordMovement ctx values db).2 = Failure ZodError ↔ movementSchema values = false.
Proof.
  unfold recordMovement, saveMutation, report, execute.
  destruct (movementSchema values); [|done].
  split; [|done].
  destruct (auth_uid ctx); [|done].
  by destruct (insert_stock_movement _ _ _).
Qed.

Lemma movementSchema_quantity values :
  other_fields_valid values →
  movementSchema values = false ↔ (v_quantity values < 1 # 100)%Q.
Proof.
  intros (Hpid & Hbatch & Hnotes).
  rewrite <- not_true_iff_false, movementSchema_spec.
  split.
  - intros Hno. apply Qnot_le_lt. tauto.
  - intros Hlt (_ & Hle & _). by apply Qlt_not_le in Hlt.
Qed.

(** C6, corrected: for a form whose other fields are valid,
    [recordMovement] fails with the resolver's error exactly when the
    quantity is below 0.01, whatever the kind; for a quantity with two
    decimals that is exactly when it is not positive.  An entry of 0 fails,
    an entry of 0.01 succeeds, and an adjustment of 0 fails too. *)
Theorem validation_boundary :
  (∀ ctx values db,
     other_fields_valid values →
     (recordMovement ctx values db).2 = Failure ZodError ↔
     (v_quantity values < 1 # 100)%Q)
  ∧ (∀ ctx values db h,
       other_fields_valid values →
       v_quantity values = hundredths h →
       (recordMovement ctx values db).2 = Failure ZodError ↔ h ≤ 0)
  ∧ (recordMovement (as_user id_ana id_m1 1)
       (movement_form id_p1 entry (hundredths 0)) (shop 1000)).2 = Failure ZodError
  ∧ (recordMovement (as_user id_ana id_m1 1)
       (movement_form id_p1 entry (hundredths 1)) (shop 1000)).2 = Success
  ∧ (recordMovement (as_user id_ana id_m1 1)
       (movement_form id_p1 adjustment (hundredths 0)) (shop 1000)).2 = Failure ZodError.
Proof.
  split; [|split; [|by vm_compute]].
  - intros ctx values db Hother.
    by rewrite recordMovement_ZodError, movementSchema_quantity.
  - intros ctx values db h Hother Hq.
    rewrite recordMovement_ZodError, movementSchema_quantity by done.
    rewrite Hq. unfold hundredths, Qlt. cbn. lia.
Qed.

Lemma validation_boundary_witness :
  (recordMovement (as_user id_ana id_m1 1)
     (movement_form id_p1 exit (5 # 1000)) (shop 1000)).2 = Failure ZodError.
Proof.
  apply (proj1 validation_boundary (as_user id_ana id_m1 1)
           (movement_form id_p1 exit (5 # 1000)) (shop 1000)).
  - repeat split; cbn; lia.
  - reflexivity.
Defined.

(** C6, counterexample: an adjustment of 0, a quantity that is not
    negative, is rejected by the resolver like an entry of 0. *)
Lemma adjustment_of_zero_rejected :
  (0 <= hundredths 0)%Q ∧
  movementSchema (movement_form id_p1 adjustment (hundredths 0)) = false ∧
  recordMovement (as_user id_ana id_m1 1)
    (movement_form id_p1 adjustment (hundredths 0)) (shop 1000)
  = (shop 1000, Failure ZodError).
Proof. repeat split. by vm_compute. Qed.

(** ** Low stock *)

Lemma lowStockProducts_count (m : gmap string product) :
  length (filter (λ p, current_stock p ≤ minimum_stock p) (map_to_list m).*2) =
  size (filter (λ kv : string * product, current_stock kv.2 ≤ minimum_stock kv.2) m).
Proof.
  induction m as [|k x m Hk IH] using map_ind.
  - by rewrite map_to_list_empty, map_filter_empty, map_size_empty.
  - rewrite map_to_list_insert by done. rewrite fmap_cons, filter_cons. cbn [snd].
    destruct (decide (current_stock x ≤ minimum_stock x)) as [Hlow|Hhigh].
    + rewrite map_filter_insert_True by done.
      rewrite map_size_insert_None by (by rewrite map_lookup_filter_None; left).
      cbn. by rewrite IH.
    + rewrite map_filter_insert_False by done.
      by rewrite delete_id.
Qed.

Lemma with_minimum_stock_insert (ps : gmap string product) pid k v p' :
  alter (set_minimum_stock v) pid (<[k := p']> ps) =
  <[k := if decide (pid = k) then set_minimum_stock v p' else p']>
    (alter (set_minimum_stock v) pid ps).
Proof.
  apply map_eq. intros i.
  destruct (decide (pid = k)) as [->|Hne].
  - destruct (decide (i = k)) as [->|Hik].
    + by rewrite lookup_alter_eq, !lookup_insert_eq.
    + by rewrite lookup_alter_ne, !lookup_insert_ne, lookup_alter_ne.
  - destruct (decide (i = k)) as [->|Hik].
    + by rewrite lookup_alter_ne, !lookup_insert_eq.
    + rewrite lookup_insert_ne by done.
      destruct (decide (i = pid)) as [->|Hip].
      * by rewrite !lookup_alter_eq, lookup_insert_ne.
      * by rewrite !lookup_alter_ne, lookup_insert_ne.
Qed.

Lemma update_current_stock_with_minimum now pid' f pid v db :
  update_current_stock now pid' f (with_minimum_stock pid v db) =
  on_state (with_minimum_stock pid v) (update_current_stock now pid' f db).
Proof.
  unfold update_current_stock, with_minimum_stock. cbn.
  destruct (decide (pid = pid')) as [->|Hne].
  - rewrite lookup_alter_eq.
    destruct (products db !! pid') as [p|] eqn:Hp; cbn; [|done].
    destruct (to_numeric_10_2 _) as [x|e]; cbn; [|done].
    unfold set_products. cbn. f_equal. f_equal.
    rewrite with_minimum_stock_insert.
    rewrite decide_True by done. done.
  - rewrite lookup_alter_ne by done.
    destruct (products db !! pid') as [p|] eqn:Hp; cbn; [|done].
    destruct (to_numeric_10_2 _) as [x|e]; cbn; [|done].
    unfold set_products. cbn. f_equal. f_equal.
    rewrite with_minimum_stock_insert.
    rewrite decide_False by done. done.
Qed.

Lemma insert_stock_movement_with_minimum ctx d pid v db :
  insert_stock_movement ctx d (with_minimum_stock pid v db) =
  on_state (with_minimum_stock pid v) (insert_stock_movement ctx d db).
Proof.
  assert (Hrls : ∀ NEW, stock_movements_insert_check (with_minimum_stock pid v db) ctx NEW
                       = stock_movements_insert_check db ctx NEW) by done.
  assert (Hpk : ∀ id, movement_exists id (with_minimum_stock pid v db)
                      = movement_exists id db) by done.
  unfold insert_stock_movement.
  destruct (uuid_in (d_product_id d)) as [pid'|e]; cbn -[movement_exists]; [|done].
  destruct (numeric_in (d_quantity d)) as [q|e]; cbn -[movement_exists]; [|done].
  destruct (date_in_opt (d_expiration_date d)) as [expiration|e];
    cbn -[movement_exists]; [|done].
  rewrite Hrls, Hpk.
  destruct (stock_movements_insert_check db ctx _); cbn -[movement_exists]; [|done].
  destruct (movement_exists _ db); [done|].
  unfold product_id_fkey. cbn.
  destruct (decide (pid = pid')) as [->|Hne].
  - rewrite lookup_alter_eq.
    destruct (products db !! pid') as [p|] eqn:Hp; cbn; [|done].
    rewrite !update_product_stock_apply.
    apply (update_current_stock_with_minimum _ _ _ _ v (set_stock_movements _ db)).
  - rewrite lookup_alter_ne by done.
    destruct (products db !! pid') as [p|] eqn:Hp; cbn; [|done].
    rewrite !update_product_stock_apply.
    apply (update_current_stock_with_minimum _ _ _ pid v (set_stock_movements _ db)).
Qed.

(** The threshold of a product has no say in what a call does. *)
Lemma recordMovement_with_minimum ctx values pid v db :
  recordMovement ctx values (with_minimum_stock pid v db) =
  (with_minimum_stock pid v (recordMovement ctx values db).1,
   (recordMovement ctx values db).2).
Proof.
  unfold recordMovement, saveMutation, report, execute.
  destruct (movementSchema values); [|done].
  destruct (auth_uid ctx); [|done].
  rewrite insert_stock_movement_with_minimum.
  by destruct (insert_stock_movement _ _ db).
Qed.

Lemma lowStockProducts_Some ps :
  lowStockProducts (Some ps) =
  length (filter (λ p, current_stock p ≤ minimum_stock p) ps).
Proof. reflexivity. Qed.

(** Nor in what the entry and exit dialogs do. *)
Lemma StockMovementDialog_with_minimum ctx t formData pid v db :
  StockMovementDialog_handleSubmit ctx t formData (with_minimum_stock pid v db) =
  (with_minimum_stock pid v (StockMovementDialog_handleSubmit ctx t formData db).1,
   (StockMovementDialog_handleSubmit ctx t formData db).2).
Proof.
  unfold StockMovementDialog_handleSubmit, report, execute.
  destruct (dialog_movementSchema formData); [|done].
  destruct (auth_uid ctx); [|done].
  rewrite insert_stock_movement_with_minimum.
  by destruct (insert_stock_movement _ _ db).
Qed.

(** C9, corrected: a product counts as low on stock exactly when its
    current quantity is at or below its minimum, the boundary included; the
    figure of the dashboard and of the reports is the number of products for
    which that holds, and the products page labels those products, and no
    other, [Baixo].  The minimum is no floor: what recording a movement
    does, from the movements page or from the entry and exit dialogs, is
    the same whatever the minimum of any product is, so an exit that takes
    a product below its minimum is accepted.  But the comparison with the
    current quantity is not the only use of the minimum: for a product
    above it the products page compares the quantity with one and a half
    times the minimum, and labels the product [Atencao] or [Normal]. *)
Theorem low_stock_threshold :
  (∀ p, lowStockProducts (Some [p]) = 1%nat ↔ current_stock p ≤ minimum_stock p)
  ∧ (∀ p, lowStockProducts (Some [p]) = 0%nat ↔ minimum_stock p < current_stock p)
  ∧ (∀ b db,
       card_lowStockProducts (Dashboard b db) =
       size (filter (λ kv : string * product,
                       current_stock kv.2 ≤ minimum_stock kv.2) (products db)))
  ∧ (∀ p, getStockStatus (current_stock p) (minimum_stock p) = Baixo ↔
          lowStockProducts (Some [p]) = 1%nat)
  ∧ (∀ ctx values pid v db,
       recordMovement ctx values (with_minimum_stock pid v db) =
       (with_minimum_stock pid v (recordMovement ctx values db).1,
        (recordMovement ctx values db).2))
  ∧ (∀ ctx t formData pid v db,
       StockMovementDialog_handleSubmit ctx t formData (with_minimum_stock pid v db) =
       (with_minimum_stock pid v (StockMovementDialog_handleSubmit ctx t formData db).1,
        (StockMovementDialog_handleSubmit ctx t formData db).2))
  ∧ lowStockProducts (Some [widget 500 500; widget 501 500; widget (-100) 0]) = 2%nat
  ∧ (let r := recordMovement (as_user id_ana id_m1 1)
                (movement_form id_p1 exit (hundredths 300)) (shop 600) in
     r.2 = Success ∧
     card_lowStockProducts (Dashboard at_noon (shop 600)) = 0%nat ∧
     card_lowStockProducts (Dashboard at_noon r.1) = 1%nat)
  ∧ (getStockStatus 1000 1000 = Baixo ∧ getStockStatus 1001 1000 = Atencao ∧
     getStockStatus 1500 1000 = Atencao ∧ getStockStatus 1501 1000 = Normal).
Proof.
  assert (Hone : ∀ p, lowStockProducts (Some [p]) = 1%nat ↔
                      current_stock p ≤ minimum_stock p).
  { intros p. rewrite lowStockProducts_Some, filter_cons, filter_nil.
    destruct (decide (current_stock p ≤ minimum_stock p)); cbn; split; (done || lia). }
  split; [exact Hone|].
  split; [|split; [|split; [|split; [|split; [|split; [|split]]]]]].
  - intros p. rewrite lowStockProducts_Some, filter_cons, filter_nil.
    destruct (decide (current_stock p ≤ minimum_stock p)); cbn; split; (done || lia).
  - intros b db. cbn [Dashboard card_lowStockProducts].
    rewrite lowStockProducts_Some. apply lowStockProducts_count.
  - intros p. rewrite Hone. unfold getStockStatus.
    destruct (current_stock p <=? minimum_stock p) eqn:Hle.
    + apply Z.leb_le in Hle. done.
    + apply Z.leb_gt in Hle.
      split; [by destruct (PrimFloat.leb _ _)|lia].
  - apply recordMovement_with_minimum.
  - apply StockMovementDialog_with_minimum.
  - reflexivity.
  - by vm_compute.
  - by vm_compute.
Qed.

(** C9, counterexample: a product of 12.00 is not low on stock with a
    minimum of 10.00 nor with one of 7.00, and the products page still
    tells the two minimums apart: it labels the product [Atencao] with the
    first and [Normal] with the second. *)
Lemma warning_band_reads_minimum :
  lowStockProducts (Some [widget 1200 1000]) = 0%nat ∧
  lowStockProducts (Some [widget 1200 700]) = 0%nat ∧
  getStockStatus (current_stock (widget 1200 1000)) (minimum_stock (widget 1200 1000))
    = Atencao ∧
  getStockStatus (current_stock (widget 1200 700)) (minimum_stock (widget 1200 700))
    = Normal.
Proof. repeat split; by vm_compute. Qed.

(** ** The dashboard counters of today *)

Lemma insert_by_created_at_Permutation mv l :
  insert_by_created_at mv l ≡ₚ mv :: l.
Proof.
  induction l as [|x l IH]; cbn; [done|].
  destruct (created_at x <=? created_at mv); [done|].
  rewrite IH. apply Permutation_swap.
Qed.

Lemma order_by_created_at_desc_Permutation ms :
  order_by_created_at_desc ms ≡ₚ ms.
Proof.
  induction ms as [|x ms IH]; cbn; [done|].
  by rewrite insert_by_created_at_Permutation, IH.
Qed.

Lemma length_order_by_created_at_desc ms :
  length (order_by_created_at_desc ms) = length ms.
Proof. by rewrite order_by_created_at_desc_Permutation. Qed.

Lemma insert_by_created_at_sorted mv l :
  StronglySorted not_older l → StronglySorted not_older (insert_by_created_at mv l).
Proof.
  induction l as [|x l IH]; cbn; intros Hl.
  - repeat constructor.
  - apply StronglySorted_cons in Hl as [Hx Hl].
    destruct (Z.leb_spec (created_at x) (created_at mv)) as [Hle|Hgt].
    + apply StronglySorted_cons. split; [|by apply StronglySorted_cons].
      constructor; [done|].
      eapply Forall_impl; [exact Hx|]. unfold not_older. intros y Hy. lia.
    + apply StronglySorted_cons. split; [|by apply IH].
      rewrite insert_by_created_at_Permutation.
      constructor; [unfold not_older; lia|done].
Qed.

Lemma order_by_created_at_desc_sorted ms :
  StronglySorted not_older (order_by_created_at_desc ms).
Proof.
  induction ms as [|x ms IH]; cbn; [constructor|].
  by apply insert_by_created_at_sorted.
Qed.

(** The movements the query leaves out are no more recent than those it
    returns. *)
Lemma recent_movements_most_recent db x y :
  x ∈ recent_movements db →
  y ∈ drop 5 (order_by_created_at_desc (stock_movements db)) →
  created_at y ≤ created_at x.
Proof.
  intros Hx Hy.
  pose proof (order_by_created_at_desc_sorted (stock_movements db)) as Hsorted.
  rewrite <- (take_drop 5 (order_by_created_at_desc (stock_movements db))) in Hsorted.
  by apply (StronglySorted_app_1_elem_of _ _ _ _ _ Hsorted).
Qed.

(** A movement older than all the others goes last. *)
Lemma insert_by_created_at_oldest mv l :
  (∀ x, x ∈ l → created_at mv < created_at x) →
  insert_by_created_at mv l = l ++ [mv].
Proof.
  induction l as [|y l IH]; intros Hold; cbn; [done|].
  assert (created_at mv < created_at y) as Hy by (apply Hold; left).
  destruct (Z.leb_spec (created_at y) (created_at mv)); [lia|].
  rewrite IH; [done|]. intros x Hx. apply Hold. by right.
Qed.

(** A more recent movement goes in front of a last, older one. *)
Lemma insert_by_created_at_before_last x l mv :
  created_at mv < created_at x →
  insert_by_created_at x (l ++ [mv]) = insert_by_created_at x l ++ [mv].
Proof.
  intros Hx. induction l as [|y l IH]; cbn.
  - destruct (Z.leb_spec (created_at mv) (created_at x)); [done|lia].
  - destruct (created_at y <=? created_at x); [done|]. by rewrite IH.
Qed.

Lemma order_by_created_at_desc_oldest ms1 mv ms2 :
  (∀ x, x ∈ ms1 ++ ms2 → created_at mv < created_at x) →
  order_by_created_at_desc (ms1 ++ mv :: ms2) =
  order_by_created_at_desc (ms1 ++ ms2) ++ [mv].
Proof.
  intros Hold. induction ms1 as [|y ms1 IH]; cbn.
  - apply insert_by_created_at_oldest. intros x Hx. apply Hold. cbn.
    by rewrite <- (order_by_created_at_desc_Permutation ms2).
  - fold (order_by_created_at_desc (ms1 ++ mv :: ms2)).
    fold (order_by_created_at_desc (ms1 ++ ms2)).
    rewrite IH.
    + apply insert_by_created_at_before_last. apply Hold. left.
    + intros x Hx. apply Hold. by right.
Qed.

(** The counters of two different kinds never count the same movement. *)
Lemma today_counts_disjoint b (l : list stock_movement) :
  (length (filter (of_kind_today b entry) l) +
   length (filter (of_kind_today b exit) l) ≤ length l)%nat.
Proof.
  induction l as [|x l IH]; [done|].
  rewrite !filter_cons.
  destruct (decide (of_kind_today b entry x)) as [[He _]|];
    destruct (decide (of_kind_today b exit x)) as [[Hx _]|]; cbn; try lia.
  congruence.
Qed.

Lemma today_count_le_table b k ms :
  (length (filter (of_kind_today b k) (take 5 (order_by_created_at_desc ms))) ≤
   length (filter (of_kind_today b k) ms))%nat.
Proof.
  rewrite <- (order_by_created_at_desc_Permutation ms) at 2.
  rewrite <- (take_drop 5 (order_by_created_at_desc ms)) at 2.
  rewrite filter_app, length_app. lia.
Qed.

Lemma todayEntries_Some b ms :
  todayEntries b (Some ms) = length (filter (of_kind_today b entry) ms).
Proof. reflexivity. Qed.

Lemma todayExits_Some b ms :
  todayExits b (Some ms) = length (filter (of_kind_today b exit) ms).
Proof. reflexivity. Qed.

Lemma recent_movements_oldest db ms1 mv ms2 :
  (5 ≤ length (ms1 ++ ms2))%nat →
  (∀ x, x ∈ ms1 ++ ms2 → created_at mv < created_at x) →
  recent_movements (set_stock_movements (ms1 ++ mv :: ms2) db) =
  recent_movements (set_stock_movements (ms1 ++ ms2) db).
Proof.
  intros Hfive Hold. unfold recent_movements. cbn.
  rewrite order_by_created_at_desc_oldest by done.
  apply take_app_le. by rewrite length_order_by_created_at_desc.
Qed.

(** C10: the dashboard counts today's entries and today's exits among the
    five most recently created movements only: the counters filter the
    result of a query that returns at most five movements, and every
    movement the query leaves out is no more recent than those it returns.
    Each counter, and their sum, is at most 5 and at most the number of
    today's movements of its kind in the table; a movement older than five
    others is not counted, wherever it is stored and even when it is of
    today: with six entries of today in the table the card shows four of
    them, the five most recent movements being four entries and an exit. *)
Theorem today_counters_see_five :
  (∀ b db,
     card_todayEntries (Dashboard b db) =
       length (filter (of_kind_today b entry) (recent_movements db)) ∧
     card_todayExits (Dashboard b db) =
       length (filter (of_kind_today b exit) (recent_movements db)) ∧
     (length (recent_movements db) ≤ 5)%nat ∧
     recent_movements db ++ drop 5 (order_by_created_at_desc (stock_movements db))
       ≡ₚ stock_movements db)
  ∧ (∀ db x y,
       x ∈ recent_movements db →
       y ∈ drop 5 (order_by_created_at_desc (stock_movements db)) →
       created_at y ≤ created_at x)
  ∧ (∀ b db,
       (card_todayEntries (Dashboard b db) ≤ 5)%nat ∧
       (card_todayExits (Dashboard b db) ≤ 5)%nat ∧
       (card_todayEntries (Dashboard b db) + card_todayExits (Dashboard b db) ≤ 5)%nat ∧
       (card_todayEntries (Dashboard b db) ≤
          length (filter (of_kind_today b entry) (stock_movements db)))%nat ∧
       (card_todayExits (Dashboard b db) ≤
          length (filter (of_kind_today b exit) (stock_movements db)))%nat)
  ∧ (∀ b db ms1 mv ms2,
       (5 ≤ length (ms1 ++ ms2))%nat →
       (∀ x, x ∈ ms1 ++ ms2 → created_at mv < created_at x) →
       Dashboard b (set_stock_movements (ms1 ++ mv :: ms2) db) =
       Dashboard b (set_stock_movements (ms1 ++ ms2) db))
  ∧ (length (filter (of_kind_today at_noon entry) (stock_movements busy_day)) = 6%nat ∧
     card_todayEntries (Dashboard at_noon busy_day) = 4%nat ∧
     card_todayExits (Dashboard at_noon busy_day) = 1%nat).
Proof.
  split; [|split; [|split; [|split; [|by vm_compute]]]].
  - intros b db. repeat split.
    + unfold recent_movements. rewrite length_take. lia.
    + unfold recent_movements. rewrite take_drop.
      apply order_by_created_at_desc_Permutation.
  - apply recent_movements_most_recent.
  - intros b db. cbn [Dashboard card_todayEntries card_todayExits].
    rewrite todayEntries_Some, todayExits_Some. unfold recent_movements.
    pose proof (today_counts_disjoint b
                  (take 5 (order_by_created_at_desc (stock_movements db)))) as Hsum.
    pose proof (length_take (order_by_created_at_desc (stock_movements db)) 5) as Hfive.
    pose proof (today_count_le_table b entry (stock_movements db)).
    pose proof (today_count_le_table b exit (stock_movements db)).
    repeat split; try done; lia.
  - intros b db ms1 mv ms2 Hfive Hold. unfold Dashboard.
    by rewrite recent_movements_oldest.
Qed.

Lemma today_counters_see_five_witness :
  Dashboard at_noon
    (set_stock_movements (movement_at id_m0 entry 500 :: stock_movements busy_day)
       busy_day) =
  Dashboard at_noon busy_day.
Proof.
  apply (proj1 (proj2 (proj2 (proj2 today_counters_see_five))) at_noon busy_day []
           (movement_at id_m0 entry 500) (stock_movements busy_day)).
  - cbn. lia.
  - intros x Hx. apply list_elem_of_In in Hx. cbn in Hx.
    intuition subst; cbn; lia.
Defined.

(** ** What each statement can have done *)

Lemma numeric_in_Ok q h : numeric_in q = Ok h → h = round_scale_2 q.
Proof. unfold numeric_in. by intros [-> _]%to_numeric_10_2_Ok. Qed.

Lemma numeric_in_opt_Ok q h :
  numeric_in_opt q = Ok h → h = round_scale_2 <$> q.
Proof.
  destruct q as [q|]; cbn; [|by intros [= <-]].
  destruct (numeric_in q) as [x|e] eqn:Hq; cbn; [|done].
  apply numeric_in_Ok in Hq as ->. by intros [= <-].
Qed.

(** A quantity the product resolver accepts is stored as no less than zero. *)
Lemma round_scale_2_nonneg (q : Q) : Qle_bool 0 q = true → 0 ≤ round_scale_2 q.
Proof.
  rewrite Qle_bool_iff. destruct q as [n d]. unfold Qle, round_scale_2.
  cbn [Qnum Qden]. intros Hle.
  apply Z.mul_nonneg_nonneg; [lia|].
  apply Z.div_pos; lia.
Qed.

Lemma insert_product_Ok ctx c db db' :
  insert_product ctx c db = Ok db' →
  products db !! gen_random_uuid ctx = None ∧
  ∃ NEW,
    db' = set_products (<[gen_random_uuid ctx := NEW]> (products db)) db ∧
    current_stock NEW = default 0 (round_scale_2 <$> c_current_stock c).
Proof.
  unfold insert_product.
  destruct (numeric_in _) as [minimum|e]; cbn; [|done].
  destruct (numeric_in_opt (c_current_stock c)) as [current|e] eqn:Hcur; cbn; [|done].
  apply numeric_in_opt_Ok in Hcur as ->.
  destruct (numeric_in_opt (c_price c)) as [price|e]; cbn; [|done].
  destruct (admin_or_operator db ctx); cbn; [|done].
  case_bool_decide as Hfresh; [done|].
  destruct (code_in_use _ _ _); [done|].
  destruct (products_fkeys _ _); cbn; [|done].
  intros [= <-]. split.
  - by apply eq_None_not_Some.
  - eexists. split; [done|]. done.
Qed.

Lemma update_product_Ok ctx id c db db' :
  update_product ctx id c db = Ok db' →
  db' = db ∨
  ∃ OLD NEW,
    products db !! id = Some OLD ∧
    db' = set_products (<[id := NEW]> (products db)) db ∧
    current_stock NEW =
      default (current_stock OLD) (round_scale_2 <$> c_current_stock c).
Proof.
  unfold update_product.
  destruct (numeric_in _) as [minimum|e]; cbn; [|done].
  destruct (numeric_in_opt (c_current_stock c)) as [current|e] eqn:Hcur; cbn; [|done].
  apply numeric_in_opt_Ok in Hcur as ->.
  destruct (numeric_in_opt (c_price c)) as [price|e]; cbn; [|done].
  destruct (products db !! id) as [OLD|] eqn:Hold; [|intros [= <-]; by left].
  destruct (admin_or_operator db ctx); cbn; [|intros [= <-]; by left].
  destruct (code_in_use _ _ _); [done|].
  destruct (products_fkeys _ _); cbn; [|done].
  intros [= <-]. right. eexists OLD, _. done.
Qed.

Lemma delete_product_Ok ctx id db db' :
  delete_product ctx id db = Ok db' →
  db' = db ∨
  db' = set_stock_movements
          (filter (λ mv, product_id mv ≠ id) (stock_movements db))
          (set_products (delete id (products db)) db).
Proof.
  unfold delete_product.
  destruct (products db !! id); [|intros [= <-]; by left].
  destruct (only_admin db ctx); cbn; intros [= <-]; auto.
Qed.

(** The category and supplier forms leave products and movements alone. *)
Lemma Categories_saveMutation_tables ctx sel d db :
  products (Categories_saveMutation ctx sel d db).1 = products db ∧
  stock_movements (Categories_saveMutation ctx sel d db).1 = stock_movements db.
Proof.
  unfold Categories_saveMutation, report, execute.
  destruct sel as [id|].
  - destruct (categories db !! id); [|done]. by destruct (only_admin db ctx).
  - destruct (only_admin db ctx); [|done]. cbn. by case_bool_decide.
Qed.

Lemma Categories_deleteMutation_tables ctx id db :
  products (Categories_deleteMutation ctx id db).1 = products db ∧
  stock_movements (Categories_deleteMutation ctx id db).1 = stock_movements db.
Proof.
  unfold Categories_deleteMutation, report, execute.
  destruct (categories db !! id); [|done].
  destruct (only_admin db ctx); [|done]. cbn.
  by destruct (category_referenced id db).
Qed.

Lemma Suppliers_saveMutation_tables ctx sel d db :
  products (Suppliers_saveMutation ctx sel d db).1 = products db ∧
  stock_movements (Suppliers_saveMutation ctx sel d db).1 = stock_movements db.
Proof.
  unfold Suppliers_saveMutation, report, execute.
  destruct sel as [id|].
  - destruct (suppliers db !! id); [|done]. by destruct (only_admin db ctx).
  - destruct (only_admin db ctx); [|done]. cbn. by case_bool_decide.
Qed.

Lemma Suppliers_deleteMutation_tables ctx id db :
  products (Suppliers_deleteMutation ctx id db).1 = products db ∧
  stock_movements (Suppliers_deleteMutation ctx id db).1 = stock_movements db.
Proof.
  unfold Suppliers_deleteMutation, report, execute.
  destruct (suppliers db !! id); [|done].
  destruct (only_admin db ctx); [|done]. cbn.
  by destruct (supplier_referenced id db).
Qed.

(** ** Every operation, case by case *)

Lemma insert_stock_movement_written ctx op d db db' o :
  submits_movement op = true →
  report (execute (insert_stock_movement ctx d) db) = (db', o) →
  written ctx op db db'.
Proof.
  intros Hop [[Hins _]|(e & _ & -> & _)]%report_execute; [|by constructor].
  apply insert_stock_movement_Ok in Hins
    as (pid & p & _ & _ & Hp & _ & _ & _ & ->).
  by apply (movement_recorded _ _ _ _
              (new_stock_movement ctx d pid (round_scale_2 (d_quantity d))
                 (d_expiration_date d)) p).
Qed.

Lemma product_write_written ctx op target c db db' o :
  product_write op = Some (target, c) →
  report (execute
            match target with
            | Some id => update_product ctx id c
            | None => insert_product ctx c
            end db) = (db', o) →
  written ctx op db db'.
Proof.
  intros Hop [[Hst _]|(e & _ & -> & _)]%report_execute; [|by constructor].
  destruct target as [id|].
  - apply update_product_Ok in Hst as [->|(OLD & NEW & Hold & -> & Hcur)];
      [by constructor|].
    by eapply product_updated.
  - apply insert_product_Ok in Hst as (Hfresh & NEW & -> & Hcur).
    by eapply product_created.
Qed.

Lemma Products_deleteMutation_written ctx op id db :
  product_removal op = Some id →
  written ctx op db (Products_deleteMutation ctx id db).1.
Proof.
  intros Hop. unfold Products_deleteMutation.
  destruct (report _) as [db' o] eqn:Hrep.
  apply report_execute in Hrep as [[Hst _]|(e & _ & -> & _)]; [|by constructor].
  apply delete_product_Ok in Hst as [->| ->]; [by constructor|].
  by eapply product_deleted.
Qed.

Lemma perform_written ctx op db : written ctx op db (perform ctx op db).1.
Proof.
  destruct op as [values|t formData|productId values|product formData|product|id
                  |sel d|id|sel d|id]; cbn [perform].
  - unfold recordMovement, saveMutation.
    destruct (movementSchema values); [|by constructor].
    destruct (auth_uid ctx) as [user|]; [|by constructor].
    destruct (report _) as [db' o] eqn:Hrep.
    by eapply insert_stock_movement_written.
  - unfold StockMovementDialog_handleSubmit.
    destruct (dialog_movementSchema formData); [|by constructor].
    destruct (auth_uid ctx) as [user|]; [|by constructor].
    destruct (report _) as [db' o] eqn:Hrep.
    by eapply insert_stock_movement_written.
  - unfold ProductDialog_onSubmit, ProductDialog_saveMutation.
    destruct (productSchema values) eqn:Hvalid; [|by constructor].
    destruct productId as [id|];
      destruct (report _) as [db' o] eqn:Hrep;
      (eapply (product_write_written _ _ _ (product_dataToSave values));
       [cbn; by rewrite Hvalid|exact Hrep]).
  - unfold packcontrol_ProductDialog_handleSubmit.
    destruct (packcontrol_productSchema formData) eqn:Hvalid; [|by constructor].
    destruct product as [id|];
      destruct (report _) as [db' o] eqn:Hrep;
      (eapply (product_write_written _ _ _ (submitData formData));
       [cbn; by rewrite Hvalid|exact Hrep]).
  - by apply Products_deleteMutation_written.
  - by apply Products_deleteMutation_written.
  - constructor; apply Categories_saveMutation_tables.
  - constructor; apply Categories_deleteMutation_tables.
  - constructor; apply Suppliers_saveMutation_tables.
  - constructor; apply Suppliers_deleteMutation_tables.
Qed.

(** ** Movements are never rewritten *)

Lemma set_stock_movements_id db : set_stock_movements (stock_movements db) db = db.
Proof. by destruct db. Qed.

Lemma filter_everything {A} (P : A → Prop) `{!∀ x, Decision (P x)} (l : list A) :
  (∀ x, P x) → filter P l = l.
Proof.
  intros HP. induction l as [|x l IH]; [done|].
  rewrite filter_cons, decide_True by done. by rewrite IH.
Qed.

(** C8: a stored movement is never changed.  Every operation of the
    application leaves the movement table as it was, or appends one row to
    it, or, when it deletes a product, removes the movements of that
    product and no other; so each stored movement stays, identical, until
    its product is deleted.  An [UPDATE] or [DELETE] sent to the table
    directly changes nothing either, for want of a policy. *)
Theorem movements_are_immutable :
  (∀ ctx op db,
     stock_movements (perform ctx op db).1 = stock_movements db
     ∨ (∃ NEW, submits_movement op = true ∧
               stock_movements (perform ctx op db).1 = stock_movements db ++ [NEW])
     ∨ (∃ id, product_removal op = Some id ∧
              products (perform ctx op db).1 !! id = None ∧
              stock_movements (perform ctx op db).1 =
                filter (λ mv, product_id mv ≠ id) (stock_movements db)))
  ∧ (∀ ctx op db mv,
       mv ∈ stock_movements db →
       mv ∈ stock_movements (perform ctx op db).1
       ∨ (product_removal op = Some (product_id mv) ∧
          products (perform ctx op db).1 !! product_id mv = None))
  ∧ (∀ ctx where_ set db, update_stock_movements ctx where_ set db = db)
  ∧ (∀ ctx where_ db, delete_stock_movements ctx where_ db = db)
  ∧ (length (stock_movements shop_with_history) = 2%nat ∧
     stock_movements (perform (as_user id_ana id_x 9) (Products_delete id_p1)
                        shop_with_history).1 = stock_movements shop_with_history ∧
     stock_movements (perform (as_user id_eve id_x 9) (Products_delete id_p1)
                        shop_with_history).1 = []).
Proof.
  assert (Hshape : ∀ ctx op db,
     stock_movements (perform ctx op db).1 = stock_movements db
     ∨ (∃ NEW, submits_movement op = true ∧
               stock_movements (perform ctx op db).1 = stock_movements db ++ [NEW])
     ∨ (∃ id, product_removal op = Some id ∧
              products (perform ctx op db).1 !! id = None ∧
              stock_movements (perform ctx op db).1 =
                filter (λ mv, product_id mv ≠ id) (stock_movements db))).
  { intros ctx op db.
    destruct (perform_written ctx op db)
      as [_ Hms|NEW p Hop _ Hms _|c NEW _ _ _ Hms _|id c OLD NEW _ _ _ Hms _
          |id Hop Hps Hms]; eauto.
    right. right. exists id. rewrite Hps, lookup_delete_eq. done. }
  split; [exact Hshape|].
  split; [|split; [|split; [|by vm_compute]]].
  - intros ctx op db mv Hmv.
    destruct (Hshape ctx op db) as [->|[(NEW & _ & ->)|(id & Hop & Hgone & ->)]].
    + by left.
    + left. apply elem_of_app. by left.
    + destruct (decide (product_id mv = id)) as [<-|Hne]; [by right|].
      left. by apply list_elem_of_filter.
  - intros ctx where_ set db. unfold update_stock_movements. cbn.
    rewrite list_fmap_id. apply set_stock_movements_id.
  - intros ctx where_ db. unfold delete_stock_movements. cbn.
    rewrite filter_everything by (intros x; cbn; tauto).
    apply set_stock_movements_id.
Qed.

Lemma movements_are_immutable_witness :
  new_stock_movement (as_user id_ana id_m1 1)
    (dataToSave id_ana (movement_form id_p1 entry (hundredths 500))) id_p1 500 None
  ∈ stock_movements
      (perform (as_user id_ana id_m3 3)
         (Movements_onSubmit (movement_form id_p1 exit (hundredths 100)))
         shop_with_history).1
  ∨ (product_removal (Movements_onSubmit (movement_form id_p1 exit (hundredths 100)))
     = Some id_p1 ∧
     products
       (perform (as_user id_ana id_m3 3)
          (Movements_onSubmit (movement_form id_p1 exit (hundredths 100)))
          shop_with_history).1 !! id_p1 = None).
Proof.
  apply (proj1 (proj2 movements_are_immutable) (as_user id_ana id_m3 3)
           (Movements_onSubmit (movement_form id_p1 exit (hundredths 100)))
           shop_with_history
           (new_stock_movement (as_user id_ana id_m1 1)
              (dataToSave id_ana (movement_form id_p1 entry (hundredths 500))) id_p1 500 None)).
  vm_compute. constructor.
Defined.

(** ** Who writes the current quantity *)

(** C4, corrected: the current quantity of a product changes through the
    ledger, when a movement of the product is appended, and through the
    product dialog, which on an edit stores the form's current stock,
    accepted from zero up, without appending a movement; no other operation
    changes it.  A new product starts at the current stock of the product
    dialog's form, or at zero from the dialog of packcontrol-pro-main, with
    no movement either. *)
Theorem current_stock_writers :
  (∀ ctx op db pid p p',
     products db !! pid = Some p →
     products (perform ctx op db).1 !! pid = Some p' →
     current_stock p' ≠ current_stock p →
     (∃ NEW,
        submits_movement op = true ∧
        product_id NEW = pid ∧
        stock_movements (perform ctx op db).1 = stock_movements db ++ [NEW] ∧
        current_stock p' = apply_movement (current_stock p) NEW)
     ∨ (∃ values,
          op = ProductDialog_submit (Some pid) values ∧
          stock_movements (perform ctx op db).1 = stock_movements db ∧
          current_stock p' = round_scale_2 (f_current_stock values) ∧
          0 ≤ current_stock p'))
  ∧ (∀ ctx op db pid p',
       products db !! pid = None →
       products (perform ctx op db).1 !! pid = Some p' →
       stock_movements (perform ctx op db).1 = stock_movements db ∧
       ((∃ values,
           op = ProductDialog_submit None values ∧
           current_stock p' = round_scale_2 (f_current_stock values) ∧
           0 ≤ current_stock p')
        ∨ (∃ formData,
             op = packcontrol_ProductDialog_submit None formData ∧
             current_stock p' = 0))).
Proof.
  split.
  - intros ctx op db pid p p' Hp Hp' Hchanged.
    destruct (perform_written ctx op db)
      as [Hps _|NEW p0 Hop Hp0 Hms Hps|c NEW _ Hfresh Hps _ _
          |id c OLD NEW Hop Hold Hps Hms Hcur|id _ Hps _];
      rewrite Hps in Hp'.
    + congruence.
    + destruct (decide (product_id NEW = pid)) as [Heq|Hne].
      * left. exists NEW. subst pid. rewrite lookup_insert_eq in Hp'.
        injection Hp' as <-. rewrite Hp in Hp0. injection Hp0 as <-. done.
      * rewrite lookup_insert_ne in Hp' by done. congruence.
    + destruct (decide (gen_random_uuid ctx = pid)) as [Heq|Hne]; [congruence|].
      rewrite lookup_insert_ne in Hp' by done. congruence.
    + destruct (decide (id = pid)) as [->|Hne].
      2: { rewrite lookup_insert_ne in Hp' by done. congruence. }
      rewrite lookup_insert_eq in Hp'. injection Hp' as <-.
      rewrite Hp in Hold. injection Hold as <-.
      destruct op; try done; cbn in Hop.
      * destruct (productSchema values) eqn:Hvalid; [|done].
        injection Hop as -> <-. cbn in Hcur.
        right. exists values. repeat split; try done.
        rewrite Hcur. apply round_scale_2_nonneg.
        unfold productSchema in Hvalid. rewrite !andb_true_iff in Hvalid. tauto.
      * destruct (packcontrol_productSchema formData); [|done].
        injection Hop as -> <-. cbn in Hcur. congruence.
    + destruct (decide (id = pid)) as [->|Hne].
      * by rewrite lookup_delete_eq in Hp'.
      * rewrite lookup_delete_ne in Hp' by done. congruence.
  - intros ctx op db pid p' Hp Hp'.
    destruct (perform_written ctx op db)
      as [Hps _|NEW p0 _ Hp0 _ Hps|c NEW Hop _ Hps Hms Hcur
          |id c OLD NEW _ Hold Hps _ _|id _ Hps _];
      rewrite Hps in Hp'.
    + congruence.
    + destruct (decide (product_id NEW = pid)) as [Heq|Hne]; [congruence|].
      rewrite lookup_insert_ne in Hp' by done. congruence.
    + destruct (decide (gen_random_uuid ctx = pid)) as [Heq|Hne].
      2: { rewrite lookup_insert_ne in Hp' by done. congruence. }
      rewrite Heq, lookup_insert_eq in Hp'. injection Hp' as <-.
      split; [done|].
      destruct op; try done; cbn in Hop.
      * destruct (productSchema values) eqn:Hvalid; [|done].
        injection Hop as -> <-. cbn in Hcur.
        left. exists values. repeat split; try done.
        rewrite Hcur. apply round_scale_2_nonneg.
        unfold productSchema in Hvalid. rewrite !andb_true_iff in Hvalid. tauto.
      * destruct (packcontrol_productSchema formData); [|done].
        injection Hop as -> <-. cbn in Hcur.
        right. by exists formData.
    + destruct (decide (id = pid)) as [Heq|Hne]; [congruence|].
      rewrite lookup_insert_ne in Hp' by done. congruence.
    + destruct (decide (id = pid)) as [->|Hne].
      * by rewrite lookup_delete_eq in Hp'.
      * rewrite lookup_delete_ne in Hp' by done. congruence.
Qed.

Lemma current_stock_writers_witness :
  (∃ NEW,
     submits_movement (ProductDialog_submit (Some id_p1) (widget_form (hundredths 9900)))
     = true ∧
     product_id NEW = id_p1 ∧
     stock_movements
       (perform (as_user id_ana id_x 7)
          (ProductDialog_submit (Some id_p1) (widget_form (hundredths 9900)))
          (shop 1000)).1 = stock_movements (shop 1000) ++ [NEW] ∧
     9900 = apply_movement 1000 NEW)
  ∨ (∃ values,
       ProductDialog_submit (Some id_p1) (widget_form (hundredths 9900)) =
       ProductDialog_submit (Some id_p1) values ∧
       stock_movements
         (perform (as_user id_ana id_x 7)
            (ProductDialog_submit (Some id_p1) (widget_form (hundredths 9900)))
            (shop 1000)).1 = stock_movements (shop 1000) ∧
       9900 = round_scale_2 (f_current_stock values) ∧
       0 ≤ 9900).
Proof.
  apply (proj1 current_stock_writers (as_user id_ana id_x 7)
           (ProductDialog_submit (Some id_p1) (widget_form (hundredths 9900)))
           (shop 1000) id_p1 (widget 1000 500)
           (set_current_stock 9900 7 (widget 1000 500))).
  - reflexivity.
  - reflexivity.
  - cbn. lia.
Defined.

(** C4, counterexample: an operator who edits the product in the product
    dialog with another current stock changes the quantity from 10.00 to
    99.00 and no movement is appended; and a product created in the dialog
    with a current stock of 5 starts at 5.00 with no movement. *)
Lemma product_dialog_sets_current_stock :
  (perform (as_user id_ana id_x 7)
     (ProductDialog_submit (Some id_p1) (widget_form (hundredths 9900)))
     (shop 1000)).2 = Success
  ∧ current_stock <$> products (shop 1000) !! id_p1 = Some 1000
  ∧ current_stock <$>
      products (perform (as_user id_ana id_x 7)
                  (ProductDialog_submit (Some id_p1) (widget_form (hundredths 9900)))
                  (shop 1000)).1 !! id_p1 = Some 9900
  ∧ stock_movements
      (perform (as_user id_ana id_x 7)
         (ProductDialog_submit (Some id_p1) (widget_form (hundredths 9900)))
         (shop 1000)).1 = []
  ∧ current_stock <$>
      products (perform (as_user id_ana id_p2 7)
                  (ProductDialog_submit None (gadget_form (hundredths 500)))
                  (shop 1000)).1 !! id_p2 = Some 500
  ∧ stock_movements
      (perform (as_user id_ana id_p2 7)
         (ProductDialog_submit None (gadget_form (hundredths 500)))
         (shop 1000)).1 = [].
Proof. repeat split. Qed.

(** ** The fold survives the other operations *)

Lemma movements_of_filter_other pid id (ms : list stock_movement) :
  id ≠ pid →
  movements_of pid (filter (λ mv, product_id mv ≠ id) ms) = movements_of pid ms.
Proof.
  intros Hne. unfold movements_of. rewrite list_filter_filter.
  apply list_filter_iff. intros mv. split; [tauto|]. intros Hpid.
  split; [done|]. congruence.
Qed.

(** The quantity of a product stays the fold of its history under every
    operation of the application but an edit of that product in the product
    dialog. *)
Lemma recompute_preserved ctx op db pid p p' q0 :
  products db !! pid = Some p →
  products (perform ctx op db).1 !! pid = Some p' →
  (∀ values, op ≠ ProductDialog_submit (Some pid) values) →
  current_stock p = recompute q0 pid db →
  current_stock p' = recompute q0 pid (perform ctx op db).1.
Proof.
  intros Hp Hp' Hop Hq0. unfold recompute in *.
  destruct (perform_written ctx op db)
    as [Hps Hms|NEW p0 _ Hp0 Hms Hps|c NEW _ Hfresh Hps Hms _
        |id c OLD NEW Hwrite Hold Hps Hms Hcur|id _ Hps Hms];
    rewrite Hps in Hp'; rewrite Hms.
  - congruence.
  - rewrite movements_of_app, fold_movements_app, <- Hq0.
    destruct (decide (product_id NEW = pid)) as [Heq|Hne].
    + rewrite movements_of_own by done. subst pid.
      rewrite lookup_insert_eq in Hp'. injection Hp' as <-.
      rewrite Hp in Hp0. by injection Hp0 as <-.
    + rewrite movements_of_other by done.
      rewrite lookup_insert_ne in Hp' by done.
      rewrite Hp in Hp'. by injection Hp' as <-.
  - destruct (decide (gen_random_uuid ctx = pid)) as [Heq|Hne]; [congruence|].
    rewrite lookup_insert_ne in Hp' by done. congruence.
  - destruct (decide (id = pid)) as [->|Hne].
    2: { rewrite lookup_insert_ne in Hp' by done. congruence. }
    rewrite lookup_insert_eq in Hp'. injection Hp' as <-.
    rewrite Hp in Hold. injection Hold as <-.
    destruct op; try done; cbn in Hwrite.
    + destruct (productSchema values); [|done].
      injection Hwrite as -> <-. by destruct (Hop values).
    + destruct (packcontrol_productSchema formData); [|done].
      injection Hwrite as -> <-. cbn in Hcur. congruence.
  - destruct (decide (id = pid)) as [->|Hne].
    + by rewrite lookup_delete_eq in Hp'.
    + rewrite lookup_delete_ne in Hp' by done.
      rewrite movements_of_filter_other by done. congruence.
Qed.

(** * The rest of the application *)

(** ** Every operation, with its checks *)

Lemma or_null_nonempty s : or_null s ≠ Some "".
Proof. destruct s as [[|a s]|]; done. Qed.

Lemma text_or_null_nonempty s : text_or_null s ≠ Some "".
Proof. destruct s as [|a s]; done. Qed.

Lemma insert_stock_movement_checks ctx d db db' :
  insert_stock_movement ctx d db = Ok db' →
  ∃ pid p,
    uuid_in (d_product_id d) = Ok pid ∧
    date_readable (d_expiration_date d) ∧
    products db !! pid = Some p ∧
    numeric_fits (round_scale_2 (d_quantity d)) = true ∧
    admin_or_operator db ctx = true ∧
    auth_uid ctx = Some (d_user_id d) ∧
    movement_exists (gen_random_uuid ctx) db = false ∧
    numeric_fits
      (apply_movement (current_stock p)
         (new_stock_movement ctx d pid (round_scale_2 (d_quantity d))
            (d_expiration_date d))) = true.
Proof.
  intros Hins.
  destruct (insert_stock_movement_Ok _ _ _ _ Hins)
    as (pid & p & Hpid & Hdate & Hp & Hq & Hrls & Hfit & _).
  exists pid, p. unfold stock_movements_insert_check in Hrls.
  apply andb_true_iff in Hrls as [Hrole Huser].
  apply bool_decide_eq_true in Huser. cbn in Hq, Huser.
  repeat split; try done.
  unfold insert_stock_movement, numeric_in, to_numeric_10_2 in Hins.
  rewrite Hpid in Hins. cbn in Hins. rewrite Hq in Hins. cbn in Hins.
  rewrite Hdate in Hins. cbn in Hins.
  destruct (stock_movements_insert_check _ _ _); cbn in Hins; [|done].
  by destruct (movement_exists _ _).
Qed.

Lemma insert_stock_movement_performed ctx op d db db' o :
  submits_movement op = true →
  1 ≤ round_scale_2 (d_quantity d) →
  d_batch_number d ≠ Some "" →
  d_expiration_date d ≠ Some "" →
  d_notes d ≠ Some "" →
  (∀ t formData, op = StockMovementDialog_submit t formData →
                 d_type d = dialog_type t) →
  report (execute (insert_stock_movement ctx d) db) = (db', o) →
  performed ctx op db db'.
Proof.
  intros Hop Hpos Hbatch Hdate Hnotes Hkind
    [[Hins _]|(e & _ & -> & _)]%report_execute; [|by constructor].
  destruct (insert_stock_movement_checks _ _ _ _ Hins)
    as (pid & p & Hpid & _ & Hp & Hq & Hrole & Huser & Hfresh & Hfit).
  apply insert_stock_movement_Ok in Hins
    as (pid0 & p0 & Hpid0 & _ & Hp0 & _ & _ & _ & ->).
  rewrite Hpid in Hpid0. injection Hpid0 as <-.
  rewrite Hp in Hp0. injection Hp0 as <-.
  by apply (performed_movement _ _ _ _
              (new_stock_movement ctx d pid (round_scale_2 (d_quantity d))
                 (d_expiration_date d)) p).
Qed.

Lemma numeric_in_fits q h : numeric_in q = Ok h → numeric_fits h = true.
Proof.
  unfold numeric_in. intros Hq. pose proof Hq as Hq'.
  apply to_numeric_10_2_Ok in Hq as [-> Hfit]. done.
Qed.

Lemma numeric_in_opt_fits q h x :
  numeric_in_opt q = Ok h → h = Some x → numeric_fits x = true.
Proof.
  destruct q as [q|]; cbn; [|by intros [= <-]].
  destruct (numeric_in q) as [y|e] eqn:Hq; cbn; [|done].
  intros [= <-] [= <-]. by eapply numeric_in_fits.
Qed.

Lemma insert_product_performed ctx op c db db' :
  product_write op = Some (None, c) →
  insert_product ctx c db = Ok db' →
  performed ctx op db db'.
Proof.
  intros Hop. unfold insert_product.
  destruct (numeric_in (c_minimum_stock c)) as [minimum|e] eqn:Hmin; cbn; [|done].
  destruct (numeric_in_opt (c_current_stock c)) as [current|e] eqn:Hcur; cbn; [|done].
  destruct (numeric_in_opt (c_price c)) as [price|e] eqn:Hprice; cbn; [|done].
  destruct (admin_or_operator db ctx) eqn:Hrole; cbn; [|done].
  case_bool_decide as Hfresh; [done|].
  destruct (code_in_use _ _ _) eqn:Hcode; [done|].
  destruct (products_fkeys _ _) eqn:Hfk; cbn; [|done].
  intros [= <-].
  pose proof (numeric_in_fits _ _ Hmin) as Hminfit.
  pose proof (λ x, numeric_in_opt_fits _ _ x Hcur) as Hcurfit.
  pose proof (λ x, numeric_in_opt_fits _ _ x Hprice) as Hpricefit.
  apply numeric_in_Ok in Hmin as ->.
  apply numeric_in_opt_Ok in Hcur as ->.
  apply numeric_in_opt_Ok in Hprice as ->.
  apply eq_None_not_Some in Hfresh.
  eapply performed_product_insert; try done; cbn; try done.
  destruct (c_current_stock c) as [x|]; cbn in *; [by apply Hcurfit|done].
Qed.

Lemma update_product_performed ctx op id c db db' :
  product_write op = Some (Some id, c) →
  update_product ctx id c db = Ok db' →
  performed ctx op db db'.
Proof.
  intros Hop. unfold update_product.
  destruct (numeric_in (c_minimum_stock c)) as [minimum|e] eqn:Hmin; cbn; [|done].
  destruct (numeric_in_opt (c_current_stock c)) as [current|e] eqn:Hcur; cbn; [|done].
  destruct (numeric_in_opt (c_price c)) as [price|e] eqn:Hprice; cbn; [|done].
  destruct (products db !! id) as [OLD|] eqn:Hold;
    [|intros [= <-]; by constructor].
  destruct (admin_or_operator db ctx) eqn:Hrole; cbn;
    [|intros [= <-]; by constructor].
  destruct (code_in_use _ _ _) eqn:Hcode; [done|].
  destruct (products_fkeys _ _) eqn:Hfk; cbn; [|done].
  intros [= <-].
  pose proof (numeric_in_fits _ _ Hmin) as Hminfit.
  pose proof (λ x, numeric_in_opt_fits _ _ x Hcur) as Hcurfit.
  pose proof (λ x, numeric_in_opt_fits _ _ x Hprice) as Hpricefit.
  apply numeric_in_Ok in Hmin as ->.
  apply numeric_in_opt_Ok in Hcur as ->.
  apply numeric_in_opt_Ok in Hprice as ->.
  eapply (performed_product_update _ _ _ _ id c OLD); try done; cbn; try done.
  intros Hfit. destruct (c_current_stock c) as [x|]; cbn in *; [by apply Hcurfit|done].
Qed.

Lemma product_write_performed ctx op target c db db' o :
  product_write op = Some (target, c) →
  report (execute
            match target with
            | Some id => update_product ctx id c
            | None => insert_product ctx c
            end db) = (db', o) →
  performed ctx op db db'.
Proof.
  intros Hop [[Hst _]|(e & _ & -> & _)]%report_execute; [|by constructor].
  destruct target as [id|].
  - by eapply update_product_performed.
  - by eapply insert_product_performed.
Qed.

Lemma Products_deleteMutation_performed ctx op id db :
  product_removal op = Some id →
  performed ctx op db (Products_deleteMutation ctx id db).1.
Proof.
  intros Hop. unfold Products_deleteMutation, report, execute, delete_product.
  destruct (products db !! id) as [p|] eqn:Hp; cbn; [|by constructor].
  destruct (only_admin db ctx) eqn:Hadmin; cbn; [|by constructor].
  by eapply performed_product_delete.
Qed.

Lemma Categories_saveMutation_performed ctx op sel d db :
  performed ctx op db (Categories_saveMutation ctx sel d db).1.
Proof.
  unfold Categories_saveMutation, report, execute.
  destruct sel as [id|].
  - destruct (categories db !! id); cbn; [|by constructor].
    destruct (only_admin db ctx) eqn:Hadmin; cbn; [|by constructor].
    by eapply performed_category_save.
  - destruct (only_admin db ctx) eqn:Hadmin; cbn; [|by constructor].
    case_bool_decide; cbn; [by constructor|].
    by eapply performed_category_save.
Qed.

Lemma Categories_deleteMutation_performed ctx op id db :
  performed ctx op db (Categories_deleteMutation ctx id db).1.
Proof.
  unfold Categories_deleteMutation, report, execute.
  destruct (categories db !! id); cbn; [|by constructor].
  destruct (only_admin db ctx) eqn:Hadmin; cbn; [|by constructor].
  destruct (category_referenced id db) eqn:Href; cbn; [by constructor|].
  by eapply performed_category_delete.
Qed.

Lemma Suppliers_saveMutation_performed ctx op sel d db :
  performed ctx op db (Suppliers_saveMutation ctx sel d db).1.
Proof.
  unfold Suppliers_saveMutation, report, execute.
  destruct sel as [id|].
  - destruct (suppliers db !! id); cbn; [|by constructor].
    destruct (only_admin db ctx) eqn:Hadmin; cbn; [|by constructor].
    by eapply performed_supplier_save.
  - destruct (only_admin db ctx) eqn:Hadmin; cbn; [|by constructor].
    case_bool_decide; cbn; [by constructor|].
    by eapply performed_supplier_save.
Qed.

Lemma Suppliers_deleteMutation_performed ctx op id db :
  performed ctx op db (Suppliers_deleteMutation ctx id db).1.
Proof.
  unfold Suppliers_deleteMutation, report, execute.
  destruct (suppliers db !! id); cbn; [|by constructor].
  destruct (only_admin db ctx) eqn:Hadmin; cbn; [|by constructor].
  destruct (supplier_referenced id db) eqn:Href; cbn; [by constructor|].
  by eapply performed_supplier_delete.
Qed.

Lemma dialog_movementSchema_spec formData :
  dialog_movementSchema formData = true →
  (1 # 100 <= g_quantity formData)%Q.
Proof.
  unfold dialog_movementSchema. rewrite andb_true_iff, Qle_bool_iff. tauto.
Qed.

Lemma perform_performed ctx op db : performed ctx op db (perform ctx op db).1.
Proof.
  destruct op as [values|t formData|productId values|product formData|product|id
                  |sel d|id|sel d|id]; cbn [perform].
  - unfold recordMovement, saveMutation.
    destruct (movementSchema values) eqn:Hvalid; [|by constructor].
    destruct (auth_uid ctx) as [user|]; [|by constructor].
    destruct (report _) as [db' o] eqn:Hrep.
    apply movementSchema_spec in Hvalid as (_ & Hq & _).
    eapply insert_stock_movement_performed; [..|exact Hrep]; cbn;
      auto using or_null_nonempty, round_scale_2_accepted.
    done.
  - unfold StockMovementDialog_handleSubmit.
    destruct (dialog_movementSchema formData) eqn:Hvalid; [|by constructor].
    destruct (auth_uid ctx) as [user|]; [|by constructor].
    destruct (report _) as [db' o] eqn:Hrep.
    apply dialog_movementSchema_spec in Hvalid.
    eapply insert_stock_movement_performed; [..|exact Hrep]; cbn;
      auto using text_or_null_nonempty, round_scale_2_accepted.
    by intros t' formData' [= -> _].
  - unfold ProductDialog_onSubmit, ProductDialog_saveMutation.
    destruct (productSchema values) eqn:Hvalid; [|by constructor].
    destruct productId as [id|];
      destruct (report _) as [db' o] eqn:Hrep;
      (eapply (product_write_performed _ _ _ (product_dataToSave values));
       [cbn; by rewrite Hvalid|exact Hrep]).
  - unfold packcontrol_ProductDialog_handleSubmit.
    destruct (packcontrol_productSchema formData) eqn:Hvalid; [|by constructor].
    destruct product as [id|];
      destruct (report _) as [db' o] eqn:Hrep;
      (eapply (product_write_performed _ _ _ (submitData formData));
       [cbn; by rewrite Hvalid|exact Hrep]).
  - by apply Products_deleteMutation_performed.
  - by apply Products_deleteMutation_performed.
  - apply Categories_saveMutation_performed.
  - apply Categories_deleteMutation_performed.
  - apply Suppliers_saveMutation_performed.
  - apply Suppliers_deleteMutation_performed.
Qed.

(** ** What the checks over the product table establish *)

Lemma existsb_map_to_list_false (f : string * product → bool)
    (m : gmap string product) i x :
  existsb f (map_to_list m) = false → m !! i = Some x → f (i, x) = false.
Proof.
  intros Hnone Hix. apply not_true_is_false. intros Hf.
  apply not_true_iff_false in Hnone. apply Hnone.
  apply existsb_exists. exists (i, x). split; [|done].
  apply list_elem_of_In. by apply elem_of_map_to_list.
Qed.

Lemma code_in_use_false c self db j q :
  code_in_use c self db = false →
  products db !! j = Some q → j ≠ self → code q ≠ c.
Proof.
  intros Hfree Hj Hne Hcode.
  pose proof (existsb_map_to_list_false _ _ _ _ Hfree Hj) as Hf. cbn in Hf.
  rewrite bool_decide_eq_true_2 in Hf by done.
  by rewrite bool_decide_eq_false_2 in Hf.
Qed.

Lemma category_referenced_false id db j q :
  category_referenced id db = false →
  products db !! j = Some q → category_id q ≠ Some id.
Proof.
  intros Hfree Hj Hcat.
  pose proof (existsb_map_to_list_false _ _ _ _ Hfree Hj) as Hf. cbn in Hf.
  by rewrite bool_decide_eq_true_2 in Hf.
Qed.

Lemma supplier_referenced_false id db j q :
  supplier_referenced id db = false →
  products db !! j = Some q → supplier_id q ≠ Some id.
Proof.
  intros Hfree Hj Hsup.
  pose proof (existsb_map_to_list_false _ _ _ _ Hfree Hj) as Hf. cbn in Hf.
  by rewrite bool_decide_eq_true_2 in Hf.
Qed.

Lemma products_fkeys_true p db :
  products_fkeys p db = true →
  (∀ c, category_id p = Some c → is_Some (categories db !! c)) ∧
  (∀ s, supplier_id p = Some s → is_Some (suppliers db !! s)).
Proof.
  unfold products_fkeys. rewrite andb_true_iff. intros [Hc Hs]. split.
  - intros c Hcat. rewrite Hcat in Hc. by apply bool_decide_eq_true in Hc.
  - intros s Hsup. rewrite Hsup in Hs. by apply bool_decide_eq_true in Hs.
Qed.

Lemma movement_exists_false id db :
  movement_exists id db = false → id ∉ m_id <$> stock_movements db.
Proof.
  unfold movement_exists. intros Hnone (mv & -> & Hmv)%list_elem_of_fmap.
  apply not_true_iff_false in Hnone. apply Hnone.
  apply existsb_exists. exists mv. split; [by apply list_elem_of_In|].
  by apply bool_decide_eq_true.
Qed.

(** What an accepted product form sends is not negative. *)
Lemma product_write_thresholds op target c :
  product_write op = Some (target, c) →
  0 ≤ round_scale_2 (c_minimum_stock c) ∧
  ∀ x, round_scale_2 <$> c_price c = Some x → 0 ≤ x.
Proof.
  destruct op; try done; cbn.
  - destruct (productSchema values) eqn:Hvalid; [|done]. intros [= <- <-].
    unfold productSchema in Hvalid. rewrite !andb_true_iff in Hvalid.
    destruct Hvalid as [[[[[[_ _] _] Hmin] _] Hprice] _].
    split; [by apply round_scale_2_nonneg|]. cbn.
    destruct (f_price values) as [q|]; cbn; [|done].
    destruct (Qeq_bool q 0); cbn; [done|].
    intros x [= <-]. by apply round_scale_2_nonneg.
  - destruct (packcontrol_productSchema formData) eqn:Hvalid; [|done].
    intros [= <- <-].
    unfold packcontrol_productSchema in Hvalid. rewrite !andb_true_iff in Hvalid.
    destruct Hvalid as [[[_ _] Hmin] Hprice].
    split; [by apply round_scale_2_nonneg|]. cbn.
    destruct (Qeq_bool (o_price formData) 0); cbn; [done|].
    intros x [= <-]. by apply round_scale_2_nonneg.
Qed.

(** ** Invariants of the schema *)

Lemma insert_keeps_Some {A} (m : gmap string A) i j x :
  is_Some (m !! j) → is_Some (<[i := x]> m !! j).
Proof.
  intros Hj. destruct (decide (i = j)) as [->|Hne].
  - rewrite lookup_insert_eq. eauto.
  - by rewrite lookup_insert_ne.
Qed.

Lemma lookup_insert_cases {A} (m : gmap string A) i j x y :
  <[i := x]> m !! j = Some y → (i = j ∧ y = x) ∨ (i ≠ j ∧ m !! j = Some y).
Proof.
  destruct (decide (i = j)) as [->|Hne].
  - rewrite lookup_insert_eq. intros [= <-]. by left.
  - rewrite lookup_insert_ne by done. by right.
Qed.

Lemma lookup_delete_cases {A} (m : gmap string A) i j y :
  delete i m !! j = Some y → i ≠ j ∧ m !! j = Some y.
Proof.
  destruct (decide (i = j)) as [->|Hne].
  - by rewrite lookup_delete_eq.
  - by rewrite lookup_delete_ne.
Qed.

(** X1: every operation of the application keeps the foreign keys whole: a
    movement always points at a stored product, and a product's category
    and supplier, when it has one, at a stored category and supplier. *)
Theorem referential_integrity_kept ctx op db :
  referential_integrity db → referential_integrity (perform ctx op db).1.
Proof.
  intros (Hmv & Hcat & Hsup).
  destruct (perform_performed ctx op db)
    as [->|NEW p _ _ _ _ _ _ _ _ _ _ _ _ Hp _ ->
        |c NEW _ _ Hfresh _ _ Hfk _ _ _ _ _ _ ->
        |id c OLD NEW _ _ Hold _ _ Hfk _ _ _ _ _ _ ->
        |id _ _ _ ->|id d _ ->|id _ Href ->|id d _ ->|id _ Href ->].
  - done.
  - repeat split; cbn.
    + intros mv [Hin| ->%list_elem_of_singleton]%elem_of_app.
      * by apply insert_keeps_Some, Hmv.
      * rewrite lookup_insert_eq. eauto.
    + intros id q c [[<- ->]|[_ Hq]]%lookup_insert_cases; cbn; eauto.
    + intros id q s [[<- ->]|[_ Hq]]%lookup_insert_cases; cbn; eauto.
  - apply products_fkeys_true in Hfk as [Hfc Hfs].
    repeat split; cbn.
    + intros mv Hin. by apply insert_keeps_Some, Hmv.
    + intros id q c0 [[<- ->]|[_ Hq]]%lookup_insert_cases; eauto.
    + intros id q s [[<- ->]|[_ Hq]]%lookup_insert_cases; eauto.
  - apply products_fkeys_true in Hfk as [Hfc Hfs].
    repeat split; cbn.
    + intros mv Hin. by apply insert_keeps_Some, Hmv.
    + intros i q c0 [[<- ->]|[_ Hq]]%lookup_insert_cases; eauto.
    + intros i q s [[<- ->]|[_ Hq]]%lookup_insert_cases; eauto.
  - repeat split; cbn.
    + intros mv [Hne Hin]%list_elem_of_filter.
      rewrite lookup_delete_ne by done. by apply Hmv.
    + intros i q c [_ Hq]%lookup_delete_cases. eauto.
    + intros i q s [_ Hq]%lookup_delete_cases. eauto.
  - repeat split; cbn; [done| |done].
    intros i q c Hq Hc. eapply insert_keeps_Some, Hcat; eauto.
  - repeat split; cbn; [done| |done].
    intros i q c Hq Hc.
    rewrite lookup_delete_ne; [by eapply Hcat|].
    intros ->. by eapply category_referenced_false.
  - repeat split; cbn; [done|done|].
    intros i q s Hq Hs. eapply insert_keeps_Some, Hsup; eauto.
  - repeat split; cbn; [done|done|].
    intros i q s Hq Hs.
    rewrite lookup_delete_ne; [by eapply Hsup|].
    intros ->. by eapply supplier_referenced_false.
Qed.

Lemma shop_referential_integrity stock : referential_integrity (shop stock).
Proof.
  repeat split; cbn.
  - by intros mv ?%elem_of_nil.
  - by intros id p c [_ <-]%lookup_singleton_Some.
  - by intros id p s [_ <-]%lookup_singleton_Some.
Qed.

Lemma referential_integrity_kept_witness :
  referential_integrity
    (perform (as_user id_ana id_m1 1)
       (Movements_onSubmit (movement_form id_p1 entry (hundredths 500)))
       (shop 1000)).1.
Proof. apply referential_integrity_kept. apply shop_referential_integrity. Defined.

(** X2: every operation of the application keeps product codes unique. *)
Theorem codes_unique_kept ctx op db :
  codes_unique db → codes_unique (perform ctx op db).1.
Proof.
  intros Huniq.
  destruct (perform_performed ctx op db)
    as [->|NEW p _ _ _ _ _ _ _ _ _ _ _ _ Hp _ ->
        |c NEW _ _ Hfresh Hcode Hfree _ _ _ _ _ _ _ ->
        |id c OLD NEW _ _ Hold Hcode Hfree _ _ _ _ _ _ _ ->
        |id _ _ _ ->|id d _ ->|id _ Href ->|id d _ ->|id _ Href ->];
    try done.
  - intros i j q1 q2. cbn.
    intros [[<- ->]|[Hi Hq1]]%lookup_insert_cases
           [[<- ->]|[Hj Hq2]]%lookup_insert_cases; cbn; try done.
    + intros Hc. by apply (Huniq _ _ _ _ Hp Hq2).
    + intros Hc. by apply (Huniq _ _ _ _ Hq1 Hp).
    + by apply Huniq.
  - intros i j q1 q2. cbn.
    intros [[<- ->]|[Hi Hq1]]%lookup_insert_cases
           [[<- ->]|[Hj Hq2]]%lookup_insert_cases; try done.
    + rewrite Hcode. intros Hc. symmetry in Hc.
      by destruct (code_in_use_false _ _ _ _ _ Hfree Hq2).
    + rewrite Hcode. intros Hc.
      by destruct (code_in_use_false _ _ _ _ _ Hfree Hq1).
    + by apply Huniq.
  - intros i j q1 q2. cbn.
    intros [[<- ->]|[Hi Hq1]]%lookup_insert_cases
           [[<- ->]|[Hj Hq2]]%lookup_insert_cases; try done.
    + rewrite Hcode. intros Hc. symmetry in Hc.
      by destruct (code_in_use_false _ _ _ _ _ Hfree Hq2).
    + rewrite Hcode. intros Hc.
      by destruct (code_in_use_false _ _ _ _ _ Hfree Hq1).
    + by apply Huniq.
  - intros i j q1 q2. cbn.
    intros [_ Hq1]%lookup_delete_cases [_ Hq2]%lookup_delete_cases.
    by apply Huniq.
Qed.

Lemma shop_codes_unique stock : codes_unique (shop stock).
Proof.
  intros i j p q. cbn.
  by intros [<- _]%lookup_singleton_Some [<- _]%lookup_singleton_Some.
Qed.

Lemma codes_unique_kept_witness :
  codes_unique
    (perform (as_user id_ana id_p2 7)
       (ProductDialog_submit None (gadget_form (hundredths 500))) (shop 1000)).1.
Proof. apply codes_unique_kept. apply shop_codes_unique. Defined.

(** X3: every operation of the application keeps the ids of the stored
    movements distinct. *)
Theorem movement_ids_unique_kept ctx op db :
  movement_ids_unique db → movement_ids_unique (perform ctx op db).1.
Proof.
  unfold movement_ids_unique. intros Huniq.
  destruct (perform_performed ctx op db)
    as [->|NEW p _ _ _ Hid _ Hfresh _ _ _ _ _ _ _ _ ->
        |c NEW _ _ _ _ _ _ _ _ _ _ _ _ ->
        |id c OLD NEW _ _ _ _ _ _ _ _ _ _ _ _ ->
        |id _ _ _ ->|id d _ ->|id _ _ ->|id d _ ->|id _ _ ->];
    try done.
  - cbn. rewrite fmap_app. apply NoDup_app. repeat split; [done| |].
    + intros x Hx ->%list_elem_of_singleton.
      by apply movement_exists_false in Hfresh.
    + apply NoDup_singleton.
  - cbn. eapply sublist_NoDup; [exact Huniq|].
    apply fmap_sublist, sublist_filter.
Qed.

Lemma movement_ids_unique_kept_witness :
  length (stock_movements shop_with_history) = 2%nat ∧
  length (stock_movements
            (perform (as_user id_ana id_m3 3)
               (Movements_onSubmit (movement_form id_p1 exit (hundredths 100)))
               shop_with_history).1) = 3%nat ∧
  movement_ids_unique
    (perform (as_user id_ana id_m3 3)
       (Movements_onSubmit (movement_form id_p1 exit (hundredths 100)))
       shop_with_history).1.
Proof.
  split; [reflexivity|]. split; [reflexivity|].
  apply movement_ids_unique_kept.
  unfold movement_ids_unique. apply (bool_decide_unpack _). by vm_compute.
Defined.

(** X4: every operation of the application keeps every stored quantity,
    threshold and price within [DECIMAL(10,2)]: a movement or an edit that
    would take one out of the range is refused. *)
Theorem columns_in_range_kept ctx op db :
  columns_in_range db → columns_in_range (perform ctx op db).1.
Proof.
  intros [Hps Hms].
  destruct (perform_performed ctx op db)
    as [->|NEW p _ _ _ _ _ _ Hq _ _ _ _ _ Hp Hfit ->
        |c NEW _ _ _ _ _ _ _ _ _ Hcur Hmin Hprice ->
        |id c OLD NEW _ _ Hold _ _ _ _ _ _ Hcur Hmin Hprice ->
        |id _ _ _ ->|id d _ ->|id _ _ ->|id d _ ->|id _ _ ->];
    try done.
  - split; cbn.
    + intros id q [[<- ->]|[_ Hq0]]%lookup_insert_cases; [|by eapply Hps].
      cbn. destruct (Hps _ _ Hp) as (_ & Hm & Hpr). done.
    + intros mv [Hin| ->%list_elem_of_singleton]%elem_of_app; [by apply Hms|done].
  - split; cbn; [|done].
    intros id q [[<- ->]|[_ Hq0]]%lookup_insert_cases; [done|by eapply Hps].
  - split; cbn; [|done].
    intros i q [[<- ->]|[_ Hq0]]%lookup_insert_cases; [|by eapply Hps].
    destruct (Hps _ _ Hold) as (Hc & _). auto.
  - split; cbn.
    + intros i q [_ Hq0]%lookup_delete_cases. by eapply Hps.
    + intros mv [_ Hin]%list_elem_of_filter. by apply Hms.
Qed.

Lemma shop_columns_in_range : columns_in_range (shop 1000).
Proof.
  split; cbn.
  - intros id p [_ <-]%lookup_singleton_Some. cbn. repeat split.
    by intros x [= <-].
  - by intros mv ?%elem_of_nil.
Qed.

Lemma columns_in_range_kept_witness :
  columns_in_range
    (perform (as_user id_ana id_m1 1)
       (Movements_onSubmit (movement_form id_p1 entry (hundredths 500)))
       (shop 1000)).1.
Proof. apply columns_in_range_kept. apply shop_columns_in_range. Defined.

(** X5: every operation of the application keeps minimum stocks and prices
    at zero or above: both product forms refuse negative ones, and nothing
    else writes them. *)
Theorem thresholds_nonnegative_kept ctx op db :
  thresholds_nonnegative db → thresholds_nonnegative (perform ctx op db).1.
Proof.
  intros Hnn.
  destruct (perform_performed ctx op db)
    as [->|NEW p _ _ _ _ _ _ _ _ _ _ _ _ Hp _ ->
        |c NEW Hop _ _ _ _ _ _ Hmin Hprice _ _ _ ->
        |id c OLD NEW Hop _ _ _ _ _ _ Hmin Hprice _ _ _ ->
        |id _ _ _ ->|id d _ ->|id _ _ ->|id d _ ->|id _ _ ->];
    try done.
  - intros id q. cbn. intros [[<- ->]|[_ Hq0]]%lookup_insert_cases; [|by eapply Hnn].
    cbn. by eapply Hnn.
  - apply product_write_thresholds in Hop as [Hm Hp].
    intros id q. cbn. intros [[<- ->]|[_ Hq0]]%lookup_insert_cases; [|by eapply Hnn].
    rewrite Hmin, Hprice. done.
  - apply product_write_thresholds in Hop as [Hm Hp].
    intros i q. cbn. intros [[<- ->]|[_ Hq0]]%lookup_insert_cases; [|by eapply Hnn].
    rewrite Hmin, Hprice. done.
  - intros i q. cbn. intros [_ Hq0]%lookup_delete_cases. by eapply Hnn.
Qed.

Lemma shop_thresholds_nonnegative stock : thresholds_nonnegative (shop stock).
Proof.
  intros id p. cbn. intros [_ <-]%lookup_singleton_Some. cbn. split; [lia|].
  intros x [= <-]. lia.
Qed.

Lemma thresholds_nonnegative_kept_witness :
  thresholds_nonnegative
    (perform (as_user id_ana id_x 7)
       (ProductDialog_submit (Some id_p1) (widget_form (hundredths 9900)))
       (shop 1000)).1.
Proof. apply thresholds_nonnegative_kept. apply shop_thresholds_nonnegative. Defined.

(** ** When a movement is recorded *)

(** The quantity a call would leave on the product [p]. *)
Lemma apply_movement_new ctx d pid q expiration c :
  apply_movement c (new_stock_movement ctx d pid q expiration) =
  match d_type d with
  | entry => c + q
  | exit => c - q
  | adjustment => q
  end.
Proof. reflexivity. Qed.

(** X6: for a form whose expiration date is empty or a day of the
    calendar, as the date input of the page leaves it, [recordMovement]
    succeeds exactly when the form is accepted, the caller is signed in as
    an admin or an operator, the quantity and the quantity it leaves on the
    product fit the column, the generated id is new, and the product id is
    a uuid and the one of a stored product. *)
Theorem recordMovement_Success_iff ctx values db :
  date_readable (or_null (v_expiration_date values)) →
  (recordMovement ctx values db).2 = Success ↔
  movementSchema values = true ∧
  admin_or_operator db ctx = true ∧
  numeric_fits (round_scale_2 (v_quantity values)) = true ∧
  movement_exists (gen_random_uuid ctx) db = false ∧
  ∃ pid p,
    uuid_in (v_product_id values) = Ok pid ∧
    products db !! pid = Some p ∧
    numeric_fits
      match v_type values with
      | entry => current_stock p + round_scale_2 (v_quantity values)
      | exit => current_stock p - round_scale_2 (v_quantity values)
      | adjustment => round_scale_2 (v_quantity values)
      end = true.
Proof.
  intros Hdate. split.
  - destruct (recordMovement ctx values db) as [db' o] eqn:Hrec. cbn. intros ->.
    apply recordMovement_Success in Hrec as (Hvalid & user & Hu & Hins).
    apply insert_stock_movement_checks in Hins
      as (pid & p & Hpid & _ & Hp & Hq & Hrole & _ & Hfresh & Hfit).
    repeat split; try done. exists pid, p. split; [done|]. split; [done|].
    by rewrite apply_movement_new in Hfit.
  - intros (Hvalid & Hrole & Hq & Hfresh & pid & p & Hpid & Hp & Hfit).
    unfold admin_or_operator in Hrole.
    destruct (auth_uid ctx) as [user|] eqn:Hu; [|done].
    rewrite (recordMovement_insert _ _ _ user) by done. unfold execute.
    erewrite (insert_stock_movement_fits _ _ _ pid p); cbn; try done.
    unfold stock_movements_insert_check, admin_or_operator. cbn.
    rewrite Hu, Hrole. cbn. by apply bool_decide_eq_true.
Qed.

Lemma recordMovement_Success_iff_witness :
  (recordMovement (as_user id_ana id_m1 1)
     {| v_product_id := "{10000000-0000-4000-8000-000000000001}";
        v_type := exit; v_quantity := hundredths 250;
        v_batch_number := Some "L-7"; v_expiration_date := Some "2028-02-29";
        v_notes := None |} (shop 200)).2 = Success.
Proof.
  apply recordMovement_Success_iff; [reflexivity|].
  repeat split; try reflexivity.
  exists id_p1, (widget 200 500). repeat split; reflexivity.
Defined.

(** X7: a movement that passes every other check and would take the
    quantity of its product out of the range of the column is refused with
    [numeric_value_out_of_range], and nothing is stored. *)
Theorem movement_beyond_range_refused ctx values db pid p :
  movementSchema values = true →
  date_readable (or_null (v_expiration_date values)) →
  admin_or_operator db ctx = true →
  numeric_fits (round_scale_2 (v_quantity values)) = true →
  movement_exists (gen_random_uuid ctx) db = false →
  uuid_in (v_product_id values) = Ok pid →
  products db !! pid = Some p →
  numeric_fits
    match v_type values with
    | entry => current_stock p + round_scale_2 (v_quantity values)
    | exit => current_stock p - round_scale_2 (v_quantity values)
    | adjustment => round_scale_2 (v_quantity values)
    end = false →
  recordMovement ctx values db =
    (db, Failure (PostgrestError numeric_value_out_of_range)).
Proof.
  intros Hvalid Hdate Hrole Hq Hfresh Hpid Hp Hfit.
  assert (∃ user, auth_uid ctx = Some user) as [user Hu].
  { unfold admin_or_operator in Hrole. destruct (auth_uid ctx); [eauto|done]. }
  rewrite (recordMovement_insert _ _ _ user) by done.
  unfold execute, insert_stock_movement, numeric_in, to_numeric_10_2.
  cbn [d_product_id d_quantity d_expiration_date dataToSave].
  rewrite Hpid. cbn. rewrite Hq. cbn. rewrite Hdate. cbn.
  unfold stock_movements_insert_check. cbn. rewrite Hrole, Hu. cbn.
  rewrite bool_decide_eq_true_2 by done. cbn. rewrite Hfresh.
  unfold product_id_fkey. cbn. rewrite Hp. cbn.
  rewrite update_product_stock_apply. unfold update_current_stock. cbn.
  rewrite Hp. cbn. unfold to_numeric_10_2.
  rewrite apply_movement_new. cbn. by rewrite Hfit.
Qed.

Lemma movement_beyond_range_refused_witness :
  recordMovement (as_user id_ana id_m1 1)
    (movement_form id_p1 entry (hundredths 1)) (shop 9999999999)
  = (shop 9999999999, Failure (PostgrestError numeric_value_out_of_range)).
Proof.
  apply (movement_beyond_range_refused (as_user id_ana id_m1 1)
           (movement_form id_p1 entry (hundredths 1)) (shop 9999999999)
           id_p1 (widget 9999999999 500));
    reflexivity.
Defined.

(** The quantity a successful call leaves. *)
Lemma recordMovement_leaves ctx values db db' pid p :
  uuid_in (v_product_id values) = Ok pid →
  products db !! pid = Some p →
  recordMovement ctx values db = (db', Success) →
  ∃ p', products db' !! pid = Some p' ∧
        1 ≤ round_scale_2 (v_quantity values) ∧
        current_stock p' =
          match v_type values with
          | entry => current_stock p + round_scale_2 (v_quantity values)
          | exit => current_stock p - round_scale_2 (v_quantity values)
          | adjustment => round_scale_2 (v_quantity values)
          end.
Proof.
  intros Hpid Hp Hrec.
  pose proof Hrec as (Hvalid & _)%recordMovement_Success.
  apply movementSchema_spec in Hvalid as (_ & Hpos%round_scale_2_accepted & _).
  apply recordMovement_effect in Hrec
    as (user & pid0 & p0 & _ & Hpid0 & Hp0 & _ & _ & Hps).
  rewrite Hpid in Hpid0. injection Hpid0 as <-.
  rewrite Hp in Hp0. injection Hp0 as <-.
  eexists. rewrite Hps, lookup_insert_eq. split; [done|]. split; [done|].
  cbn. by rewrite apply_movement_new.
Qed.

(** X8: a recorded entry raises the quantity of its product and a recorded
    exit lowers it, each by at least 0.01; an entry and an exit of the same
    quantity, recorded one after the other in either order, leave the
    quantity they found. *)
Theorem entry_and_exit_cancel :
  (∀ ctx values db db' pid p,
     uuid_in (v_product_id values) = Ok pid →
     products db !! pid = Some p →
     recordMovement ctx values db = (db', Success) →
     ∃ p', products db' !! pid = Some p' ∧
       (v_type values = entry → current_stock p < current_stock p') ∧
       (v_type values = exit → current_stock p' < current_stock p))
  ∧ (∀ ctx1 ctx2 first second db db1 db2 pid p,
       (v_type first = entry ∧ v_type second = exit) ∨
       (v_type first = exit ∧ v_type second = entry) →
       uuid_in (v_product_id first) = Ok pid →
       uuid_in (v_product_id second) = Ok pid →
       round_scale_2 (v_quantity second) = round_scale_2 (v_quantity first) →
       products db !! pid = Some p →
       recordMovement ctx1 first db = (db1, Success) →
       recordMovement ctx2 second db1 = (db2, Success) →
       ∃ p2, products db2 !! pid = Some p2 ∧
             current_stock p2 = current_stock p).
Proof.
  split.
  - intros ctx values db db' pid p Hpid Hp Hrec.
    destruct (recordMovement_leaves _ _ _ _ _ _ Hpid Hp Hrec)
      as (p' & Hp' & Hpos & Hq).
    exists p'. split; [done|]. split; intros Hk; rewrite Hk in Hq; lia.
  - intros ctx1 ctx2 first second db db1 db2 pid p Hkinds Hpid1 Hpid2 Hq Hp
      Hrec1 Hrec2.
    destruct (recordMovement_leaves _ _ _ _ _ _ Hpid1 Hp Hrec1)
      as (p1 & Hp1 & _ & Hq1).
    destruct (recordMovement_leaves _ _ _ _ _ _ Hpid2 Hp1 Hrec2)
      as (p2 & Hp2 & _ & Hq2).
    exists p2. split; [done|].
    rewrite Hq2, Hq1, Hq.
    destruct Hkinds as [[-> ->]|[-> ->]]; lia.
Qed.

Lemma entry_and_exit_cancel_witness :
  ∃ p2,
    products
      (record_all
         [(as_user id_ana id_m1 1, movement_form id_p1 exit (hundredths 1500));
          (as_user id_ana id_m2 2, movement_form id_p1 entry (hundredths 1500))]
         (shop 1000)) !! id_p1 = Some p2 ∧
    current_stock p2 = 1000.
Proof.
  apply (proj2 entry_and_exit_cancel (as_user id_ana id_m1 1) (as_user id_ana id_m2 2)
           (movement_form id_p1 exit (hundredths 1500))
           (movement_form id_p1 entry (hundredths 1500))
           (shop 1000)
           (recordMovement (as_user id_ana id_m1 1)
              (movement_form id_p1 exit (hundredths 1500)) (shop 1000)).1
           (record_all
              [(as_user id_ana id_m1 1, movement_form id_p1 exit (hundredths 1500));
               (as_user id_ana id_m2 2, movement_form id_p1 entry (hundredths 1500))]
              (shop 1000))
           id_p1 (widget 1000 500)); try reflexivity.
  right. split; reflexivity.
Defined.

(** X9: two entries or exits of one product leave the same quantity in
    whichever order they are recorded. *)
Theorem entries_and_exits_commute ctx1 ctx2 a b db da dab db_ dba pid p :
  v_type a ≠ adjustment →
  v_type b ≠ adjustment →
  uuid_in (v_product_id a) = Ok pid →
  uuid_in (v_product_id b) = Ok pid →
  products db !! pid = Some p →
  recordMovement ctx1 a db = (da, Success) →
  recordMovement ctx2 b da = (dab, Success) →
  recordMovement ctx2 b db = (db_, Success) →
  recordMovement ctx1 a db_ = (dba, Success) →
  ∃ pab pba,
    products dab !! pid = Some pab ∧
    products dba !! pid = Some pba ∧
    current_stock pab = current_stock pba.
Proof.
  intros Ha Hb Hpida Hpidb Hp Hrec1 Hrec2 Hrec3 Hrec4.
  destruct (recordMovement_leaves _ _ _ _ _ _ Hpida Hp Hrec1) as (p1 & Hp1 & _ & Hq1).
  destruct (recordMovement_leaves _ _ _ _ _ _ Hpidb Hp1 Hrec2) as (p2 & Hp2 & _ & Hq2).
  destruct (recordMovement_leaves _ _ _ _ _ _ Hpidb Hp Hrec3) as (p3 & Hp3 & _ & Hq3).
  destruct (recordMovement_leaves _ _ _ _ _ _ Hpida Hp3 Hrec4) as (p4 & Hp4 & _ & Hq4).
  exists p2, p4. repeat split; try done.
  rewrite Hq2, Hq1, Hq4, Hq3.
  destruct (v_type a), (v_type b); try done; lia.
Qed.

Lemma entries_and_exits_commute_witness :
  ∃ pab pba,
    products
      (record_all
         [(as_user id_ana id_m1 1, movement_form id_p1 entry (hundredths 200));
          (as_user id_ana id_m2 2, movement_form id_p1 exit (hundredths 300))]
         (shop 1000)) !! id_p1 = Some pab ∧
    products
      (record_all
         [(as_user id_ana id_m2 2, movement_form id_p1 exit (hundredths 300));
          (as_user id_ana id_m1 1, movement_form id_p1 entry (hundredths 200))]
         (shop 1000)) !! id_p1 = Some pba ∧
    current_stock pab = current_stock pba.
Proof.
  apply (entries_and_exits_commute
           (as_user id_ana id_m1 1) (as_user id_ana id_m2 2)
           (movement_form id_p1 entry (hundredths 200))
           (movement_form id_p1 exit (hundredths 300))
           (shop 1000)
           (recordMovement (as_user id_ana id_m1 1)
              (movement_form id_p1 entry (hundredths 200)) (shop 1000)).1
           (record_all
              [(as_user id_ana id_m1 1, movement_form id_p1 entry (hundredths 200));
               (as_user id_ana id_m2 2, movement_form id_p1 exit (hundredths 300))]
              (shop 1000))
           (recordMovement (as_user id_ana id_m2 2)
              (movement_form id_p1 exit (hundredths 300)) (shop 1000)).1
           (record_all
              [(as_user id_ana id_m2 2, movement_form id_p1 exit (hundredths 300));
               (as_user id_ana id_m1 1, movement_form id_p1 entry (hundredths 200))]
              (shop 1000))
           id_p1 (widget 1000 500));
    first [reflexivity | done].
Defined.

(** X10: whenever an operation makes the movement table grow, the new row
    carries the id of the caller, who is an admin or an operator, the time
    of the request and the generated id; its quantity is at least 0.01, its
    optional texts are absent rather than empty, its product exists, and
    from the entry and exit dialogs it is no adjustment. *)
Theorem appended_movement_is_stamped ctx op db NEW :
  stock_movements (perform ctx op db).1 = stock_movements db ++ [NEW] →
  submits_movement op = true ∧
  auth_uid ctx = Some (user_id NEW) ∧
  admin_or_operator db ctx = true ∧
  m_id NEW = gen_random_uuid ctx ∧
  created_at NEW = NOW ctx ∧
  1 ≤ quantity NEW ∧
  batch_number NEW ≠ Some "" ∧
  expiration_date NEW ≠ Some "" ∧
  notes NEW ≠ Some "" ∧
  is_Some (products db !! product_id NEW) ∧
  (∀ t formData, op = StockMovementDialog_submit t formData →
                 type NEW ≠ adjustment).
Proof.
  intros Hgrown.
  assert (Hlen : length (stock_movements (perform ctx op db).1)
                 = S (length (stock_movements db))).
  { rewrite Hgrown, length_app. cbn. lia. }
  destruct (perform_performed ctx op db)
    as [Heq|NEW' p Hop Hu Hrole Hid Hat _ _ Hpos Hb He Hn Hkind Hp _ Heq
        |c NEW' _ _ _ _ _ _ _ _ _ _ _ _ Heq
        |id c OLD NEW' _ _ _ _ _ _ _ _ _ _ _ _ Heq
        |id _ _ _ Heq|id d _ Heq|id _ _ Heq|id d _ Heq|id _ _ Heq];
    rewrite Heq in Hgrown, Hlen; cbn in Hgrown, Hlen; try lia.
  - apply app_inv_head in Hgrown. injection Hgrown as ->.
    repeat split; try done; try (by eauto).
    intros t formData Hdialog. rewrite (Hkind _ _ Hdialog). by destruct t.
  - pose proof (length_filter (λ mv, product_id mv ≠ id) (stock_movements db)). lia.
Qed.

Lemma appended_movement_is_stamped_witness :
  submits_movement (Movements_onSubmit (movement_form id_p1 entry (hundredths 500)))
  = true ∧
  auth_uid (as_user id_ana id_m1 1) =
    Some (user_id (new_stock_movement (as_user id_ana id_m1 1)
                     (dataToSave id_ana (movement_form id_p1 entry (hundredths 500)))
                     id_p1 500 None)) ∧
  admin_or_operator (shop 1000) (as_user id_ana id_m1 1) = true.
Proof.
  destruct (appended_movement_is_stamped (as_user id_ana id_m1 1)
              (Movements_onSubmit (movement_form id_p1 entry (hundredths 500)))
              (shop 1000)
              (new_stock_movement (as_user id_ana id_m1 1)
                 (dataToSave id_ana (movement_form id_p1 entry (hundredths 500))) id_p1 500 None))
    as (H1 & H2 & H3 & _).
  - reflexivity.
  - repeat split; assumption.
Defined.

(** ** Who may write *)

Lemma only_admin_admin_or_operator db ctx :
  only_admin db ctx = true → admin_or_operator db ctx = true.
Proof.
  unfold only_admin, admin_or_operator. destruct (auth_uid ctx); [|done].
  by intros ->.
Qed.

Lemma perform_without_role ctx op db :
  admin_or_operator db ctx = false → (perform ctx op db).1 = db.
Proof.
  intros Hrole.
  assert (Hadmin : only_admin db ctx = false).
  { apply not_true_is_false. intros H%only_admin_admin_or_operator. congruence. }
  destruct (perform_performed ctx op db)
    as [Heq|NEW p _ _ Hr _ _ _ _ _ _ _ _ _ _ _ _
        |c NEW _ Hr _ _ _ _ _ _ _ _ _ _ _
        |id c OLD NEW _ Hr _ _ _ _ _ _ _ _ _ _ _
        |id _ Ha _ _|id d Ha _|id Ha _ _|id d Ha _|id Ha _ _];
    congruence.
Qed.

(** X11: a caller who is neither admin nor operator changes nothing,
    whatever operations of the application they try and in whatever
    order. *)
Theorem without_role_nothing_changes calls db :
  (∀ ctx op, (ctx, op) ∈ calls → admin_or_operator db ctx = false) →
  perform_all calls db = db.
Proof.
  induction calls as [|[ctx op] calls IH]; intros Hroles; cbn; [done|].
  rewrite perform_without_role by (apply (Hroles ctx op); left).
  apply IH. intros ctx' op' Hin. apply (Hroles ctx' op'). by right.
Qed.

Lemma without_role_nothing_changes_witness :
  perform_all
    [(as_user id_bob id_m1 1,
      Movements_onSubmit (movement_form id_p1 entry (hundredths 500)));
     (as_user id_bob id_x 2,
      ProductDialog_submit (Some id_p1) (widget_form (hundredths 9900)));
     (as_user id_bob id_x 3, Products_delete id_p1)]
    (shop 1000) = shop 1000.
Proof.
  apply without_role_nothing_changes.
  intros ctx op Hin. apply list_elem_of_In in Hin. cbn in Hin.
  intuition; match goal with H : _ = (ctx, op) |- _ => injection H as <- <- end;
    reflexivity.
Defined.

(** X12: only an admin removes anything or touches categories and
    suppliers: after any operation by somebody else every product and every
    movement is still stored, and the category and supplier tables are as
    they were. *)
Theorem only_admin_removes ctx op db :
  only_admin db ctx = false →
  categories (perform ctx op db).1 = categories db ∧
  suppliers (perform ctx op db).1 = suppliers db ∧
  (∀ id, is_Some (products db !! id) → is_Some (products (perform ctx op db).1 !! id)) ∧
  (∀ mv, mv ∈ stock_movements db → mv ∈ stock_movements (perform ctx op db).1).
Proof.
  intros Hadmin.
  destruct (perform_performed ctx op db)
    as [->|NEW p _ _ _ _ _ _ _ _ _ _ _ _ _ _ ->
        |c NEW _ _ _ _ _ _ _ _ _ _ _ _ ->
        |id c OLD NEW _ _ _ _ _ _ _ _ _ _ _ _ ->
        |id _ Ha _ _|id d Ha _|id Ha _ _|id d Ha _|id Ha _ _];
    try congruence; cbn; repeat split; try done.
  - intros i. apply insert_keeps_Some.
  - intros mv Hin. apply elem_of_app. by left.
  - intros i. apply insert_keeps_Some.
  - intros i. apply insert_keeps_Some.
Qed.

Lemma only_admin_removes_witness :
  categories (perform (as_user id_ana id_x 1) (Categories_delete id_c2) catalogue).1
  = categories catalogue ∧
  suppliers (perform (as_user id_ana id_x 1) (Categories_delete id_c2) catalogue).1
  = suppliers catalogue ∧
  (∀ id, is_Some (products catalogue !! id) →
         is_Some (products (perform (as_user id_ana id_x 1) (Categories_delete id_c2)
                              catalogue).1 !! id)) ∧
  (∀ mv, mv ∈ stock_movements catalogue →
         mv ∈ stock_movements (perform (as_user id_ana id_x 1) (Categories_delete id_c2)
                                 catalogue).1).
Proof. apply only_admin_removes. reflexivity. Defined.

Lemma numeric_in_round q :
  numeric_fits (round_scale_2 q) = true → numeric_in q = Ok (round_scale_2 q).
Proof. intros Hfit. unfold numeric_in, to_numeric_10_2. by rewrite Hfit. Qed.

(** X13: what row-level security hides is not reported: deleting a product
    without being an admin, or editing one without being an admin or an
    operator, ends with the success message and changes nothing, while
    creating a product without the role fails with
    [insufficient_privilege]. *)
Theorem hidden_rows_report_success :
  (∀ ctx id db,
     only_admin db ctx = false →
     Products_deleteMutation ctx id db = (db, Success))
  ∧ (∀ ctx id values db,
       admin_or_operator db ctx = false →
       productSchema values = true →
       numeric_fits (round_scale_2 (f_minimum_stock values)) = true →
       numeric_fits (round_scale_2 (f_current_stock values)) = true →
       (∀ q, f_price values = Some q → numeric_fits (round_scale_2 q) = true) →
       ProductDialog_onSubmit ctx (Some id) values db = (db, Success))
  ∧ (∀ ctx values db,
       admin_or_operator db ctx = false →
       productSchema values = true →
       numeric_fits (round_scale_2 (f_minimum_stock values)) = true →
       numeric_fits (round_scale_2 (f_current_stock values)) = true →
       (∀ q, f_price values = Some q → numeric_fits (round_scale_2 q) = true) →
       ProductDialog_onSubmit ctx None values db =
         (db, Failure (PostgrestError insufficient_privilege))).
Proof.
  assert (Hprice : ∀ values,
            (∀ q, f_price values = Some q → numeric_fits (round_scale_2 q) = true) →
            ∃ h, numeric_in_opt (number_or_null (f_price values)) = Ok h).
  { intros values Hfit. destruct (f_price values) as [q|] eqn:Hq; cbn; [|eauto].
    destruct (Qeq_bool q 0); cbn; [eauto|].
    unfold numeric_in, to_numeric_10_2. rewrite (Hfit q) by done. cbn. eauto. }
  split; [|split].
  - intros ctx id db Hadmin.
    unfold Products_deleteMutation, report, execute, delete_product.
    destruct (products db !! id); [|done]. by rewrite Hadmin.
  - intros ctx id values db Hrole Hvalid Hmin Hcur Hp.
    destruct (Hprice values Hp) as [h Hh].
    unfold ProductDialog_onSubmit, ProductDialog_saveMutation. rewrite Hvalid.
    unfold report, execute, update_product, product_dataToSave.
    cbn [c_minimum_stock c_current_stock c_price].
    rewrite (numeric_in_round _ Hmin). cbn.
    rewrite (numeric_in_round _ Hcur). cbn. rewrite Hh. cbn.
    destruct (products db !! id); [|done]. by rewrite Hrole.
  - intros ctx values db Hrole Hvalid Hmin Hcur Hp.
    destruct (Hprice values Hp) as [h Hh].
    unfold ProductDialog_onSubmit, ProductDialog_saveMutation. rewrite Hvalid.
    unfold report, execute, insert_product, product_dataToSave.
    cbn [c_minimum_stock c_current_stock c_price].
    rewrite (numeric_in_round _ Hmin). cbn.
    rewrite (numeric_in_round _ Hcur). cbn. rewrite Hh. cbn. by rewrite Hrole.
Qed.

Lemma hidden_rows_report_success_witness :
  Products_deleteMutation (as_user id_ana id_x 9) id_p1 shop_with_history
  = (shop_with_history, Success).
Proof.
  apply (proj1 hidden_rows_report_success (as_user id_ana id_x 9) id_p1
           shop_with_history).
  reflexivity.
Defined.

(** ** Signing up *)

Lemma has_role_set_user_roles rs db u r :
  has_role (set_user_roles rs db) u r =
  existsb (λ x : string * app_role, bool_decide (x.1 = u) && bool_decide (x.2 = r)) rs.
Proof. reflexivity. Qed.

Lemma has_role_none db u r :
  (∀ r', (u, r') ∉ user_roles db) → has_role db u r = false.
Proof.
  intros Hnone. unfold has_role. apply not_true_is_false.
  intros ([u' r'] & Hin & Hx)%existsb_exists. cbn in Hx.
  apply andb_true_iff in Hx as [->%bool_decide_eq_true _].
  apply list_elem_of_In in Hin. by apply (Hnone r').
Qed.

(** X14: somebody who signs up gets a profile with their name and the role
    viewer and no other; the roles of everybody else are as before; and
    whatever operation of the application the newcomer tries changes
    nothing. *)
Theorem new_user_is_viewer now NEW b b' :
  (∀ r, (au_id NEW, r) ∉ user_roles (public b)) →
  handle_new_user now NEW b = Ok b' →
  has_role (public b') (au_id NEW) viewer = true ∧
  has_role (public b') (au_id NEW) operator = false ∧
  has_role (public b') (au_id NEW) admin = false ∧
  full_name <$> profiles b' !! au_id NEW = Some (au_full_name NEW) ∧
  (∀ u r, u ≠ au_id NEW → has_role (public b') u r = has_role (public b) u r) ∧
  products (public b') = products (public b) ∧
  stock_movements (public b') = stock_movements (public b) ∧
  (∀ ctx op, auth_uid ctx = Some (au_id NEW) →
             (perform ctx op (public b')).1 = public b').
Proof.
  intros Hnone. unfold handle_new_user.
  case_bool_decide; [done|].
  destruct (existsb _ _); [done|]. intros [= <-]. cbn [public profiles].
  assert (Hroles : ∀ u r,
            has_role (set_user_roles (user_roles (public b) ++ [(au_id NEW, viewer)])
                        (public b)) u r =
            has_role (public b) u r
            || bool_decide (au_id NEW = u) && bool_decide (viewer = r)).
  { intros u r. rewrite has_role_set_user_roles, existsb_app. cbn.
    by rewrite orb_false_r. }
  assert (Hop : has_role (set_user_roles
                            (user_roles (public b) ++ [(au_id NEW, viewer)])
                            (public b)) (au_id NEW) operator = false).
  { rewrite Hroles, has_role_none by done. cbn.
    by destruct (bool_decide (au_id NEW = au_id NEW)). }
  assert (Had : has_role (set_user_roles
                            (user_roles (public b) ++ [(au_id NEW, viewer)])
                            (public b)) (au_id NEW) admin = false).
  { rewrite Hroles, has_role_none by done. cbn.
    by destruct (bool_decide (au_id NEW = au_id NEW)). }
  repeat split; try done.
  - rewrite Hroles. by rewrite !bool_decide_eq_true_2, orb_true_r.
  - by rewrite lookup_insert_eq.
  - intros u r Hne. rewrite Hroles.
    rewrite (bool_decide_eq_false_2 (au_id NEW = u)) by done.
    by rewrite orb_false_r.
  - intros ctx op Hu. apply perform_without_role.
    unfold admin_or_operator. rewrite Hu. by rewrite Had, Hop.
Qed.

Lemma new_user_is_viewer_witness :
  has_role
    (set_user_roles (user_roles (shop 1000) ++ [(id_zoe, viewer)]) (shop 1000))
    id_zoe viewer = true ∧
  (perform (as_user id_zoe id_m9 9)
     (Movements_onSubmit (movement_form id_p1 exit (hundredths 100)))
     (set_user_roles (user_roles (shop 1000) ++ [(id_zoe, viewer)]) (shop 1000))).1
  = set_user_roles (user_roles (shop 1000) ++ [(id_zoe, viewer)]) (shop 1000).
Proof.
  destruct (new_user_is_viewer 5 newcomer
              {| public := shop 1000; profiles := ∅ |}
              {| public := set_user_roles
                             (user_roles (shop 1000) ++ [(id_zoe, viewer)]) (shop 1000);
                 profiles := {[ id_zoe := {| full_name := Some "Zoe";
                                            avatar_url := None;
                                            pr_created_at := 5;
                                            pr_updated_at := 5 |} ]} |})
    as (Hviewer & _ & _ & _ & _ & _ & _ & Hnothing).
  - intros r Hin. apply list_elem_of_In in Hin. cbn in Hin.
    unfold id_ana, id_bob, id_eve, id_zoe in Hin. intuition congruence.
  - reflexivity.
  - split; [exact Hviewer|].
    apply (Hnothing (as_user id_zoe id_m9 9)). reflexivity.
Defined.

(** ** Categories and suppliers in use *)

Lemma category_referenced_true id db pid p :
  products db !! pid = Some p → category_id p = Some id →
  category_referenced id db = true.
Proof.
  intros Hp Hcat. apply existsb_exists. exists (pid, p). split.
  - apply list_elem_of_In. by apply elem_of_map_to_list.
  - by apply bool_decide_eq_true.
Qed.

Lemma category_unreferenced id db :
  (∀ pid p, products db !! pid = Some p → category_id p ≠ Some id) →
  category_referenced id db = false.
Proof.
  intros Hnone. apply not_true_is_false.
  intros ([pid p] & Hin%list_elem_of_In%elem_of_map_to_list
          & Hcat%bool_decide_eq_true)%existsb_exists.
  by apply (Hnone pid p).
Qed.

Lemma supplier_referenced_true id db pid p :
  products db !! pid = Some p → supplier_id p = Some id →
  supplier_referenced id db = true.
Proof.
  intros Hp Hsup. apply existsb_exists. exists (pid, p). split.
  - apply list_elem_of_In. by apply elem_of_map_to_list.
  - by apply bool_decide_eq_true.
Qed.

Lemma supplier_unreferenced id db :
  (∀ pid p, products db !! pid = Some p → supplier_id p ≠ Some id) →
  supplier_referenced id db = false.
Proof.
  intros Hnone. apply not_true_is_false.
  intros ([pid p] & Hin%list_elem_of_In%elem_of_map_to_list
          & Hsup%bool_decide_eq_true)%existsb_exists.
  by apply (Hnone pid p).
Qed.

(** X15: a category that a product points at cannot be deleted: the delete
    leaves the database as it was, and for an admin it fails with the
    foreign-key violation; a stored category that no product points at is
    deleted by an admin.  The same holds for suppliers. *)
Theorem rows_in_use_are_not_deleted :
  (∀ ctx id db pid p,
     products db !! pid = Some p → category_id p = Some id →
     (Categories_deleteMutation ctx id db).1 = db ∧
     (only_admin db ctx = true → is_Some (categories db !! id) →
      (Categories_deleteMutation ctx id db).2 =
        Failure (PostgrestError foreign_key_violation)))
  ∧ (∀ ctx id db,
       only_admin db ctx = true → is_Some (categories db !! id) →
       (∀ pid p, products db !! pid = Some p → category_id p ≠ Some id) →
       Categories_deleteMutation ctx id db =
         (set_categories (delete id (categories db)) db, Success))
  ∧ (∀ ctx id db pid p,
       products db !! pid = Some p → supplier_id p = Some id →
       (Suppliers_deleteMutation ctx id db).1 = db ∧
       (only_admin db ctx = true → is_Some (suppliers db !! id) →
        (Suppliers_deleteMutation ctx id db).2 =
          Failure (PostgrestError foreign_key_violation)))
  ∧ (∀ ctx id db,
       only_admin db ctx = true → is_Some (suppliers db !! id) →
       (∀ pid p, products db !! pid = Some p → supplier_id p ≠ Some id) →
       Suppliers_deleteMutation ctx id db =
         (set_suppliers (delete id (suppliers db)) db, Success)).
Proof.
  split; [|split; [|split]].
  - intros ctx id db pid p Hp Hcat.
    pose proof (category_referenced_true _ _ _ _ Hp Hcat) as Href.
    unfold Categories_deleteMutation, report, execute. split.
    + destruct (categories db !! id); [|done].
      destruct (only_admin db ctx); [|done]. cbn. by rewrite Href.
    + intros Hadmin [c Hc]. rewrite Hc, Hadmin. cbn. by rewrite Href.
  - intros ctx id db Hadmin [c Hc] Hnone.
    unfold Categories_deleteMutation, report, execute.
    rewrite Hc, Hadmin. cbn. by rewrite category_unreferenced.
  - intros ctx id db pid p Hp Hsup.
    pose proof (supplier_referenced_true _ _ _ _ Hp Hsup) as Href.
    unfold Suppliers_deleteMutation, report, execute. split.
    + destruct (suppliers db !! id); [|done].
      destruct (only_admin db ctx); [|done]. cbn. by rewrite Href.
    + intros Hadmin [c Hc]. rewrite Hc, Hadmin. cbn. by rewrite Href.
  - intros ctx id db Hadmin [c Hc] Hnone.
    unfold Suppliers_deleteMutation, report, execute.
    rewrite Hc, Hadmin. cbn. by rewrite supplier_unreferenced.
Qed.

Lemma rows_in_use_are_not_deleted_witness :
  (Categories_deleteMutation (as_user id_eve id_x 9) id_c1 catalogue).1 = catalogue ∧
  (Categories_deleteMutation (as_user id_eve id_x 9) id_c1 catalogue).2 =
    Failure (PostgrestError foreign_key_violation).
Proof.
  destruct (proj1 rows_in_use_are_not_deleted (as_user id_eve id_x 9) id_c1 catalogue
              id_p1 (in_category (Some id_c1) (Some id_s1) (widget 1000 500)))
    as [Hsame Hfails]; try reflexivity.
  split; [exact Hsame|]. apply Hfails; [reflexivity|].
  exists {| cat_name := "Tools"; cat_description := None |}. reflexivity.
Defined.

(** ** The lists of movements *)

Lemma StronglySorted_filter {A} (R : relation A) (P : A → Prop)
    `{!∀ x, Decision (P x)} (l : list A) :
  StronglySorted R l → StronglySorted R (filter P l).
Proof.
  induction 1 as [|x l Hl IH Hx]; [constructor|].
  rewrite filter_cons. destruct (decide (P x)); [|done].
  constructor; [done|].
  apply Forall_forall. intros y [_ Hy]%list_elem_of_filter.
  by eapply Forall_forall in Hx.
Qed.

Lemma NoDup_fmap_eq {A B} (f : A → B) (l : list A) x y :
  NoDup (f <$> l) → x ∈ l → y ∈ l → f x = f y → x = y.
Proof.
  induction l as [|z l IH]; cbn; [by intros _ ?%elem_of_nil|].
  intros [Hz Hl]%NoDup_cons [->|Hx]%elem_of_cons [->|Hy]%elem_of_cons Hf; try done.
  - destruct Hz. rewrite Hf. by apply list_elem_of_fmap_2.
  - destruct Hz. rewrite <- Hf. by apply list_elem_of_fmap_2.
  - by apply IH.
Qed.

(** With distinct timestamps, a list of movements has one order, the most
    recent first. *)
Lemma order_by_created_at_desc_unique ms page :
  NoDup (created_at <$> ms) →
  StronglySorted not_older page → page ≡ₚ ms →
  page = order_by_created_at_desc ms.
Proof.
  intros Hdistinct Hsorted Hperm.
  apply (StronglySorted_unique_strong not_older); [|done| |].
  - intros x y Hx Hy Hxy Hyx. unfold not_older in *.
    apply (NoDup_fmap_eq created_at ms x y Hdistinct).
    + by rewrite <- Hperm.
    + by rewrite <- (order_by_created_at_desc_Permutation ms).
    + lia.
  - apply order_by_created_at_desc_sorted.
  - by rewrite order_by_created_at_desc_Permutation.
Qed.

Lemma filteredMovements_kind t ms :
  filteredMovements (filter_kind t) (Some ms) = Some (filter (λ mv, type mv = t) ms).
Proof.
  unfold filteredMovements. cbn. f_equal. apply list_filter_iff.
  intros mv. split; [intros [|[= ->]]|intros ->]; try done. by right.
Qed.

(** X16: when no two movements carry the same timestamp, the entries page
    and the exits page show what the movements page shows under its filter
    for that kind, in the same order: any answer to their query, its rows
    of the one kind ordered from the most recent, is that filtered list.
    Adjustments are on neither page. *)
Theorem kind_pages_match_filter t db page :
  NoDup (created_at <$> stock_movements db) →
  StronglySorted not_older page →
  page ≡ₚ filter (λ mv, type mv = t) (stock_movements db) →
  Some page = filteredMovements (filter_kind t) (Some (select_movements db)) ∧
  page = select_movements_of_type t db ∧
  (t ≠ adjustment → ∀ mv, mv ∈ page → type mv ≠ adjustment).
Proof.
  intros Hdistinct Hsorted Hperm.
  assert (Hsub : NoDup (created_at <$> filter (λ mv, type mv = t) (stock_movements db))).
  { eapply sublist_NoDup; [exact Hdistinct|]. apply fmap_sublist, sublist_filter. }
  pose proof (order_by_created_at_desc_unique _ _ Hsub Hsorted Hperm) as Hpage.
  repeat split.
  - rewrite filteredMovements_kind. f_equal. rewrite Hpage.
    symmetry. apply order_by_created_at_desc_unique; [done| |].
    + apply StronglySorted_filter, order_by_created_at_desc_sorted.
    + unfold select_movements. by rewrite order_by_created_at_desc_Permutation.
  - done.
  - intros Ht mv Hmv. rewrite Hperm in Hmv.
    apply list_elem_of_filter in Hmv as [-> _]. done.
Qed.

Lemma kind_pages_match_filter_witness :
  Some [movement_at id_m7 entry 7000; movement_at id_m6 entry 6000;
        movement_at id_m5 entry 5000; movement_at id_m4 entry 4000;
        movement_at id_m2 entry 2000; movement_at id_m1 entry 1000] =
    filteredMovements (filter_kind entry) (Some (select_movements busy_day)) ∧
  [movement_at id_m7 entry 7000; movement_at id_m6 entry 6000;
   movement_at id_m5 entry 5000; movement_at id_m4 entry 4000;
   movement_at id_m2 entry 2000; movement_at id_m1 entry 1000] =
    select_movements_of_type entry busy_day ∧
  (entry ≠ adjustment →
   ∀ mv, mv ∈ [movement_at id_m7 entry 7000; movement_at id_m6 entry 6000;
               movement_at id_m5 entry 5000; movement_at id_m4 entry 4000;
               movement_at id_m2 entry 2000; movement_at id_m1 entry 1000] →
         type mv ≠ adjustment).
Proof.
  apply kind_pages_match_filter.
  - apply (bool_decide_unpack _). by vm_compute.
  - repeat first [apply SSorted_nil | apply SSorted_cons | apply Forall_nil_2
                 | apply Forall_cons_2 | (unfold not_older; cbn; lia)].
  - etransitivity; [|apply reverse_Permutation]. reflexivity.
Defined.

(** ** The reports *)

Lemma count_of_type_Some t ms :
  count_of_type t (Some ms) = length (filter (λ mv, type mv = t) ms).
Proof. reflexivity. Qed.

Lemma length_by_type (ms : list stock_movement) :
  (length (filter (λ mv, type mv = entry) ms)
   + length (filter (λ mv, type mv = exit) ms)
   + length (filter (λ mv, type mv = adjustment) ms) = length ms)%nat.
Proof.
  induction ms as [|mv ms IH]; [done|].
  rewrite !filter_cons.
  repeat case_decide; try congruence; cbn [length]; try lia.
  by destruct (type mv).
Qed.

(** X17: the three bars of the chart by kind add up to the number of
    movements the reports page loaded, the figure of its last card; while
    the query loads, all four are zero. *)
Theorem bars_add_up :
  (∀ movements,
     (Entradas (movementsByType movements) + Saidas (movementsByType movements)
      + Ajustes (movementsByType movements) = or_zero (length <$> movements))%nat)
  ∧ (∀ b db,
       (Entradas (r_movementsByType (Reports b db))
        + Saidas (r_movementsByType (Reports b db))
        + Ajustes (r_movementsByType (Reports b db))
        = r_movements (Reports b db))%nat).
Proof.
  assert (Hsum : ∀ movements,
     (Entradas (movementsByType movements) + Saidas (movementsByType movements)
      + Ajustes (movementsByType movements) = or_zero (length <$> movements))%nat).
  { intros [ms|]; [|done]. cbn [movementsByType Entradas Saidas Ajustes].
    rewrite !count_of_type_Some. apply length_by_type. }
  split; [exact Hsum|]. intros b db. apply Hsum.
Qed.

(** X18: in the dashboard's list of recent movements every movement that is
    no entry is labelled an exit, so the label there agrees with the label
    of the movements page for entries and exits and differs for
    adjustments. *)
Theorem dashboard_labels_adjustments_as_exits t :
  (dashboard_label t = getMovementLabel t ↔ t ≠ adjustment) ∧
  (t ≠ entry → dashboard_label t = getMovementLabel exit).
Proof. destruct t; split; try done; split; done. Qed.

Lemma insert_by_current_stock_Permutation p l :
  insert_by_current_stock p l ≡ₚ p :: l.
Proof.
  induction l as [|x l IH]; cbn; [done|].
  destruct (current_stock x <=? current_stock p); [done|].
  rewrite IH. apply Permutation_swap.
Qed.

Lemma sort_by_current_stock_desc_Permutation ps :
  sort_by_current_stock_desc ps ≡ₚ ps.
Proof.
  induction ps as [|x ps IH]; cbn; [done|].
  by rewrite insert_by_current_stock_Permutation, IH.
Qed.

Lemma insert_by_current_stock_sorted p l :
  StronglySorted not_less_stocked l →
  StronglySorted not_less_stocked (insert_by_current_stock p l).
Proof.
  induction l as [|x l IH]; cbn; intros Hl.
  - repeat constructor.
  - apply StronglySorted_cons in Hl as [Hx Hl].
    destruct (Z.leb_spec (current_stock x) (current_stock p)) as [Hle|Hgt].
    + apply StronglySorted_cons. split; [|by apply StronglySorted_cons].
      constructor; [done|].
      eapply Forall_impl; [exact Hx|]. unfold not_less_stocked. intros y Hy. lia.
    + apply StronglySorted_cons. split; [|by apply IH].
      rewrite insert_by_current_stock_Permutation.
      constructor; [unfold not_less_stocked; lia|done].
Qed.

Lemma sort_by_current_stock_desc_sorted ps :
  StronglySorted not_less_stocked (sort_by_current_stock_desc ps).
Proof.
  induction ps as [|x ps IH]; cbn; [constructor|].
  by apply insert_by_current_stock_sorted.
Qed.

(** The sort is stable: products with the same stock keep their order. *)
Lemma insert_by_current_stock_filter c p l :
  StronglySorted not_less_stocked l →
  filter (λ q, current_stock q = c) (insert_by_current_stock p l) =
  filter (λ q, current_stock q = c) (p :: l).
Proof.
  induction l as [|x l IH]; intros Hl; [done|]. cbn [insert_by_current_stock].
  apply StronglySorted_cons in Hl as [Hx Hl].
  destruct (Z.leb_spec (current_stock x) (current_stock p)) as [Hle|Hgt]; [done|].
  rewrite filter_cons, IH by done. rewrite !(filter_cons _ p), !(filter_cons _ x).
  repeat case_decide; try done. lia.
Qed.

Lemma sort_by_current_stock_desc_stable c ps :
  filter (λ q, current_stock q = c) (sort_by_current_stock_desc ps) =
  filter (λ q, current_stock q = c) ps.
Proof.
  induction ps as [|x ps IH]; [done|]. cbn [sort_by_current_stock_desc foldr].
  rewrite insert_by_current_stock_filter by apply sort_by_current_stock_desc_sorted.
  rewrite !filter_cons. fold (sort_by_current_stock_desc ps). by rewrite IH.
Qed.

(** X19: the chart of the top products shows at most five products, as many
    as there are when there are fewer, from the largest current stock down;
    no product left out has more stock than one shown; and products with
    the same stock stay in the order the query gave them. *)
Theorem top_products_are_the_largest b db :
  length (r_topProducts (Reports b db)) = Nat.min 5 (size (products db)) ∧
  r_topProducts (Reports b db) =
    (λ p, (name p, current_stock p))
      <$> take 5 (sort_by_current_stock_desc (select_products db)) ∧
  sort_by_current_stock_desc (select_products db) ≡ₚ select_products db ∧
  StronglySorted not_less_stocked (sort_by_current_stock_desc (select_products db)) ∧
  (∀ shown left_out,
     shown ∈ take 5 (sort_by_current_stock_desc (select_products db)) →
     left_out ∈ drop 5 (sort_by_current_stock_desc (select_products db)) →
     current_stock left_out ≤ current_stock shown) ∧
  (∀ c, filter (λ q, current_stock q = c)
          (sort_by_current_stock_desc (select_products db)) =
        filter (λ q, current_stock q = c) (select_products db)).
Proof.
  repeat split.
  - cbn [Reports r_topProducts]. rewrite length_fmap, length_take.
    rewrite sort_by_current_stock_desc_Permutation.
    unfold select_products. by rewrite length_fmap, length_map_to_list.
  - apply sort_by_current_stock_desc_Permutation.
  - apply sort_by_current_stock_desc_sorted.
  - intros shown left_out Hshown Hleft.
    pose proof (sort_by_current_stock_desc_sorted (select_products db)) as Hsorted.
    rewrite <- (take_drop 5 (sort_by_current_stock_desc (select_products db)))
      in Hsorted.
    by apply (StronglySorted_app_1_elem_of _ _ _ _ _ Hsorted).
  - intros c. apply sort_by_current_stock_desc_stable.
Qed.

(** X20: the reports page sorts the products array in place before it
    counts, and still shows the same number of products and of products low
    on stock as the dashboard, the number of stored products and of those
    at or below their minimum. *)
Theorem reports_agree_with_dashboard b b' db :
  r_totalProducts (Reports b db) = card_totalProducts (Dashboard b' db) ∧
  r_totalProducts (Reports b db) = size (products db) ∧
  r_lowStockProducts (Reports b db) = card_lowStockProducts (Dashboard b' db) ∧
  (r_lowStockProducts (Reports b db) ≤ r_totalProducts (Reports b db))%nat.
Proof.
  assert (Htotal : r_totalProducts (Reports b db) = length (select_products db)).
  { cbn [Reports r_totalProducts]. cbn [fmap option_fmap option_map or_zero default].
    by rewrite sort_by_current_stock_desc_Permutation. }
  assert (Hlow : r_lowStockProducts (Reports b db) =
                 lowStockProducts (Some (select_products db))).
  { cbn [Reports r_lowStockProducts]. rewrite !lowStockProducts_Some.
    by rewrite sort_by_current_stock_desc_Permutation. }
  repeat split.
  - by rewrite Htotal.
  - rewrite Htotal. unfold select_products.
    by rewrite length_fmap, length_map_to_list.
  - by rewrite Hlow.
  - rewrite Hlow, Htotal, lowStockProducts_Some. apply length_filter.
Qed.

(** Counting by key, one key after the other, counts every element whose
    key is listed once. *)
Lemma sum_counts_by_key {A K} `{!EqDecision K} (key : A → K) (ks : list K)
    (l : list A) :
  NoDup ks →
  sum_list ((λ k, length (filter (λ a, key a = k) l)) <$> ks) =
  length (filter (λ a, key a ∈ ks) l).
Proof.
  induction 1 as [|k ks Hk Hks IH]; cbn.
  - induction l as [|a l IHl]; [done|].
    rewrite filter_cons. rewrite decide_False; [done|]. by intros ?%elem_of_nil.
  - rewrite IH. clear IH. induction l as [|a l IHl]; [done|].
    rewrite !filter_cons.
    destruct (decide (key a = k)) as [Hak|Hak];
      destruct (decide (key a ∈ ks)) as [Hin|Hin];
      destruct (decide (key a ∈ k :: ks)) as [Hin'|Hin'];
      rewrite elem_of_cons in Hin'; cbn [length];
      first [lia | tauto | (rewrite Hak in Hin; tauto)].
Qed.

Lemma toDateString_subDays b t k :
  toDateString b (subDays t k) = toDateString b t - k.
Proof.
  unfold toDateString, subDays, day_ms.
  replace (t - k * 86400000 + utc_offset b)
    with (t + utc_offset b + (- k) * 86400000) by lia.
  rewrite Z.div_add by lia. lia.
Qed.

Lemma last7Days_point b ms (i : nat) :
  (i < 7)%nat →
  last7Days b (Some ms) !! i =
  Some {| date := toDateString b (clock b) - (6 - Z.of_nat i);
          entradas :=
            length (filter (λ mv, toDateString b (created_at mv)
                                  = toDateString b (clock b) - (6 - Z.of_nat i))
                      (filter (λ mv, type mv = entry) ms));
          saidas :=
            length (filter (λ mv, toDateString b (created_at mv)
                                  = toDateString b (clock b) - (6 - Z.of_nat i))
                      (filter (λ mv, type mv = exit) ms)) |}.
Proof.
  intros Hi. unfold last7Days. rewrite list_lookup_fmap.
  rewrite lookup_seq_lt by done. cbn [fmap option_fmap option_map].
  rewrite toDateString_subDays, !count_of_type_Some. cbn [plus].
  f_equal. f_equal.
  - rewrite !list_filter_filter. f_equal. apply list_filter_iff. tauto.
  - rewrite !list_filter_filter. f_equal. apply list_filter_iff. tauto.
Qed.

(** A movement of today is less than a day away from the clock. *)
Lemma toDateString_same_day b t t' :
  toDateString b t = toDateString b t' → t' - day_ms < t.
Proof.
  unfold toDateString, day_ms. intros Hday.
  pose proof (Z.div_mod (t + utc_offset b) 86400000 ltac:(lia)) as Ht.
  pose proof (Z.div_mod (t' + utc_offset b) 86400000 ltac:(lia)) as Ht'.
  pose proof (Z.mod_pos_bound (t + utc_offset b) 86400000 ltac:(lia)).
  pose proof (Z.mod_pos_bound (t' + utc_offset b) 86400000 ltac:(lia)).
  rewrite Hday in Ht. lia.
Qed.

Lemma last7Days_dates b movements :
  date <$> last7Days b movements =
  (λ i : nat, toDateString b (clock b) - (6 - Z.of_nat i)) <$> seq 0 7.
Proof.
  unfold last7Days. rewrite <- list_fmap_compose. apply list_fmap_ext.
  intros i n _. cbn. apply toDateString_subDays.
Qed.

Lemma last7Days_entradas b ms :
  entradas <$> last7Days b (Some ms) =
  (λ d, length (filter (λ mv, toDateString b (created_at mv) = d)
                  (filter (λ mv, type mv = entry) ms)))
    <$> ((λ i : nat, toDateString b (clock b) - (6 - Z.of_nat i)) <$> seq 0 7).
Proof.
  unfold last7Days. rewrite <- !list_fmap_compose. apply list_fmap_ext.
  intros i n _. cbn [compose entradas fmap option_fmap option_map].
  rewrite toDateString_subDays, count_of_type_Some, !list_filter_filter.
  f_equal. apply list_filter_iff. tauto.
Qed.

Lemma last7Days_saidas b ms :
  saidas <$> last7Days b (Some ms) =
  (λ d, length (filter (λ mv, toDateString b (created_at mv) = d)
                  (filter (λ mv, type mv = exit) ms)))
    <$> ((λ i : nat, toDateString b (clock b) - (6 - Z.of_nat i)) <$> seq 0 7).
Proof.
  unfold last7Days. rewrite <- !list_fmap_compose. apply list_fmap_ext.
  intros i n _. cbn [compose saidas fmap option_fmap option_map].
  rewrite toDateString_subDays, count_of_type_Some, !list_filter_filter.
  f_equal. apply list_filter_iff. tauto.
Qed.

Lemma seven_days_NoDup (today : Z) :
  NoDup ((λ i : nat, today - (6 - Z.of_nat i)) <$> seq 0 7).
Proof.
  cbn. repeat (apply NoDup_cons; split;
               [rewrite ?elem_of_cons, elem_of_nil; lia|]).
  apply NoDup_nil_2.
Qed.

Lemma seven_days_elem_of (today d : Z) :
  d ∈ (λ i : nat, today - (6 - Z.of_nat i)) <$> seq 0 7 ↔
  today - 6 ≤ d ≤ today.
Proof. cbn. rewrite ?elem_of_cons, elem_of_nil. lia. Qed.

(** The movements of one kind that the chart of the reports shows are the
    movements of the table of that kind made in the last seven days: the
    thirty days of the query leave none of them out. *)
Lemma seven_days_of_the_table b db t :
  filter (λ mv, toDateString b (created_at mv) ∈
                  (λ i : nat, toDateString b (clock b) - (6 - Z.of_nat i)) <$> seq 0 7)
    (filter (λ mv, type mv = t) (reports_movements b db)) =
  filter (λ mv, type mv = t ∧
                toDateString b (clock b) - 6 ≤ toDateString b (created_at mv)
                  ≤ toDateString b (clock b))
    (stock_movements db).
Proof.
  unfold reports_movements. rewrite !list_filter_filter.
  apply list_filter_iff. intros mv. rewrite seven_days_elem_of.
  split; [tauto|]. intros [Ht Hday]. repeat split; try tauto.
  pose proof (toDateString_subDays b (clock b) 6) as Hsix.
  unfold subDays, toDateString, day_ms in *.
  pose proof (Z.div_mod (created_at mv + utc_offset b) 86400000 ltac:(lia)).
  pose proof (Z.div_mod (clock b - 6 * 86400000 + utc_offset b) 86400000 ltac:(lia)).
  pose proof (Z.mod_pos_bound (created_at mv + utc_offset b) 86400000 ltac:(lia)).
  pose proof (Z.mod_pos_bound (clock b - 6 * 86400000 + utc_offset b) 86400000 ltac:(lia)).
  lia.
Qed.

(** X21: the chart of the last seven days of the reports has one point for
    each of the seven local calendar days that end today, in that order; its
    counts of entries, and of exits, add up to the entries, and the exits,
    of the whole table made on those days; and the point of today counts
    every entry and exit of today, where the dashboard's counters read the
    five latest movements only. *)
Theorem last7Days_covers_the_week b db :
  let today := toDateString b (clock b) in
  let chart := r_last7Days (Reports b db) in
  date <$> chart =
    [today - 6; today - 5; today - 4; today - 3; today - 2; today - 1; today] ∧
  sum_list (entradas <$> chart) =
    length (filter (λ mv, type mv = entry ∧
                          today - 6 ≤ toDateString b (created_at mv) ≤ today)
              (stock_movements db)) ∧
  sum_list (saidas <$> chart) =
    length (filter (λ mv, type mv = exit ∧
                          today - 6 ≤ toDateString b (created_at mv) ≤ today)
              (stock_movements db)) ∧
  (entradas <$> last chart) =
    Some (length (filter (of_kind_today b entry) (stock_movements db))) ∧
  (saidas <$> last chart) =
    Some (length (filter (of_kind_today b exit) (stock_movements db))) ∧
  (card_todayEntries (Dashboard b db) ≤ default 0%nat (entradas <$> last chart))%nat ∧
  (card_todayExits (Dashboard b db) ≤ default 0%nat (saidas <$> last chart))%nat.
Proof.
  intros today chart.
  assert (Hlast : ∀ t,
    filter (λ mv, toDateString b (created_at mv) = today - (6 - Z.of_nat 6))
      (filter (λ mv, type mv = t) (reports_movements b db)) =
    filter (of_kind_today b t) (stock_movements db)).
  { intros t. unfold reports_movements. rewrite !list_filter_filter.
    apply list_filter_iff. intros mv. unfold of_kind_today.
    replace (today - (6 - Z.of_nat 6)) with today by lia.
    split; [intros ((? & ?) & ?); by split|]. intros [Ht Hday].
    repeat split; try done.
    pose proof (toDateString_same_day b _ _ (eq_sym Hday)).
    unfold subDays, day_ms in *. lia. }
  assert (Hpoint : last chart =
    Some {| date := today - (6 - Z.of_nat 6);
            entradas := length (filter (of_kind_today b entry) (stock_movements db));
            saidas := length (filter (of_kind_today b exit) (stock_movements db)) |}).
  { rewrite last_lookup. subst chart. unfold Reports. cbn [r_last7Days].
    assert (Hlen : length (last7Days b (Some (reports_movements b db))) = 7%nat)
      by (unfold last7Days; by rewrite length_fmap, length_seq).
    rewrite Hlen. cbn [Nat.pred]. rewrite last7Days_point by lia.
    by rewrite !Hlast. }
  split; [|split; [|split; [|split; [|split; [|split]]]]].
  - subst chart. unfold Reports. cbn [r_last7Days].
    rewrite last7Days_dates. cbn. fold today. repeat f_equal; lia.
  - subst chart. unfold Reports. cbn [r_last7Days].
    rewrite last7Days_entradas, sum_counts_by_key by apply seven_days_NoDup.
    by rewrite seven_days_of_the_table.
  - subst chart. unfold Reports. cbn [r_last7Days].
    rewrite last7Days_saidas, sum_counts_by_key by apply seven_days_NoDup.
    by rewrite seven_days_of_the_table.
  - by rewrite Hpoint.
  - by rewrite Hpoint.
  - rewrite Hpoint. unfold Dashboard. cbn [card_todayEntries].
    rewrite todayEntries_Some. apply today_count_le_table.
  - rewrite Hpoint. unfold Dashboard. cbn [card_todayExits].
    rewrite todayExits_Some. apply today_count_le_table.
Qed.

(** Two properties that split a list split its length. *)
Lemma length_filter_split {A} (P Q : A → Prop)
    `{!∀ x, Decision (P x)} `{!∀ x, Decision (Q x)} (l : list A) :
  (∀ x, x ∈ l → (P x ∨ Q x) ∧ ¬ (P x ∧ Q x)) →
  (length (filter P l) + length (filter Q l) = length l)%nat.
Proof.
  induction l as [|x l IH]; intros Hsplit; [done|].
  rewrite !filter_cons.
  specialize (IH (λ y Hy, Hsplit y (list_elem_of_further _ _ _ Hy))).
  destruct (Hsplit x (list_elem_of_here _ _)) as [Hor Hnand].
  destruct (decide (P x)), (decide (Q x)); cbn [length]; first [lia | tauto].
Qed.

Lemma catalogue_referential_integrity : referential_integrity catalogue.
Proof.
  repeat split; cbn.
  - by intros mv ?%elem_of_nil.
  - intros id p c [_ <-]%lookup_singleton_Some. cbn. by intros [= <-].
  - intros id p s [_ <-]%lookup_singleton_Some. cbn. by intros [= <-].
Qed.

(** X22: with every category of a product pointing at a stored category,
    the chart of products by category has one slice for every stored
    category, named after it, and the slices count every product that has a
    category once: with the products without a category they make the
    total of the page. *)
Theorem stockByCategory_partitions b db :
  referential_integrity db →
  ∃ slices,
    r_stockByCategory (Reports b db) = Some slices ∧
    slices.*1 = cat_name <$> (map_to_list (categories db)).*2 ∧
    (sum_list slices.*2 +
     length (filter (λ p, category_id p = None) (select_products db)) =
     r_totalProducts (Reports b db))%nat.
Proof.
  intros (_ & Hcat & _).
  exists ((λ cat : string * category,
             (cat_name cat.2,
              length (filter (λ p : product, category_id p = Some cat.1)
                        (select_products db))))
            <$> map_to_list (categories db)).
  split; [reflexivity|]. split.
  - rewrite <- !list_fmap_compose. by apply list_fmap_ext.
  - assert (Htotal : r_totalProducts (Reports b db) = length (select_products db)).
    { cbn [Reports r_totalProducts].
      cbn [fmap option_fmap option_map or_zero default].
      by rewrite sort_by_current_stock_desc_Permutation. }
    rewrite Htotal.
    rewrite <- (length_filter_split
                  (λ p, category_id p ∈ Some <$> (map_to_list (categories db)).*1)
                  (λ p, category_id p = None) (select_products db)).
    + f_equal.
      rewrite <- (sum_counts_by_key category_id)
        by (apply (NoDup_fmap_2 _), NoDup_fst_map_to_list).
      f_equal. rewrite <- !list_fmap_compose. by apply list_fmap_ext.
    + intros p Hp. unfold select_products in Hp.
      apply list_elem_of_fmap in Hp as ([id p'] & -> & Hp).
      apply elem_of_map_to_list in Hp. cbn [snd].
      destruct (category_id p') as [c|] eqn:Hc.
      * split; [left|by intros [_ ?]].
        destruct (Hcat id p' c Hp Hc) as [cat Hcat'].
        apply list_elem_of_fmap. exists c. split; [done|].
        apply list_elem_of_fmap. exists (c, cat). split; [done|].
        by apply elem_of_map_to_list.
      * split; [by right|]. intros [Hin _].
        by apply list_elem_of_fmap in Hin as (? & ? & _).
Qed.

Lemma stockByCategory_partitions_witness :
  ∃ slices,
    r_stockByCategory (Reports at_noon catalogue) = Some slices ∧
    slices.*1 = cat_name <$> (map_to_list (categories catalogue)).*2 ∧
    (sum_list slices.*2 +
     length (filter (λ p, category_id p = None) (select_products catalogue)) =
     r_totalProducts (Reports at_noon catalogue))%nat.
Proof.
  apply (stockByCategory_partitions at_noon catalogue).
  apply catalogue_referential_integrity.
Defined.

(** ** The time stamps of a product *)

Lemma insert_product_stamps ctx c db db' :
  insert_product ctx c db = Ok db' →
  products db !! gen_random_uuid ctx = None ∧
  ∃ NEW, products db' = <[gen_random_uuid ctx := NEW]> (products db) ∧
         p_created_at NEW = NOW ctx ∧ p_updated_at NEW = NOW ctx.
Proof.
  unfold insert_product.
  destruct (numeric_in _) as [minimum|e]; cbn; [|done].
  destruct (numeric_in_opt (c_current_stock c)) as [current|e]; cbn; [|done].
  destruct (numeric_in_opt (c_price c)) as [price|e]; cbn; [|done].
  destruct (admin_or_operator db ctx); cbn; [|done].
  case_bool_decide as Hfresh; [done|].
  destruct (code_in_use _ _ _); [done|].
  destruct (products_fkeys _ _); cbn; [|done].
  intros [= <-]. split; [by apply eq_None_not_Some|]. by eexists.
Qed.

Lemma update_product_stamps ctx id c db db' :
  update_product ctx id c db = Ok db' →
  db' = db ∨
  ∃ OLD NEW,
    products db !! id = Some OLD ∧
    products db' = <[id := NEW]> (products db) ∧
    p_created_at NEW = p_created_at OLD ∧ p_updated_at NEW = NOW ctx.
Proof.
  unfold update_product.
  destruct (numeric_in _) as [minimum|e]; cbn; [|done].
  destruct (numeric_in_opt (c_current_stock c)) as [current|e]; cbn; [|done].
  destruct (numeric_in_opt (c_price c)) as [price|e]; cbn; [|done].
  destruct (products db !! id) as [OLD|] eqn:Hold; [|intros [= <-]; by left].
  destruct (admin_or_operator db ctx); cbn; [|intros [= <-]; by left].
  destruct (code_in_use _ _ _); [done|].
  destruct (products_fkeys _ _); cbn; [|done].
  intros [= <-]. right. by eexists OLD, _.
Qed.

Lemma product_write_stamps ctx target c db db' o j p' :
  report (execute
            match target with
            | Some id => update_product ctx id c
            | None => insert_product ctx c
            end db) = (db', o) →
  products db' !! j = Some p' →
  products db !! j = Some p' ∨
  (p_updated_at p' = NOW ctx ∧
   match products db !! j with
   | Some p => p_created_at p' = p_created_at p
   | None => p_created_at p' = NOW ctx
   end).
Proof.
  intros [[Hst _]|(e & _ & -> & _)]%report_execute Hp'; [|by left].
  destruct target as [id|].
  - apply update_product_stamps in Hst
      as [->|(OLD & NEW & Hold & Hps & Hcreated & Hupdated)]; [by left|].
    rewrite Hps in Hp'.
    apply lookup_insert_cases in Hp' as [[<- ->]|[_ Hp']]; [|by left].
    right. by rewrite Hold.
  - apply insert_product_stamps in Hst
      as (Hfresh & NEW & Hps & Hcreated & Hupdated).
    rewrite Hps in Hp'.
    apply lookup_insert_cases in Hp' as [[<- ->]|[_ Hp']]; [|by left].
    right. by rewrite Hfresh.
Qed.

(** X23: after any operation of the application, a product row is the row
    that was there before, or it carries the time of the operation as its
    [updated_at], with the [created_at] of the row it replaces, or the time
    of the operation as its [created_at] when it is new.  A movement stamps
    the product it moves. *)
Theorem product_rows_are_stamped ctx op db :
  (∀ id p',
     products (perform ctx op db).1 !! id = Some p' →
     products db !! id = Some p' ∨
     (p_updated_at p' = NOW ctx ∧
      match products db !! id with
      | Some p => p_created_at p' = p_created_at p
      | None => p_created_at p' = NOW ctx
      end)) ∧
  (∀ NEW,
     submits_movement op = true →
     stock_movements (perform ctx op db).1 = stock_movements db ++ [NEW] →
     ∃ p p', products db !! product_id NEW = Some p ∧
             products (perform ctx op db).1 !! product_id NEW = Some p' ∧
             p_updated_at p' = NOW ctx ∧ created_at NEW = NOW ctx ∧
             p_created_at p' = p_created_at p).
Proof.
  split.
  - intros j p' Hp'.
    destruct (product_write op) as [[target c]|] eqn:Hop.
    + destruct op as [values|t formData|productId values|product formData|product|id
                      |sel d|id|sel d|id]; try discriminate Hop;
        cbn [perform product_write] in *.
      * unfold ProductDialog_onSubmit, ProductDialog_saveMutation in Hp'.
        destruct (productSchema values); [|discriminate Hop].
        destruct productId as [i|];
          destruct (report _) as [db' o] eqn:Hrep in Hp'.
        -- exact (product_write_stamps ctx (Some i) _ _ _ _ _ _ Hrep Hp').
        -- exact (product_write_stamps ctx None _ _ _ _ _ _ Hrep Hp').
      * unfold packcontrol_ProductDialog_handleSubmit in Hp'.
        destruct (packcontrol_productSchema formData); [|discriminate Hop].
        destruct product as [i|];
          destruct (report _) as [db' o] eqn:Hrep in Hp'.
        -- exact (product_write_stamps ctx (Some i) _ _ _ _ _ _ Hrep Hp').
        -- exact (product_write_stamps ctx None _ _ _ _ _ _ Hrep Hp').
    + destruct (perform_written ctx op db)
        as [Hps _|NEW p _ Hp _ Hps|c NEW Hw _ _ _ _|i c OLD NEW Hw _ _ _ _
            |i _ Hps _]; try congruence.
      * left. by rewrite <- Hps.
      * rewrite Hps in Hp'.
        apply lookup_insert_cases in Hp' as [[<- ->]|[_ Hp']]; [|by left].
        right. by rewrite Hp.
      * rewrite Hps in Hp'. apply lookup_delete_cases in Hp' as [_ Hp']. by left.
  - intros NEW Hop Hms.
    destruct (perform_performed ctx op db)
      as [Heq|NEW' p _ _ _ _ Hat _ _ _ _ _ _ _ Hp _ Heq
          |c NEW' Hw _ _ _ _ _ _ _ _ _ _ _ _
          |i c OLD NEW' Hw _ _ _ _ _ _ _ _ _ _ _ _
          |i Hrem _ _ _|i d _ Heq|i _ _ Heq|i d _ Heq|i _ _ Heq];
      try (destruct op; discriminate);
      try (rewrite Heq in Hms; cbn in Hms;
           apply (f_equal length) in Hms; rewrite length_app in Hms;
           cbn in Hms; lia).
    rewrite Heq in Hms |- *. cbn in Hms. apply app_inj_tail in Hms as [_ <-].
    exists p, (set_current_stock (apply_movement (current_stock p) NEW') (NOW ctx) p).
    cbn. by rewrite lookup_insert_eq.
Qed.

Lemma product_rows_are_stamped_witness :
  ∃ p p',
    products (shop 1000) !! id_p1 = Some p ∧
    products (perform (as_user id_ana id_m1 7)
                (Movements_onSubmit (movement_form id_p1 entry (hundredths 500)))
                (shop 1000)).1 !! id_p1 = Some p' ∧
    p_updated_at p' = 7 ∧
    created_at (new_stock_movement (as_user id_ana id_m1 7)
                  (dataToSave id_ana (movement_form id_p1 entry (hundredths 500)))
                  id_p1 500 None) = 7 ∧
    p_created_at p' = p_created_at p.
Proof.
  apply (proj2 (product_rows_are_stamped (as_user id_ana id_m1 7)
                  (Movements_onSubmit (movement_form id_p1 entry (hundredths 500)))
                  (shop 1000))
           (new_stock_movement (as_user id_ana id_m1 7)
              (dataToSave id_ana (movement_form id_p1 entry (hundredths 500))) id_p1 500 None));
    reflexivity.
Defined.
